(** * OCRmyPDF pipeline: a shallow embedding of [src/ocrmypdf.py]

    The pipeline stages of [src/ocrmypdf.py] (and the rasteriser of
    [ocrmypdf/ghostscript.py]) are embedded as functions of a small
    state-and-exception monad over a world made of the file system, the shared
    page metadata list [_pdfinfo] and a trace of observable events (log
    records, lock operations, operations on the shared list, process
    operations).  External programs and the
    modules that are not part of the sources are parameters collected in an
    [environment]. *)

From Stdlib Require Import ZArith QArith Qround Lqa String Ascii List Lia Bool.
From stdpp Require Import base option list gmap strings.

Open Scope string_scope.
Open Scope Z_scope.

(* ===================================================================== *)
(** * Python text primitives *)
(* ===================================================================== *)

(** Text is a list of code points below 256 ([string]).  On this range the
    case folding of [re.IGNORECASE] is the folding of the ASCII letters. *)

Definition code (c : ascii) : N := N_of_ascii c.

Definition is_digit (c : ascii) : bool :=
  ((48 <=? code c) && (code c <=? 57))%N.

Definition digit_val (c : ascii) : Z := Z.of_N (code c) - 48.

(** [str.isspace] / the class [\s] of [re] on text patterns. *)
Definition is_space (c : ascii) : bool :=
  let n := code c in
  (((9 <=? n) && (n <=? 13)) || ((28 <=? n) && (n <=? 32))
   || (n =? 133) || (n =? 160))%N.

Definition lower (c : ascii) : ascii :=
  let n := code c in
  if ((65 <=? n) && (n <=? 90))%N then ascii_of_N (n + 32) else c.

(** Comparison of two characters under [re.IGNORECASE]. *)
Definition ieqb (a b : ascii) : bool := Ascii.eqb (lower a) (lower b).

Definition slash : ascii := "/"%char.
Definition newline : ascii := "010"%char.
Definition carriage_return : ascii := "013"%char.

(** [posixpath.basename]: [i = p.rfind('/') + 1; return p[i:]].  [cur] is the
    text after the last slash seen so far. *)
Fixpoint after_last_slash (p cur : string) : string :=
  match p with
  | EmptyString => cur
  | String c r =>
      if Ascii.eqb c slash then after_last_slash r r
      else after_last_slash r cur
  end.

Definition basename (p : string) : string := after_last_slash p p.

(** The slice [s[0:n]]. *)
Definition slice_to (n : nat) (s : string) : string := substring 0 n s.

Fixpoint rev_string (s acc : string) : string :=
  match s with
  | EmptyString => acc
  | String c r => rev_string r (String c acc)
  end.

(** The white space the builtin [int] skips at both ends of a text: the
    class of C for the characters below 127 (tab to carriage return, and
    the space) and the class of Unicode above.  The separators 28 to 31
    are white space for [str.isspace] and not for [int]. *)
Definition is_int_space (c : ascii) : bool :=
  let n := code c in
  (((9 <=? n) && (n <=? 13)) || (n =? 32) || (n =? 133) || (n =? 160))%N.

Fixpoint lstrip (s : string) : string :=
  match s with
  | String c r => if is_int_space c then lstrip r else s
  | EmptyString => EmptyString
  end.

Definition strip (s : string) : string :=
  rev_string (lstrip (rev_string (lstrip s) EmptyString)) EmptyString.

(** Digits of an integer literal; a single underscore may separate two
    digits.  [after_digit] tells whether the previous character was a digit. *)
Fixpoint int_digits (s : string) (acc : Z) (after_digit : bool) : option Z :=
  match s with
  | EmptyString => if after_digit then Some acc else None
  | String c r =>
      if is_digit c then int_digits r (10 * acc + digit_val c) true
      else if Ascii.eqb c "_"%char && after_digit then int_digits r acc false
      else None
  end.

(** An optional sign, then the digits. *)
Definition int_signed (t : string) : option Z :=
  match t with
  | String "-"%char r => Z.opp <$> int_digits r 0 false
  | String "+"%char r => int_digits r 0 false
  | _ => int_digits t 0 false
  end.

(** The builtin [int(s)] on text; [None] stands for [ValueError]. *)
Definition py_int (s : string) : option Z := int_signed (strip s).

(** Decimal digits of a natural number, most significant first.  The fuel
    is the binary logarithm of the number: a number below [2 ^ (fuel + 1)]
    has at most [fuel + 1] digits. *)
Fixpoint digits_fuel (fuel : nat) (n : N) (acc : string) : string :=
  let acc' := String (ascii_of_N (48 + n mod 10)) acc in
  match fuel with
  | O => acc'
  | S f => if (n / 10 =? 0)%N then acc' else digits_fuel f (n / 10)%N acc'
  end.

Definition digits (n : N) : string :=
  digits_fuel (N.to_nat (N.log2 n)) n EmptyString.

(** [str(n)] for an integer. *)
Definition str_int (z : Z) : string :=
  if z <? 0 then String "-"%char (digits (Z.abs_N z)) else digits (Z.abs_N z).

Fixpoint zeros (k : nat) : string :=
  match k with O => EmptyString | S k' => String "0"%char (zeros k') end.

(** The conversion [%06d] of [printf]: at least six characters, padded with
    zeros after the sign. *)
Definition printf_06d (z : Z) : string :=
  if z <? 0 then
    let d := digits (Z.abs_N z) in
    String "-"%char (zeros (5 - String.length d) ++ d)
  else
    let d := digits (Z.abs_N z) in
    zeros (6 - String.length d) ++ d.

Fixpoint endswith_rev (s suf : string) {struct suf} : bool :=
  match suf, s with
  | EmptyString, _ => true
  | String a suf', String b s' => Ascii.eqb a b && endswith_rev s' suf'
  | String _ _, EmptyString => false
  end.

(** [s.endswith(suf)]. *)
Definition endswith (s suf : string) : bool :=
  endswith_rev (rev_string s EmptyString) (rev_string suf EmptyString).

(** Every character of [s] satisfies [P]. *)
Fixpoint all_chars (P : ascii -> bool) (s : string) : bool :=
  match s with
  | EmptyString => true
  | String c r => P c && all_chars P r
  end.

(** [sep.join(l)]. *)
Fixpoint join (sep : string) (l : list string) : string :=
  match l with
  | [] => EmptyString
  | [x] => x
  | x :: r => x ++ sep ++ join sep r
  end.

(* ===================================================================== *)
(** * Regular expressions used by the pipeline *)
(* ===================================================================== *)

(** The fragment of [re] the stages use: literal characters compared under
    [re.IGNORECASE], the dot (any character but a newline), [\s], the
    quantifiers [*] and [+] on a single character class, and the anchor [^]
    under [re.MULTILINE]. *)
Inductive atom : Type :=
| Lit (c : ascii)
| Dot
| Space.

Inductive item : Type :=
| One (a : atom)
| Star (a : atom)
| Plus (a : atom)
| Bol.

Definition atom_ok (a : atom) (c : ascii) : bool :=
  match a with
  | Lit x => ieqb x c
  | Dot => negb (Ascii.eqb c newline)
  | Space => is_space c
  end.

(** Does the text after the current position start with zero or more
    characters of class [a] followed by a match of the continuation [k]?
    [bol] tells whether the current position follows a newline or starts the
    text. *)
Fixpoint match_star (a : atom) (k : bool -> string -> bool)
    (bol : bool) (s : string) : bool :=
  k bol s ||
  match s with
  | String c r => atom_ok a c && match_star a k (Ascii.eqb c newline) r
  | EmptyString => false
  end.

Fixpoint match_here (p : list item) (bol : bool) (s : string) : bool :=
  match p with
  | [] => true
  | Bol :: p' => bol && match_here p' bol s
  | One a :: p' =>
      match s with
      | String c r => atom_ok a c && match_here p' (Ascii.eqb c newline) r
      | EmptyString => false
      end
  | Star a :: p' => match_star a (match_here p') bol s
  | Plus a :: p' =>
      match s with
      | String c r =>
          atom_ok a c && match_star a (match_here p') (Ascii.eqb c newline) r
      | EmptyString => false
      end
  end.

Fixpoint search_from (p : list item) (bol : bool) (s : string) : bool :=
  match_here p bol s ||
  match s with
  | String c r => search_from p (Ascii.eqb c newline) r
  | EmptyString => false
  end.

(** [re.search(p, s, re.IGNORECASE | re.MULTILINE)] as a truth value. *)
Definition re_search (p : list item) (s : string) : bool :=
  search_from p true s.

Fixpoint lits (s : string) : list item :=
  match s with
  | EmptyString => []
  | String c r => One (Lit c) :: lits r
  end.

(** [r'ErrorMessage'] *)
Definition re_error_message : list item := lits "ErrorMessage".
(** [r'^\s+Status.*not valid'] *)
Definition re_not_valid : list item :=
  Bol :: Plus Space :: lits "Status" ++ Star Dot :: lits "not valid".
(** [r'^\s+Status.*Not well-formed'] *)
Definition re_not_well_formed : list item :=
  Bol :: Plus Space :: lits "Status" ++ Star Dot :: lits "Not well-formed".
(** [r'^\s+Profile:.*PDF/A-1'] *)
Definition re_profile_pdfa : list item :=
  Bol :: Plus Space :: lits "Profile:" ++ Star Dot :: lits "PDF/A-1".

(** The workaround pattern of [ocr_tesseract]: the text [title='image ],
    a double quote, any number of characters other than a double quote (the
    group), a double quote and a semicolon; matched without flags. *)
Definition dquote : ascii := "034"%char.

(** [strip_prefix pre s] is the text after [pre]. *)
Fixpoint strip_prefix (pre s : string) : option string :=
  match pre, s with
  | EmptyString, _ => Some s
  | String a pre', String b s' =>
      if Ascii.eqb a b then strip_prefix pre' s' else None
  | String _ _, EmptyString => None
  end.

(** Number of characters before the first double quote, when that quote is
    followed by a semicolon: the only way the group and the two closing
    characters match. *)
Fixpoint quoted_name_length (s : string) : option nat :=
  match s with
  | EmptyString => None
  | String c r =>
      if Ascii.eqb c dquote then
        match r with
        | String d _ => if Ascii.eqb d ";"%char then Some O else None
        | EmptyString => None
        end
      else S <$> quoted_name_length r
  end.

Definition image_title_prefix : string :=
  "title='image " ++ String dquote EmptyString.

(** The replacement text: the prefix, a space, a double quote, a
    semicolon. *)
Definition image_title_blank : string :=
  image_title_prefix ++ String " "%char (String dquote ";").

(** Length of the match of the pattern at the start of [s], if any. *)
Definition image_title_match (s : string) : option nat :=
  match strip_prefix image_title_prefix s with
  | Some rest =>
      (fun k => String.length image_title_prefix + k + 2)%nat
        <$> quoted_name_length rest
  | None => None
  end.

(** [regex_nested_single_quotes.sub(..., line)]: every match, from left to
    right, is replaced.  [skip] counts the characters of the current match
    that remain to be dropped. *)
Fixpoint sub_image_title (skip : nat) (s : string) : string :=
  match s with
  | EmptyString => EmptyString
  | String c r =>
      match skip with
      | S k => sub_image_title k r
      | O =>
          match image_title_match s with
          | Some n => image_title_blank ++ sub_image_title (n - 1) r
          | None => String c (sub_image_title 0 r)
          end
      end
  end.

(** Reading in text mode translates [\r\n] and [\r] to [\n]. *)
Fixpoint universal_newlines (s : string) : string :=
  match s with
  | EmptyString => EmptyString
  | String c r =>
      if Ascii.eqb c carriage_return then
        String newline
          match r with
          | String d r' =>
              if Ascii.eqb d newline then universal_newlines r'
              else universal_newlines r
          | EmptyString => EmptyString
          end
      else String c (universal_newlines r)
  end.

(** The lines of a text, each with its newline; [cur] is the current line,
    reversed. *)
Fixpoint readlines (s cur : string) : list string :=
  match s with
  | EmptyString =>
      match cur with
      | EmptyString => []
      | _ => [rev_string cur EmptyString]
      end
  | String c r =>
      if Ascii.eqb c newline
      then rev_string (String c cur) EmptyString :: readlines r EmptyString
      else readlines r (String c cur)
  end.

Fixpoint concat_strings (l : list string) : string :=
  match l with
  | [] => EmptyString
  | x :: r => x ++ concat_strings r
  end.

(* ===================================================================== *)
(** * Data model *)
(* ===================================================================== *)

(** One embedded image of a page, as the dictionaries of the page metadata
    record it: the keys [comp], [bpc] and [color]. *)
Record image : Type := {
  comp : Z;
  bpc : Z;
  color : string
}.

(** The descriptor of one page: the keys of the dictionary the stages read.
    Resolutions are numbers with a fractional part. *)
Record pageinfo : Type := {
  images : list image;
  xres : Q;
  yres : Q;
  xres_render : Q;
  yres_render : Q;
  width_pixels : Z;
  height_pixels : Z
}.

(** Modelled from the spec: the text-recognition output read by the render
    stage, which is a positioned-text description in image pixel space.
    The module [hocrtransform] that parses it is not part of the sources. *)
Record hocr_word : Type := {
  word_bbox : Z * Z * Z * Z;
  word_text : string
}.

Record hocr_page : Type := {
  hocr_width : Z;
  hocr_height : Z;
  hocr_words : list hocr_word
}.

(** Modelled from the spec: the single-page document of the render stage,
    which has the page image as visible layer and a text layer placed with
    the pixel-to-point transform of a resolution [layer_dpi]; the text is
    invisible or not and bounding boxes are drawn or not. *)
Record text_layer : Type := {
  layer_words : list hocr_word;
  layer_dpi : Z;
  layer_invisible : bool;
  layer_boxes : bool
}.

Record pdf_page : Type := {
  page_image : string;
  page_text : text_layer
}.

(** What a file holds: uninterpreted bytes (documents, images, PostScript,
    text written by a tool), a well-formed hOCR page, or a rendered
    document. *)
Inductive content : Type :=
| Bytes (data : string)
| Hocr (h : hocr_page)
| Pdf (pages : list pdf_page).

Inductive level : Type := DEBUG | INFO | WARNING | ERROR | CRITICAL.

Inductive message : Type :=
| MsgText (s : string)
| MsgStore (l : list pageinfo).

Inductive lock : Type := LoggerMutex | PdfinfoLock.

(** The operations of the stages on the shared list [_pdfinfo]:
    [pdfinfo.extend(more)] and [pdfinfo[i]]. *)
Inductive store_op : Type :=
| Extend (more : list pageinfo)
| GetItem (i : Z).

(** Observable events, in program order. *)
Inductive event : Type :=
| EAcquire (l : lock)
| ERelease (l : lock)
| EStore (op : store_op)
| ELog (lv : level) (m : message)
| EPrint (s : string)
| ESpawn (argv : list string)
| EWait
| ETimeout (seconds : Z)
| EKill.

Inductive exn : Type :=
| CalledProcessError (returncode : Z) (cmd : list string)
| RuntimeError (msg : string)
| TimeoutExpired (cmd : list string) (timeout : Z)
| IndexError
| ValueError
| FileNotFoundError (path : string)
| StopIteration
| SameFileError (path : string)
| HocrError (path : string).

(** The world the stages act on. *)
Record world : Type := {
  fs : gmap string content;
  pdfinfo : list pageinfo;
  trace : list event
}.

(** The observed run of an external program: exit status, the text Python
    reads from its two streams, the seconds it takes to exit, and the file
    system it leaves behind (when it exits or is killed).  Every stream
    that is captured is opened with [universal_newlines=True]: [stdout]
    and [stderr] are the decoded text, in which every line ends with a
    newline character.  A program whose output cannot be decoded is not
    modelled. *)
Record process : Type := {
  returncode : Z;
  stdout : string;
  stderr : string;
  elapsed : Z;
  files : gmap string content
}.

(** The command-line options the stages read.  [tesseract_config] is the
    list the text-recognition stage appends to its command line, taken as
    a list of texts: it is empty unless [--tesseract-config] is given.
    (The parser declares that option with [type=list], so a given value
    arrives as a list of characters, which is no argument of a program;
    runs with such a value are not modelled.) *)
Record options : Type := {
  language : list string;
  tesseract_config : list string;
  temp_folder : string;
  output_file : string
}.

(** What the stages take from outside [src/]: the external programs, the
    name of a fresh temporary file, and the functions of the modules
    [pageinfo], [pdfa] and [ocrmypdf] (package) that are not part of the
    sources. *)
Record environment : Type := {
  run : list string -> gmap string content -> process;
  mktemp : gmap string content -> string;
  pdf_get_all_pageinfo : content -> list pageinfo;
  generate_pdfa_def : content;
  str_float : Q -> string;
  get_program : string -> string;
  JHOVE_PATH : string;
  opts : options
}.

(* ===================================================================== *)
(** * Python numbers and sequences *)
(* ===================================================================== *)

(** The builtin [round(x)] of one argument: the nearest integer, a tie
    going to the even one. *)
Definition py_round (x : Q) : Z :=
  let f := Qfloor x in
  match Qcompare (x - inject_Z f) (1 # 2) with
  | Lt => f
  | Gt => f + 1
  | Eq => if Z.even f then f else f + 1
  end.

(** The builtin [max(a, b)]: the first of the largest arguments. *)
Definition py_max (a b : Q) : Q :=
  match Qcompare a b with
  | Lt => b
  | _ => a
  end.

(** [l[i]] on a list: a negative index counts from the end; [None] stands
    for [IndexError]. *)
Definition py_index {A : Type} (l : list A) (i : Z) : option A :=
  let n := Z.of_nat (length l) in
  if (0 <=? i) && (i <? n) then l !! Z.to_nat i
  else if (- n <=? i) && (i <? 0) then l !! Z.to_nat (n + i)
  else None.

(** The truth value of a text: non-empty. *)
Definition truthy (s : string) : bool :=
  match s with
  | EmptyString => false
  | String _ _ => true
  end.

(** [os.path.join(a, b)] on POSIX paths. *)
Definition path_join (a b : string) : string :=
  match b with
  | String c _ =>
      if Ascii.eqb c slash then b
      else if endswith a "/" || negb (truthy a) then a ++ b
      else a ++ "/" ++ b
  | EmptyString =>
      if endswith a "/" || negb (truthy a) then a else a ++ "/"
  end.

(* ===================================================================== *)
(** * The monad of stage code: state and exceptions *)
(* ===================================================================== *)

Inductive result (A : Type) : Type :=
| Ok (a : A)
| Raised (e : exn).
Arguments Ok {A} a.
Arguments Raised {A} e.

Definition M (A : Type) : Type := world -> result A * world.

#[global] Instance M_ret : MRet M := fun A a w => (Ok a, w).

#[global] Instance M_bind : MBind M := fun A B k m w =>
  match m w with
  | (Ok a, w') => k a w'
  | (Raised e, w') => (Raised e, w')
  end.

Definition raise {A : Type} (e : exn) : M A := fun w => (Raised e, w).

Definition tell (e : event) : M unit := fun w =>
  (Ok tt, {| fs := fs w; pdfinfo := pdfinfo w; trace := trace w ++ [e] |}).

Definition get_fs : M (gmap string content) := fun w => (Ok (fs w), w).

Definition put_fs (f : gmap string content) : M unit := fun w =>
  (Ok tt, {| fs := f; pdfinfo := pdfinfo w; trace := trace w |}).

Definition get_pdfinfo : M (list pageinfo) := fun w => (Ok (pdfinfo w), w).

Definition put_pdfinfo (l : list pageinfo) : M unit := fun w =>
  (Ok tt, {| fs := fs w; pdfinfo := l; trace := trace w |}).

(** [pdfinfo.extend(more)] on the shared list. *)
Definition pdfinfo_extend (more : list pageinfo) : M unit :=
  tell (EStore (Extend more));;
  l ← get_pdfinfo;
  put_pdfinfo (l ++ more).

(** [pdfinfo[i].copy()] on the shared list. *)
Definition pdfinfo_getitem (i : Z) : M pageinfo :=
  tell (EStore (GetItem i));;
  l ← get_pdfinfo;
  match py_index l i with
  | Some pageinfo => mret pageinfo
  | None => raise IndexError
  end.

(** [try: body / except: handler]; the handler tells which exceptions it
    takes. *)
Definition try_except {A : Type} (body : M A)
    (handler : exn -> option (M A)) : M A := fun w =>
  match body w with
  | (Raised e, w') =>
      match handler e with
      | Some h => h w'
      | None => (Raised e, w')
      end
  | r => r
  end.

(** [try: body / except: handler / else: orelse]: the handler does not
    cover [orelse]. *)
Definition try_except_else {A B : Type} (body : M A)
    (handler : exn -> option (M B)) (orelse : A -> M B) : M B := fun w =>
  match body w with
  | (Ok a, w') => orelse a w'
  | (Raised e, w') =>
      match handler e with
      | Some h => h w'
      | None => (Raised e, w')
      end
  end.

(** The exit of a context manager: [cleanup] runs however [body] ends. *)
Definition finally {A : Type} (body : M A) (cleanup : M unit) : M A := fun w =>
  match body w with
  | (r, w') =>
      match cleanup w' with
      | (Ok _, w'') => (r, w'')
      | (Raised e, w'') => (Raised e, w'')
      end
  end.

(** [with lock: body] *)
Definition with_lock {A : Type} (l : lock) (body : M A) : M A :=
  tell (EAcquire l);; finally body (tell (ERelease l)).

(** [with suppress(FileNotFoundError): body] *)
Definition suppress_FileNotFoundError (body : M unit) : M unit :=
  try_except body (fun e =>
    match e with
    | FileNotFoundError _ => Some (mret tt)
    | _ => None
    end).

Fixpoint for_each {A : Type} (l : list A) (body : A -> M unit) : M unit :=
  match l with
  | [] => mret tt
  | x :: r => body x;; for_each r body
  end.

Definition when (b : bool) (m : M unit) : M unit :=
  if b then m else mret tt.

(** ** class WrappedLogger: every method calls the logger under the mutex *)
Module WrappedLogger.
Definition log (lv : level) (m : message) : M unit :=
  with_lock LoggerMutex (tell (ELog lv m)).
Definition debug (m : message) : M unit :=
  with_lock LoggerMutex (tell (ELog DEBUG m)).
Definition info (m : message) : M unit :=
  with_lock LoggerMutex (tell (ELog INFO m)).
Definition warning (m : message) : M unit :=
  with_lock LoggerMutex (tell (ELog WARNING m)).
Definition error (m : message) : M unit :=
  with_lock LoggerMutex (tell (ELog ERROR m)).
Definition critical (m : message) : M unit :=
  with_lock LoggerMutex (tell (ELog CRITICAL m)).
End WrappedLogger.

(** ** Files *)

(** [os.path.exists] *)
Definition path_exists (p : string) : M bool :=
  f ← get_fs; mret (bool_decide (is_Some (f !! p))).

(** [os.unlink] *)
Definition unlink (p : string) : M unit :=
  f ← get_fs;
  match f !! p with
  | Some _ => put_fs (delete p f)
  | None => raise (FileNotFoundError p)
  end.

(** [shutil.copy].  A path stands for the file it names, and no two
    paths name one file (no links, no second spelling of a path): the two
    arguments are the same file when both exist and are the same path.
    The test for the same file fails silently on a file that is not
    there, which [open] then reports. *)
Definition copy (src dst : string) : M unit :=
  f ← get_fs;
  match f !! src with
  | Some c =>
      if bool_decide (src = dst) then raise (SameFileError src)
      else put_fs (<[dst := c]> f)
  | None => raise (FileNotFoundError src)
  end.

(** [os.rename] *)
Definition rename (src dst : string) : M unit :=
  f ← get_fs;
  match f !! src with
  | Some c => put_fs (<[dst := c]> (delete src f))
  | None => raise (FileNotFoundError src)
  end.

(** [shutil.move] *)
Definition move (src dst : string) : M unit :=
  f ← get_fs;
  match f !! src with
  | Some c => put_fs (<[dst := c]> (delete src f))
  | None => raise (FileNotFoundError src)
  end.

Definition write_file (p : string) (c : content) : M unit :=
  f ← get_fs; put_fs (<[p := c]> f).

Definition read_file (p : string) : M content :=
  f ← get_fs;
  match f !! p with
  | Some c => mret c
  | None => raise (FileNotFoundError p)
  end.

(* ===================================================================== *)
(** * Processes *)
(* ===================================================================== *)

Inductive redirect : Type := PIPE | DEVNULL.

(** A [Popen] object: the command, where its streams go, and its run. *)
Record popen : Type := {
  p_args : list string;
  p_stdout : redirect;
  p_stderr : redirect;
  p_run : process
}.

(** What [communicate] returns for a stream: its text when captured.  For
    a stream that is not captured Python returns [None], which the callers
    drop; it is the empty text here. *)
Definition captured (r : redirect) (s : string) : string :=
  match r with
  | PIPE => s
  | DEVNULL => EmptyString
  end.

Section Stages.

Context (E : environment).

Definition Popen (args : list string) (out err : redirect) : M popen :=
  tell (ESpawn args);;
  f ← get_fs;
  mret {| p_args := args; p_stdout := out; p_stderr := err;
          p_run := run E args f |}.

(** The process has exited (or was killed): its effect on the files is
    there and its streams are read to the end, as the decoded text of
    [process]. *)
Definition reap (p : popen) : M (string * string) :=
  tell EWait;;
  put_fs (files (p_run p));;
  mret (captured (p_stdout p) (stdout (p_run p)),
        captured (p_stderr p) (stderr (p_run p))).

(** [p.communicate(timeout=t)] *)
Definition communicate (p : popen) (timeout : option Z) : M (string * string) :=
  match timeout with
  | Some t =>
      if t <? elapsed (p_run p)
      then tell (ETimeout t);; raise (TimeoutExpired (p_args p) t)
      else reap p
  | None => reap p
  end.

(** [p.kill()] *)
Definition kill (p : popen) : M unit := tell EKill.

(** [subprocess.check_call(args)] *)
Definition check_call (args : list string) : M unit :=
  tell (ESpawn args);;
  f ← get_fs;
  let r := run E args f in
  tell EWait;;
  put_fs (files r);;
  if returncode r =? 0 then mret tt
  else raise (CalledProcessError (returncode r) args).

(** [with NamedTemporaryFile(delete=True) as tmp: body]; the argument of
    [body] is [tmp.name]. *)
Definition NamedTemporaryFile {A : Type} (body : string -> M A) : M A :=
  f ← get_fs;
  let name := mktemp E f in
  put_fs (<[name := Bytes EmptyString]> f);;
  finally (body name) (unlink name).

(* ===================================================================== *)
(** * The pipeline stages of [src/ocrmypdf.py] *)
(* ===================================================================== *)

Definition JHOVE_JAR : string :=
  path_join (path_join (JHOVE_PATH E) "bin") "JhoveApp.jar".
Definition JHOVE_CFG : string :=
  path_join (path_join (JHOVE_PATH E) "conf") "jhove.conf".

(** [args_mutool] of [repair_pdf] *)
Definition args_mutool (input_file output_file : string) : list string :=
  ["mutool"; "clean"; input_file; output_file].

Definition repair_pdf (input_file output_file : string) : M unit :=
  check_call (args_mutool input_file output_file);;
  with_lock PdfinfoLock (
    doc ← read_file output_file;
    pdfinfo_extend (pdf_get_all_pageinfo E doc);;
    l' ← get_pdfinfo;
    WrappedLogger.info (MsgStore l')).

(** [args_pdfseparate] of [split_pages] *)
Definition args_pdfseparate (input_file output_file_name_root : string)
    : list string :=
  ["pdfseparate"; input_file; output_file_name_root ++ "%06d.page.pdf"].

Definition split_pages (input_file : string) (output_files : list string)
    (output_file_name_root : string) : M unit :=
  for_each output_files (fun oo => suppress_FileNotFoundError (unlink oo));;
  check_call (args_pdfseparate input_file output_file_name_root).

(** The name [pdfseparate] gives the document of the page numbered [n]
    (from one) for the pattern [split_pages] passes. *)
Definition page_file (output_file_name_root : string) (n : Z) : string :=
  output_file_name_root ++ printf_06d n ++ ".page.pdf".

(** [int(os.path.basename(input_file)[0:6]) - 1] *)
Definition pageno_of (input_file : string) : option Z :=
  (fun n => n - 1) <$> py_int (slice_to 6 (basename input_file)).

Definition get_pageinfo (input_file : string) : M pageinfo :=
  match pageno_of input_file with
  | None => raise ValueError
  | Some pageno =>
      tell (EPrint (str_int pageno));;
      with_lock PdfinfoLock (pdfinfo_getitem pageno)
  end.

(** The variable [device] of [rasterize_with_ghostscript]: 24-bit colour
    unless the two tests over the images of the page select another. *)
Definition device (pageinfo : pageinfo) : string :=
  if forallb (fun image => comp image =? 1) (images pageinfo) then
    if forallb (fun image => bpc image =? 1) (images pageinfo) then "pngmono"
    else if negb (existsb (fun image => String.eqb (color image) "color")
                    (images pageinfo))
    then "pnggray"
    else "png16m"
  else "png16m".

(** [args_gs] of [rasterize_with_ghostscript] *)
Definition args_gs_raster (pageinfo : pageinfo) (tmp_name input_file : string)
    : list string :=
  ["gs"; "-dBATCH"; "-dNOPAUSE";
   "-sDEVICE=" ++ device pageinfo;
   "-o"; tmp_name;
   "-r" ++ str_float E (xres_render pageinfo) ++ "x"
        ++ str_float E (yres_render pageinfo);
   input_file].

Definition rasterize_with_ghostscript (input_file output_file : string)
    : M unit :=
  pageinfo ← get_pageinfo input_file;
  NamedTemporaryFile (fun tmp_name =>
    p ← Popen (args_gs_raster pageinfo tmp_name input_file) PIPE PIPE;
    '(stdout, stderr) ← communicate p None;
    when (truthy stdout) (WrappedLogger.debug (MsgText stdout));;
    when (truthy stderr) (WrappedLogger.error (MsgText stderr));;
    if returncode (p_run p) =? 0 then copy tmp_name output_file
    else WrappedLogger.error (MsgText "Ghostscript rendering failed")).

(** Modelled from the spec: [tesseract.HOCR_TEMPLATE.format(width, height)];
    the module [tesseract] is not part of the sources.  The fallback of the
    text-recognition stage is an empty but structurally valid artifact: an
    hOCR page of the given size in pixels with no recognized text. *)
Definition HOCR_TEMPLATE (width height : Z) : content :=
  Hocr {| hocr_width := width; hocr_height := height; hocr_words := [] |}.

(** The rewriting loop at the end of [ocr_tesseract]: every line of a text
    goes through the substitution.  A well-formed page carries no file name
    to blank out. *)
Definition rewrite_hocr (c : content) : content :=
  match c with
  | Bytes s =>
      Bytes (concat_strings
               (map (sub_image_title 0)
                  (readlines (universal_newlines s) EmptyString)))
  | Hocr h => Hocr h
  | Pdf d => Pdf d
  end.

(** [with fileinput.input(files=(path,), inplace=True) as f], with a loop
    that prints every line after it has gone through a substitution;
    [rewrite] is the effect of the loop on the text.  The module keeps the
    original under the name of the file with [.bak] added: it removes an
    old backup (a failure is ignored), renames the file to the backup,
    which fails when the file is not there, writes the output under the
    name of the file and removes the backup in the end. *)
Definition fileinput_inplace (path : string) (rewrite : content -> content)
    : M unit :=
  let backup := path ++ ".bak" in
  suppress_FileNotFoundError (unlink backup);;
  rename path backup;;
  c ← read_file backup;
  write_file path (rewrite c);;
  suppress_FileNotFoundError (unlink backup).

(** [args_tesseract] of [ocr_tesseract] *)
Definition args_tesseract (input_file output_file : string) : list string :=
  (["tesseract"; "-l"; join "+" (language (opts E));
    input_file; output_file; "hocr"] ++ tesseract_config (opts E))%list.

Definition ocr_tesseract (input_file output_file : string) : M unit :=
  pageinfo ← get_pageinfo input_file;
  p ← Popen (args_tesseract input_file output_file) PIPE PIPE;
  try_except_else (communicate p (Some 180))
    (fun e =>
       match e with
       | TimeoutExpired _ _ =>
           Some (kill p;;
                 _ ← communicate p None;
                 write_file output_file
                   (HOCR_TEMPLATE (width_pixels pageinfo)
                      (height_pixels pageinfo)))
       | _ => None
       end)
    (fun '(stdout, stderr) =>
       when (truthy stdout) (WrappedLogger.info (MsgText stdout));;
       when (truthy stderr) (WrappedLogger.error (MsgText stderr));;
       if negb (returncode (p_run p) =? 0)
       then raise (CalledProcessError (returncode (p_run p))
                     (args_tesseract input_file output_file))
       else
         html ← path_exists (output_file ++ ".html");
         (if html : bool then move (output_file ++ ".html") output_file
          else
            hocr ← path_exists (output_file ++ ".hocr");
            when (hocr : bool) (move (output_file ++ ".hocr") output_file));;
         fileinput_inplace output_file rewrite_hocr).

(** [next(ii for ii in infiles if ii.endswith(suf))] *)
Definition next_endswith (infiles : list string) (suf : string) : M string :=
  match find (fun ii => endswith ii suf) infiles with
  | Some ii => mret ii
  | None => raise StopIteration
  end.

(** Modelled from the spec: [HocrTransform(hocr, dpi)] of the module
    [hocrtransform], which is not part of the sources.  It reads the
    positioned-text description in the file [hocr]; a file that is no valid
    hOCR page cannot be used. *)
Definition HocrTransform (hocr : string) (dpi : Z) : M (hocr_page * Z) :=
  c ← read_file hocr;
  match c with
  | Hocr h => mret (h, dpi)
  | _ => raise (HocrError hocr)
  end.

(** Modelled from the spec: [HocrTransform.to_pdf] of the module
    [hocrtransform], which is not part of the sources.  It writes one
    single-page document whose visible layer is the image and whose text
    layer holds the words of the page, placed with the pixel-to-point
    transform of [dpi]. *)
Definition to_pdf (hocrtransform : hocr_page * Z) (output_file : string)
    (imageFileName : string) (showBoundingboxes invisibleText : bool)
    : M unit :=
  c ← read_file imageFileName;
  match c with
  | Bytes img =>
      write_file output_file
        (Pdf [ {| page_image := img;
                  page_text :=
                    {| layer_words := hocr_words (fst hocrtransform);
                       layer_dpi := snd hocrtransform;
                       layer_invisible := invisibleText;
                       layer_boxes := showBoundingboxes |} |} ])
  | _ => raise (HocrError imageFileName)
  end.

Definition render_page (infiles : list string) (output_file : string)
    : M unit :=
  hocr ← next_endswith infiles ".hocr";
  image ← next_endswith infiles ".page.png";
  pageinfo ← get_pageinfo image;
  let dpi := py_round (py_max (xres pageinfo) (yres pageinfo)) in
  hocrtransform ← HocrTransform hocr dpi;
  to_pdf hocrtransform output_file image false true.

Definition generate_postscript_stub (input_file output_file : string)
    : M unit :=
  write_file output_file (generate_pdfa_def E).

(** [args_gs] of [merge_pages]: the fixed options, the output, the
    PDF/A definition header, then [args_gs.extend(ocr_pages)]. *)
Definition args_gs_merge (gs_pdf_name postscript : string)
    (ocr_pages : list string) : list string :=
  (["gs"; "-dQUIET"; "-dBATCH"; "-dNOPAUSE"; "-sDEVICE=pdfwrite";
    "-sColorConversionStrategy=/RGB"; "-sProcessColorModel=DeviceRGB";
    "-dPDFA"; "-sPDFACompatibilityPolicy=2";
    "-sOutputICCProfile=srgb.icc";
    ("-sOutputFile=" ++ gs_pdf_name)%string;
    postscript] ++ ocr_pages)%list.

(** [ocr_pages, postscript = input_files[0:-1], input_files[-1]] *)
Definition merge_pages (input_files : list string) (output_file : string)
    : M unit :=
  match last input_files with
  | None => raise IndexError
  | Some postscript =>
      let ocr_pages := removelast input_files in
      NamedTemporaryFile (fun gs_pdf_name =>
        check_call (args_gs_merge gs_pdf_name postscript ocr_pages);;
        copy gs_pdf_name output_file)
  end.

(** The two flags [validate_pdfa] computes from the report. *)
Definition pdf_is_valid (stdout : string) : bool :=
  let pdf_is_valid := true in
  let pdf_is_valid :=
    if re_search re_error_message stdout then false else pdf_is_valid in
  let pdf_is_valid :=
    if re_search re_not_valid stdout then false else pdf_is_valid in
  let pdf_is_valid :=
    if re_search re_not_well_formed stdout then false else pdf_is_valid in
  pdf_is_valid.

Definition pdf_is_pdfa (stdout : string) : bool :=
  let pdf_is_pdfa := false in
  if re_search re_profile_pdfa stdout then true else pdf_is_pdfa.

(** [args_jhove] of [validate_pdfa] *)
Definition args_jhove (input_file : string) : list string :=
  ["java"; "-jar"; JHOVE_JAR; "-c"; JHOVE_CFG; "-m"; "PDF-hul"; input_file].

Definition validate_pdfa (input_file output_file : string) : M unit :=
  p_jhove ← Popen (args_jhove input_file) PIPE DEVNULL;
  '(stdout, _) ← communicate p_jhove None;
  WrappedLogger.debug (MsgText stdout);;
  if negb (returncode (p_run p_jhove) =? 0) then
    WrappedLogger.error (MsgText stdout);;
    raise (RuntimeError
             "Unexpected error while checking compliance to PDF/A file.")
  else
    let pdf_is_valid := pdf_is_valid stdout in
    let pdf_is_pdfa := pdf_is_pdfa stdout in
    (if negb pdf_is_valid then
       WrappedLogger.warning
         (MsgText "Output file: The generated PDF/A file is INVALID")
     else if pdf_is_valid && negb pdf_is_pdfa then
       WrappedLogger.warning
         (MsgText "Output file: Generated file is a VALID PDF but not PDF/A")
     else if pdf_is_valid && pdf_is_pdfa then
       WrappedLogger.info
         (MsgText "Output file: The generated PDF/A file is VALID")
     else mret tt);;
    copy input_file output_file.

(* ===================================================================== *)
(** * The rasteriser of [ocrmypdf/ghostscript.py] *)
(* ===================================================================== *)

(** [args_gs] of [rasterize_pdf] *)
Definition args_gs_pdf (tmp_name input_file : string) (xres yres : Q)
    (raster_device : string) : list string :=
  [get_program E "gs"; "-dQUIET"; "-dBATCH"; "-dNOPAUSE";
   "-sDEVICE=" ++ raster_device;
   "-o"; tmp_name;
   "-r" ++ str_float E xres ++ "x" ++ str_float E yres;
   input_file].

Definition rasterize_pdf (input_file output_file : string) (xres yres : Q)
    (raster_device : string) : M unit :=
  NamedTemporaryFile (fun tmp_name =>
    p ← Popen (args_gs_pdf tmp_name input_file xres yres raster_device)
          PIPE PIPE;
    '(stdout, stderr) ← communicate p None;
    when (truthy stdout) (WrappedLogger.debug (MsgText stdout));;
    when (truthy stderr) (WrappedLogger.error (MsgText stderr));;
    if returncode (p_run p) =? 0 then copy tmp_name output_file
    else WrappedLogger.error (MsgText "Ghostscript rendering failed")).

(** [args_gs] of [generate_pdfa] *)
Definition args_gs_pdfa (gs_pdf_name : string) (pdf_pages : list string)
    (threads : Z) : list string :=
  ([get_program E "gs"; "-dQUIET"; "-dBATCH"; "-dNOPAUSE";
    ("-dNumRenderingThreads=" ++ str_int threads)%string;
    "-sDEVICE=pdfwrite";
    "-sColorConversionStrategy=/RGB"; "-sProcessColorModel=DeviceRGB";
    "-dPDFA=2"; "-sPDFACompatibilityPolicy=2";
    "-sOutputICCProfile=srgb.icc";
    ("-sOutputFile=" ++ gs_pdf_name)%string] ++ pdf_pages)%list.

Definition generate_pdfa (pdf_pages : list string) (output_file : string)
    (threads : Z) : M unit :=
  NamedTemporaryFile (fun gs_pdf_name =>
    check_call (args_gs_pdfa gs_pdf_name pdf_pages threads);;
    copy gs_pdf_name output_file).

End Stages.

Arguments args_mutool : simpl never.
Arguments args_pdfseparate : simpl never.
Arguments args_gs_raster : simpl never.
Arguments args_tesseract : simpl never.
Arguments args_gs_merge : simpl never.
Arguments args_jhove : simpl never.
Arguments args_gs_pdf : simpl never.
Arguments args_gs_pdfa : simpl never.

(* ===================================================================== *)
(** * Vocabulary of the statements *)
(* ===================================================================== *)

(** The records one call of a [WrappedLogger] method leaves in the trace. *)
Definition logged (lv : level) (m : message) : list event :=
  [EAcquire LoggerMutex; ELog lv m; ERelease LoggerMutex].

(** The records of [if s: log.<lv>(s)]. *)
Definition logged_if (lv : level) (s : string) : list event :=
  if truthy s then logged lv (MsgText s) else [].

(** The three conformance classifications, read off the two flags of
    [validate_pdfa] the way its three logging branches do. *)
Inductive verdict : Type := Conformant | Nonconformant | Malformed.

Definition classify (report : string) : verdict :=
  if negb (pdf_is_valid report) then Malformed
  else if pdf_is_pdfa report then Conformant
  else Nonconformant.

(** The record [validate_pdfa] logs for a classification. *)
Definition verdict_record (v : verdict) : list event :=
  match v with
  | Malformed =>
      logged WARNING
        (MsgText "Output file: The generated PDF/A file is INVALID")
  | Nonconformant =>
      logged WARNING
        (MsgText "Output file: Generated file is a VALID PDF but not PDF/A")
  | Conformant =>
      logged INFO (MsgText "Output file: The generated PDF/A file is VALID")
  end.

(** The files left after [os.unlink] has been tried on each path of [l]. *)
Definition unlinked (l : list string) (f : gmap string content)
    : gmap string content :=
  foldl (fun g p => delete p g) f l.

(** The page the render stage writes. *)
Definition rendered (img : string) (words : list hocr_word) (dpi : Z)
    : content :=
  Pdf [ {| page_image := img;
           page_text := {| layer_words := words; layer_dpi := dpi;
                           layer_invisible := true;
                           layer_boxes := false |} |} ].

(** The world after the lookup of [get_pageinfo] for the page index
    [pageno]: the index is printed and the store is read under its lock. *)
Definition looked_up (w : world) (pageno : Z) : world :=
  {| fs := fs w; pdfinfo := pdfinfo w;
     trace := trace w ++ [EPrint (str_int pageno); EAcquire PdfinfoLock;
                          EStore (GetItem pageno); ERelease PdfinfoLock] |}.

(* ===================================================================== *)
(** * A three-page job, for running the statements *)
(* ===================================================================== *)

(** A program that exits with [rc] after [secs] seconds, having written
    [out] and [err] and changed no file. *)
Definition const_run (rc : Z) (out err : string) (secs : Z)
    (args : list string) (f : gmap string content) : process :=
  {| returncode := rc; stdout := out; stderr := err; elapsed := secs;
     files := f |}.

Definition demo_options : options :=
  {| language := ["eng"]; tesseract_config := [];
     temp_folder := "tmp"; output_file := "out.pdf" |}.

Definition mono_image : image := {| comp := 1; bpc := 1; color := "gray" |}.
Definition gray_image : image := {| comp := 1; bpc := 8; color := "gray" |}.
Definition rgb_image : image := {| comp := 3; bpc := 8; color := "color" |}.

Definition demo_page (imgs : list image) (x y : Q) : pageinfo :=
  {| images := imgs; xres := x; yres := y; xres_render := x; yres_render := y;
     width_pixels := 2550; height_pixels := 3300 |}.

(** Page one holds a bilevel scan at 300 dpi, page two no image at all,
    page three a grey and a colour image at 300.5 by 200 dpi. *)
Definition demo_store : list pageinfo :=
  [demo_page [mono_image] 300 300;
   demo_page [] 300 300;
   demo_page [gray_image; rgb_image] (601 # 2) 200].

(** The decimal digits of the fraction [num / den], below one, as far as
    [fuel] goes. *)
Fixpoint decimals (fuel : nat) (num den : Z) : string :=
  match fuel with
  | O => EmptyString
  | S f =>
      if num =? 0 then EmptyString
      else String (ascii_of_N (48 + Z.to_N (10 * num / den)))
             (decimals f (10 * num mod den) den)
  end.

(** The text of a resolution: a whole number without a point, any other
    number with its decimals ([300.5]). *)
Definition str_decimal (q : Q) : string :=
  let den := Zpos (Qden q) in
  let f := Z.abs (Qnum q) / den in
  let num := Z.abs (Qnum q) mod den in
  let sign := if Qnum q <? 0 then "-" else EmptyString in
  if num =? 0 then sign ++ str_int f
  else sign ++ str_int f ++ "." ++ decimals 12 num den.

Definition demo_env (r : list string -> gmap string content -> process)
    : environment :=
  {| run := r;
     mktemp := fun _ => "/tmp/tmpgs0001";
     pdf_get_all_pageinfo := fun _ => demo_store;
     generate_pdfa_def := Bytes "%!PS pdfa_def";
     str_float := str_decimal;
     get_program := fun s => s;
     JHOVE_PATH := "/opt/jhove";
     opts := demo_options |}.

(** The files after the split stage: one document per page. *)
Definition split_files : gmap string content :=
  {[ "in.pdf" := Bytes "%PDF scan";
     "tmp/in.repaired.pdf" := Bytes "%PDF repaired";
     "tmp/000001.page.pdf" := Bytes "%PDF page 1";
     "tmp/000002.page.pdf" := Bytes "%PDF page 2";
     "tmp/000003.page.pdf" := Bytes "%PDF page 3" ]}.

Definition demo_word : hocr_word :=
  {| word_bbox := (100, 120, 480, 170); word_text := "Invoice" |}.

Definition demo_hocr : hocr_page :=
  {| hocr_width := 2550; hocr_height := 3300; hocr_words := [demo_word] |}.

(** The files once every page is rasterized and pages one and three are
    recognized, and the candidate is merged. *)
Definition demo_files : gmap string content :=
  <[ "tmp/000001.page.png" := Bytes "PNG 1" ]>
  (<[ "tmp/000002.page.png" := Bytes "PNG 2" ]>
  (<[ "tmp/000003.page.png" := Bytes "PNG 3" ]>
  (<[ "tmp/000001.hocr" := Hocr demo_hocr ]>
  (<[ "tmp/000003.hocr" := Hocr demo_hocr ]>
  (<[ "tmp/merged.pdf" := Bytes "%PDF candidate" ]> split_files))))).

Definition demo_world : world :=
  {| fs := demo_files; pdfinfo := demo_store; trace := [] |}.

(** The job right after the split stage. *)
Definition split_world : world :=
  {| fs := split_files; pdfinfo := demo_store; trace := [] |}.

(** The job before the repair stage has run. *)
Definition fresh_world : world :=
  {| fs := {[ "in.pdf" := Bytes "%PDF scan" ]}; pdfinfo := []; trace := [] |}.

(** A repair tool that writes its last argument. *)
Definition mutool_run (args : list string) (f : gmap string content)
    : process :=
  {| returncode := 0; stdout := EmptyString; stderr := EmptyString;
     elapsed := 1;
     files := match args with
              | [_; _; _; out] => <[out := Bytes "%PDF repaired"]> f
              | _ => f
              end |}.

Definition repairing_env : environment := demo_env mutool_run.

(** Every program succeeds at once and is silent. *)
Definition quiet_env : environment :=
  demo_env (const_run 0 EmptyString EmptyString 1).

(** Every program fails with status 1 and a message on each stream. *)
Definition failing_env : environment :=
  demo_env (const_run 1 "out: failed" "err: failed" 1).

(** Every program succeeds and writes on both streams. *)
Definition chatty_env : environment :=
  demo_env (const_run 0 "progress" "warning" 1).

(** Every program hangs for ten minutes. *)
Definition slow_env : environment :=
  demo_env (const_run 0 EmptyString EmptyString 600).

(** The validator exits with status 0 and reports a malformed document. *)
Definition malformed_env : environment :=
  demo_env (const_run 0 "  Status: Not well-formed" EmptyString 1).

(** The validator reports a well-formed document of the PDF/A profile. *)
Definition conformant_env : environment :=
  demo_env (const_run 0
    (" Status: Well-Formed and valid" ++ String newline
       " Profile: ISO PDF/A-1, Level B") EmptyString 1).


(** A text-recognition program in the manner of tesseract 3.02: it exits
    with status 0 and leaves its result under the output name (its fifth
    argument) with [.html] added. *)
Definition tesseract302_run (args : list string) (f : gmap string content)
    : process :=
  {| returncode := 0; stdout := EmptyString; stderr := EmptyString;
     elapsed := 20;
     files := match args with
              | _ :: _ :: _ :: _ :: out :: _ =>
                  <[out ++ ".html" := Hocr demo_hocr]> f
              | _ => f
              end |}.

Definition tesseract302_env : environment := demo_env tesseract302_run.

(** An installation with three languages, and an environment whose
    options hold English and German. *)
Definition installed : gset string := {[ "eng"; "deu"; "fra" ]}.

Definition bilingual_env : environment :=
  {| run := const_run 0 EmptyString EmptyString 1;
     mktemp := fun _ => "/tmp/tmpgs0001";
     pdf_get_all_pageinfo := fun _ => demo_store;
     generate_pdfa_def := Bytes "%!PS pdfa_def";
     str_float := str_decimal;
     get_program := fun s => s;
     JHOVE_PATH := "/opt/jhove";
     opts := {| language := ["eng"; "deu"]; tesseract_config := [];
                temp_folder := "tmp"; output_file := "out.pdf" |} |}.

(** A splitter that finds two pages in the document. *)
Definition two_page_run (args : list string) (f : gmap string content)
    : process :=
  {| returncode := 0; stdout := EmptyString; stderr := EmptyString;
     elapsed := 1;
     files := <["tmp/000001.page.pdf" := Bytes "%PDF new page 1"]>
              (<["tmp/000002.page.pdf" := Bytes "%PDF new page 2"]> f) |}.

Definition two_page_env : environment := demo_env two_page_run.

(** The job of [demo_world] with a backup file left behind by an earlier
    rewriting of the hOCR page of page two. *)
Definition stale_backup_world : world :=
  {| fs := <[ "tmp/000002.hocr.bak" := Bytes "old backup" ]> demo_files;
     pdfinfo := demo_store; trace := [] |}.

(* ===================================================================== *)
(** * Start-up: the version check and the languages *)
(* ===================================================================== *)

Definition EXIT_BAD_ARGS : Z := 1.
Definition EXIT_BAD_INPUT_FILE : Z := 2.
Definition EXIT_MISSING_DEPENDENCY : Z := 3.
Definition EXIT_INVALID_OUTPUT_PDFA : Z := 4.
Definition EXIT_FILE_ACCESS_ERROR : Z := 5.
Definition EXIT_OTHER_ERROR : Z := 15.

Definition MINIMUM_TESS_VERSION : string := "3.02.02".

(** [tesseract.VERSION < MINIMUM_TESS_VERSION]: the order of Python on
    text, character by character, a proper prefix being smaller. *)
Definition version_too_old (VERSION : string) : bool :=
  String.ltb VERSION MINIMUM_TESS_VERSION.

(** [c in s] for a single character. *)
Fixpoint contains_char (c : ascii) (s : string) : bool :=
  match s with
  | EmptyString => false
  | String d r => Ascii.eqb c d || contains_char c r
  end.

(** [s.split(sep)] for a separator of one character; [cur] is the current
    piece, reversed. *)
Fixpoint split_on (sep : ascii) (s cur : string) : list string :=
  match s with
  | EmptyString => [rev_string cur EmptyString]
  | String c r =>
      if Ascii.eqb c sep
      then rev_string cur EmptyString :: split_on sep r EmptyString
      else split_on sep r (String c cur)
  end.

Definition split (sep : ascii) (s : string) : list string :=
  split_on sep s EmptyString.

(** How the module either goes on, with the languages to recognize, or
    calls [sys.exit] after it has printed the languages that are missing. *)
Inductive startup : Type :=
| Continue (language : list string)
| Exit (status : Z) (missing : gset string).

(** The module-level statements on [options.language]; [None] stands for
    the value of the option when [-l] was never given.  [LANGUAGES] is
    [tesseract.LANGUAGES]. *)
Definition select_languages (LANGUAGES : gset string)
    (language : option (list string)) : startup :=
  let language :=
    match language with
    | None | Some [] => ["eng"]
    | Some l => l
    end in
  let language :=
    match language with
    | first :: _ =>
        if contains_char "+"%char first then split "+"%char first
        else language
    | [] => language
    end in
  if bool_decide (list_to_set language ⊆ LANGUAGES)
  then Continue language
  else Exit EXIT_BAD_ARGS (list_to_set language ∖ LANGUAGES).

(** The module-level statements before the pipeline is declared: the
    version check, then the languages. *)
Definition start (VERSION : string) (LANGUAGES : gset string)
    (language : option (list string)) : startup :=
  if version_too_old VERSION then Exit EXIT_MISSING_DEPENDENCY ∅
  else select_languages LANGUAGES language.

(* ===================================================================== *)
(** * The helper [re_symlink] *)
(* ===================================================================== *)

(** The helper distinguishes regular files from symbolic links, which the
    files of the stages do not: it has a directory of its own here.  A path
    stands for the entry it names, also as the target of a link. *)
Inductive node : Type :=
| RegularFile
| SymbolicLink (target : string).

Record link_world : Type := {
  entries : gmap string node;
  link_trace : list event
}.

Inductive link_error : Type :=
| LinkException (msg : string)
| FileExistsError (path : string).

(** [os.path.exists]: links are followed; a chain of links that does not
    end at an entry, or does not end at all, does not exist. *)
Fixpoint resolves (fuel : nat) (d : gmap string node) (p : string) : bool :=
  match fuel with
  | O => false
  | S f =>
      match d !! p with
      | Some RegularFile => true
      | Some (SymbolicLink t) => resolves f d t
      | None => false
      end
  end.

Definition link_exists (d : gmap string node) (p : string) : bool :=
  resolves (S (size d)) d p.

(** [log.debug(msg)] on the default logger, a [WrappedLogger]. *)
Definition link_debug (msg : string) (lw : link_world) : link_world :=
  {| entries := entries lw;
     link_trace := link_trace lw ++ logged DEBUG (MsgText msg) |}.

(** [re_symlink(input_file, soft_link_name)].  [abspath] is
    [os.path.abspath]; [unlink_fails] tells for which paths [os.unlink]
    raises (the handler of the helper catches everything). *)
Definition re_symlink (abspath : string -> string)
    (unlink_fails : string -> bool) (input_file soft_link_name : string)
    (lw : link_world) : (link_error + unit) * link_world :=
  if bool_decide (input_file = soft_link_name) then
    (inr tt,
     link_debug ("Warning: No symbolic link made. You are using " ++
                 "the original data directory as the working directory.") lw)
  else
    let unlinked :=
      match entries lw !! soft_link_name with
      | Some RegularFile =>
          inl (LinkException (soft_link_name ++ " exists and is not a link"))
      | Some (SymbolicLink _) =>
          if unlink_fails soft_link_name
          then inr (link_debug ("Can't unlink " ++ soft_link_name) lw)
          else inr {| entries := delete soft_link_name (entries lw);
                      link_trace := link_trace lw |}
      | None => inr lw
      end in
    match unlinked with
    | inl e => (inl e, lw)
    | inr lw1 =>
        if negb (link_exists (entries lw1) input_file) then
          (inl (LinkException
                  ("trying to create a broken symlink to " ++ input_file)),
           lw1)
        else
          let lw2 :=
            link_debug ("os.symlink(" ++ input_file ++ ", "
                        ++ soft_link_name ++ ")") lw1 in
          match entries lw2 !! soft_link_name with
          | Some _ => (inl (FileExistsError soft_link_name), lw2)
          | None =>
              (inr tt,
               {| entries := <[soft_link_name :=
                                 SymbolicLink (abspath input_file)]>
                               (entries lw2);
                  link_trace := link_trace lw2 |})
          end
    end.

(** A working directory with a link left by an earlier run. *)
Definition linked_world : link_world :=
  {| entries := {[ "in.pdf" := RegularFile;
                   "tmp/in.pdf" := SymbolicLink "/old/in.pdf" ]};
     link_trace := [] |}.

Definition demo_abspath (p : string) : string := "/home/scan/" ++ p.

(* ===================================================================== *)
(** * Characters of file names and reports *)
(* ===================================================================== *)

(** Some character of [s] satisfies [P]. *)
Fixpoint some_char (P : ascii -> bool) (s : string) : bool :=
  match s with
  | EmptyString => false
  | String c r => P c || some_char P r
  end.

(** A character that cannot occur in the text of an integer: no digit, no
    underscore, no sign, no white space. *)
Definition not_numeric (c : ascii) : bool :=
  negb (is_digit c) && negb (Ascii.eqb c "_"%char)
  && negb (Ascii.eqb c "+"%char) && negb (Ascii.eqb c "-"%char)
  && negb (is_space c).

(** No double quote. *)
Definition no_quote (c : ascii) : bool := negb (Ascii.eqb c dquote).

(** No carriage return. *)
Definition no_cr (c : ascii) : bool := negb (Ascii.eqb c carriage_return).

(** The position of the first double quote of a text. *)
Fixpoint first_quote (s : string) : option nat :=
  match s with
  | EmptyString => None
  | String c r => if Ascii.eqb c dquote then Some O else S <$> first_quote r
  end.

(** No newline. *)
Definition no_newline (c : ascii) : bool := negb (Ascii.eqb c newline).

(** Whether the position after the text [a] starts a line, [bol] telling
    it for the position before [a]. *)
Fixpoint bol_after (bol : bool) (a : string) : bool :=
  match a with
  | EmptyString => bol
  | String c r => bol_after (Ascii.eqb c newline) r
  end.

(** Two texts of the same length whose characters agree under
    [re.IGNORECASE]. *)
Fixpoint ieq_string (a b : string) : bool :=
  match a, b with
  | EmptyString, EmptyString => true
  | String x a', String y b' => ieqb x y && ieq_string a' b'
  | _, _ => false
  end.

(* ===================================================================== *)
(** * Locks and the store along a trace *)
(* ===================================================================== *)

#[global] Instance lock_eq_dec : EqDecision lock.
Proof. solve_decision. Defined.

(** A lock may be taken when it is not held already (the locks are not
    reentrant) and the logger's mutex is not held (nothing is taken under
    it). *)
Definition acquirable (l : lock) (held : list lock) : bool :=
  bool_decide (l ∉ held) && bool_decide (LoggerMutex ∉ held).

(** An event that reads or writes the metadata store: an operation on the
    shared list, or a record that shows the list. *)
Definition touches_store (e : event) : bool :=
  match e with
  | EStore _ => true
  | ELog _ (MsgStore _) => true
  | _ => false
  end.

(** An event other than taking or releasing a lock may happen with the
    locks [held] unless it touches the store while the lock of the store
    is not held. *)
Definition allowed (held : list lock) (e : event) : bool :=
  negb (touches_store e) || bool_decide (PdfinfoLock ∈ held).

(** The locks held after the events of [t], starting with [held] (the
    last taken first); [None] when a lock is taken that may not be, one is
    released that is not the last taken, or the store is touched without
    its lock. *)
Fixpoint held_after (held : list lock) (t : list event)
    : option (list lock) :=
  match t with
  | [] => Some held
  | EAcquire l :: r =>
      if acquirable l held then held_after (l :: held) r else None
  | ERelease l :: r =>
      match held with
      | h :: hs => if bool_decide (h = l) then held_after hs r else None
      | [] => None
      end
  | e :: r => if allowed held e then held_after held r else None
  end.

(** The computation [m], started with the locks [held], only adds events,
    takes and releases locks in a nested way, touches the store only
    under the lock of the store, and ends (normally or not) with the same
    locks held. *)
Definition lock_safe {A : Type} (held : list lock) (m : M A) : Prop :=
  forall w, exists t,
    trace (snd (m w)) = (trace w ++ t)%list /\
    held_after held t = Some held.

(** The computation [m] leaves the metadata store as it is. *)
Definition store_kept {A : Type} (m : M A) : Prop :=
  forall w, pdfinfo (snd (m w)) = pdfinfo w.

(** The computation [m] adds no event. *)
Definition silent {A : Type} (m : M A) : Prop :=
  forall w, trace (snd (m w)) = trace w.

(* ===================================================================== *)
(** * Facts *)
(* ===================================================================== *)

Ltac unfold_m :=
  repeat progress
    (unfold mbind, M_bind, mret, M_ret, raise, tell, get_fs, put_fs,
       get_pdfinfo, put_pdfinfo, pdfinfo_extend, pdfinfo_getitem, when,
       with_lock, finally, try_except,
       try_except_else, read_file, write_file, WrappedLogger.debug,
       WrappedLogger.info, WrappedLogger.warning, WrappedLogger.error,
       logged in *).

(** ** The primitives on examples *)

Example basename_examples :
  basename "tmp/000012.page.png" = "000012.page.png" /\
  basename "000012.hocr" = "000012.hocr" /\
  basename "a/b/" = EmptyString.
Proof. vm_compute. repeat split; reflexivity. Qed.

Example py_int_examples :
  py_int "000012" = Some 12 /\
  py_int " -7 " = Some (-7) /\
  py_int "+3" = Some 3 /\
  py_int "1_000" = Some 1000 /\
  py_int "1__0" = None /\
  py_int "x00001" = None /\
  py_int (String "028" "00001") = None /\
  py_int (String "009" "00001") = Some 1 /\
  py_int EmptyString = None.
Proof. vm_compute. repeat split; reflexivity. Qed.

Example printf_06d_examples :
  printf_06d 12 = "000012" /\
  printf_06d 999999 = "999999" /\
  printf_06d 1234567 = "1234567" /\
  printf_06d (-3) = "-00003" /\
  str_int 0 = "0" /\
  str_int (-42) = "-42".
Proof. vm_compute. repeat split; reflexivity. Qed.

Example path_join_examples :
  path_join (path_join "/opt/jhove" "bin") "JhoveApp.jar"
  = "/opt/jhove/bin/JhoveApp.jar" /\
  path_join "tmp/" "merged.pdf" = "tmp/merged.pdf" /\
  path_join "tmp" "/abs" = "/abs".
Proof. vm_compute. repeat split; reflexivity. Qed.

Example re_search_examples :
  re_search re_not_valid
    (String newline "  Status: Well-Formed, but not valid") = true /\
  re_search re_not_valid "x  Status: Well-Formed, but not valid" = false /\
  re_search re_not_valid
    (" Status: Well-Formed" ++ String newline "but not valid") = false /\
  re_search re_not_well_formed "  STATUS: not WELL-formed" = true /\
  re_search re_profile_pdfa " Profile: ISO PDF/A-1, Level B" = true /\
  re_search re_profile_pdfa "Profile: ISO PDF/A-1, Level B" = false /\
  re_search re_error_message "  errormessage: Invalid object" = true.
Proof. vm_compute. repeat split; reflexivity. Qed.

Example classify_examples :
  classify (" Status: Well-Formed and valid" ++ String newline
              " Profile: ISO PDF/A-1, Level B") = Conformant /\
  classify " Status: Well-Formed and valid" = Nonconformant /\
  classify " Status: Well-Formed, but not valid" = Malformed /\
  classify " Status: Not well-formed" = Malformed /\
  classify " ErrorMessage: Unexpected end of file" = Malformed.
Proof. vm_compute. repeat split; reflexivity. Qed.

Example sub_image_title_example :
  sub_image_title 0
    ("<div title='image " ++ String dquote ("a'b.png" ++ String dquote
       ("; bbox 0 0 1 1'> title='image " ++ String dquote "x; no")))
  = "<div title='image " ++ String dquote (" " ++ String dquote
       ("; bbox 0 0 1 1'> title='image " ++ String dquote "x; no")).
Proof. vm_compute. reflexivity. Qed.

Example readlines_example :
  readlines (universal_newlines
               ("a" ++ String carriage_return (String newline "b")))
    EmptyString
  = [String "a"%char (String newline EmptyString); "b"].
Proof. vm_compute. reflexivity. Qed.

Example py_round_examples :
  py_round (1 # 2) = 0 /\ py_round (3 # 2) = 2 /\ py_round (5 # 2) = 2 /\
  py_round (601 # 2) = 300 /\ py_round (3006 # 10) = 301 /\
  py_round (- (1 # 2)) = 0 /\ py_round 300 = 300.
Proof. vm_compute. repeat split; reflexivity. Qed.

Example py_index_examples :
  py_index [10; 20; 30] 0 = Some 10 /\
  py_index [10; 20; 30] 2 = Some 30 /\
  py_index [10; 20; 30] 3 = None /\
  py_index [10; 20; 30] (-1) = Some 30 /\
  py_index [10; 20; 30] (-4) = None.
Proof. vm_compute. repeat split; reflexivity. Qed.

Example device_examples :
  device (demo_page [mono_image] 300 300) = "pngmono" /\
  device (demo_page [mono_image; gray_image] 300 300) = "pnggray" /\
  device (demo_page [gray_image; rgb_image] 300 300) = "png16m" /\
  device (demo_page [{| comp := 1; bpc := 8; color := "color" |}] 300 300)
  = "png16m".
Proof. vm_compute. repeat split; reflexivity. Qed.

(** ** Text *)

Lemma sapp_cons c (a b : string) : String c a ++ b = String c (a ++ b).
Proof. reflexivity. Qed.

Lemma sapp_nil_l (b : string) : EmptyString ++ b = b.
Proof. reflexivity. Qed.

Lemma sapp_nil_r (a : string) : a ++ EmptyString = a.
Proof. induction a as [|c a IH]; [reflexivity|]. rewrite sapp_cons, IH. reflexivity. Qed.

Lemma sapp_assoc (a b c : string) : (a ++ b) ++ c = a ++ (b ++ c).
Proof.
  induction a as [|x a IH]; [reflexivity|].
  rewrite !sapp_cons, IH. reflexivity.
Qed.

Lemma sapp_length (a b : string) :
  String.length (a ++ b) = (String.length a + String.length b)%nat.
Proof.
  induction a as [|x a IH]; [reflexivity|].
  rewrite sapp_cons. simpl. rewrite IH. reflexivity.
Qed.

Lemma all_chars_app P a b :
  all_chars P (a ++ b) = all_chars P a && all_chars P b.
Proof.
  induction a as [|c a IH]; [reflexivity|].
  rewrite sapp_cons. simpl. rewrite IH. apply andb_assoc.
Qed.

Lemma rev_string_app s acc :
  rev_string s acc = rev_string s EmptyString ++ acc.
Proof.
  revert acc. induction s as [|c s IH]; intros acc; simpl; [reflexivity|].
  rewrite (IH (String c acc)), (IH (String c EmptyString)).
  rewrite sapp_assoc. reflexivity.
Qed.

Lemma rev_string_append a b acc :
  rev_string (a ++ b) acc = rev_string b (rev_string a acc).
Proof.
  revert acc. induction a as [|c a IH]; intros acc; [reflexivity|].
  rewrite sapp_cons. simpl. apply IH.
Qed.

Lemma rev_string_involutive s :
  rev_string (rev_string s EmptyString) EmptyString = s.
Proof.
  assert (G : forall s acc, rev_string (rev_string s acc) EmptyString
                            = rev_string acc EmptyString ++ s).
  { clear s. induction s as [|c s IH]; intros acc; simpl.
    - symmetry. apply sapp_nil_r.
    - rewrite IH. simpl. rewrite (rev_string_app acc).
      rewrite sapp_assoc. reflexivity. }
  rewrite G. reflexivity.
Qed.

Lemma all_chars_rev P s acc :
  all_chars P (rev_string s acc) = all_chars P s && all_chars P acc.
Proof.
  revert acc. induction s as [|c s IH]; intros acc; simpl; [reflexivity|].
  rewrite IH. simpl.
  destruct (P c), (all_chars P s); reflexivity.
Qed.

Lemma all_chars_impl (P Q : ascii -> bool) s :
  (forall c, P c = true -> Q c = true) ->
  all_chars P s = true -> all_chars Q s = true.
Proof.
  intros HPQ. induction s as [|c s IH]; simpl; [reflexivity|].
  intros [Hc Hs]%andb_true_iff. rewrite (HPQ c Hc), (IH Hs). reflexivity.
Qed.

(** The white space of [int] is white space of [str.isspace]. *)
Lemma int_space_is_space c : is_int_space c = true -> is_space c = true.
Proof.
  destruct c as [[] [] [] [] [] [] [] []]; vm_compute; congruence.
Qed.

Lemma not_space_not_int_space c : is_space c = false -> is_int_space c = false.
Proof.
  intros H. destruct (is_int_space c) eqn:Hc; [|reflexivity].
  rewrite (int_space_is_space c Hc) in H. discriminate.
Qed.

Lemma lstrip_id s :
  all_chars (fun c => negb (is_space c)) s = true -> lstrip s = s.
Proof.
  destruct s as [|c s]; simpl; [reflexivity|].
  destruct (is_space c) eqn:Hc; [discriminate|].
  rewrite (not_space_not_int_space c Hc). reflexivity.
Qed.

Lemma strip_id s :
  all_chars (fun c => negb (is_space c)) s = true -> strip s = s.
Proof.
  intros H. unfold strip. rewrite (lstrip_id s H).
  rewrite lstrip_id.
  - apply rev_string_involutive.
  - rewrite all_chars_rev, H. reflexivity.
Qed.

Lemma digit_not_space c : is_digit c = true -> negb (is_space c) = true.
Proof.
  destruct c as [[] [] [] [] [] [] [] []]; vm_compute; congruence.
Qed.

Lemma int_signed_digit c r :
  is_digit c = true -> int_signed (String c r) = int_digits (String c r) 0 false.
Proof.
  destruct c as [[] [] [] [] [] [] [] []]; intros H; try reflexivity;
    vm_compute in H; discriminate.
Qed.

(** *** The base name of a path *)

Lemma after_last_slash_no_slash s cur :
  all_chars (fun c => negb (Ascii.eqb c slash)) s = true ->
  after_last_slash s cur = cur.
Proof.
  revert cur. induction s as [|c s IH]; intros cur; simpl; [reflexivity|].
  intros [Hc Hs]%andb_true_iff.
  destruct (Ascii.eqb c slash); [discriminate|]. apply IH, Hs.
Qed.

Lemma after_last_slash_dir dir name cur :
  all_chars (fun c => negb (Ascii.eqb c slash)) name = true ->
  after_last_slash (dir ++ String slash name) cur = name.
Proof.
  intros Hname. revert cur.
  induction dir as [|c dir IH]; intros cur.
  - rewrite sapp_nil_l. simpl. apply after_last_slash_no_slash, Hname.
  - rewrite sapp_cons. simpl.
    destruct (Ascii.eqb c slash); apply IH.
Qed.

Lemma basename_dir dir name :
  all_chars (fun c => negb (Ascii.eqb c slash)) name = true ->
  basename (dir ++ "/" ++ name) = name.
Proof. intros H. unfold basename. apply (after_last_slash_dir dir name), H. Qed.

(** *** Decimal digits *)

Lemma digit_char (m : N) :
  (m < 10)%N ->
  is_digit (ascii_of_N (48 + m)) = true /\
  digit_val (ascii_of_N (48 + m)) = Z.of_N m.
Proof.
  intros H.
  assert (Hc : (m = 0 \/ m = 1 \/ m = 2 \/ m = 3 \/ m = 4 \/ m = 5 \/ m = 6
          \/ m = 7 \/ m = 8 \/ m = 9)%N) by lia.
  repeat destruct Hc as [-> | Hc]; try subst m; split; reflexivity.
Qed.

Lemma int_digits_digits_fuel fuel : forall n acc,
  (n < 10 ^ N.of_nat (S fuel))%N ->
  exists k : Z, 0 < k /\ forall a b,
    int_digits (digits_fuel fuel n acc) a b
    = int_digits acc (a * 10 ^ k + Z.of_N n) true.
Proof.
  induction fuel as [|fuel IH]; intros n acc Hn.
  - exists 1. split; [lia|]. intros a b. simpl.
    assert (Hm : (n mod 10 = n)%N) by (apply N.mod_small; simpl in Hn; lia).
    rewrite Hm.
    destruct (digit_char n) as [Hd Hv]; [simpl in Hn; lia|].
    rewrite Hd, Hv. f_equal. lia.
  - cbn [digits_fuel].
    assert (Hmod : (n mod 10 < 10)%N) by (apply N.mod_lt; lia).
    destruct (digit_char (n mod 10) Hmod) as [Hd Hv].
    destruct (N.eqb_spec (n / 10) 0) as [Hz|Hz].
    + exists 1. split; [lia|]. intros a b. simpl. rewrite Hd, Hv.
      f_equal. pose proof (N.div_mod n 10). lia.
    + destruct (IH (n / 10)%N (String (ascii_of_N (48 + n mod 10)) acc))
        as (k & Hk & Heq).
      { apply N.Div0.div_lt_upper_bound.
        replace (N.of_nat (S (S fuel))) with (N.succ (N.of_nat (S fuel))) in Hn by lia.
        rewrite N.pow_succ_r' in Hn. exact Hn. }
      exists (k + 1). split; [lia|]. intros a b.
      rewrite Heq. simpl. rewrite Hd, Hv. f_equal.
      rewrite Z.pow_add_r by lia.
      pose proof (N.div_mod n 10) as Hdm.
      rewrite N2Z.inj_div, N2Z.inj_mod in *.
      assert (Hn' : Z.of_N n = 10 * (Z.of_N n / 10) + Z.of_N n mod 10)
        by (apply Z.div_mod; lia).
      change (Z.of_N 10) with 10. lia.
Qed.

Lemma digits_fuel_enough (n : N) :
  (n < 10 ^ N.of_nat (S (N.to_nat (N.log2 n))))%N.
Proof.
  rewrite Nat2N.inj_succ, N2Nat.id.
  destruct n as [|p].
  - reflexivity.
  - apply N.lt_le_trans with (2 ^ N.succ (N.log2 (N.pos p)))%N.
    + apply N.log2_spec. lia.
    + apply N.pow_le_mono_l. lia.
Qed.

Lemma int_digits_digits (n : N) (b : bool) :
  int_digits (digits n) 0 b = Some (Z.of_N n).
Proof.
  unfold digits.
  destruct (int_digits_digits_fuel _ n EmptyString (digits_fuel_enough n))
    as (k & _ & Heq).
  rewrite Heq. reflexivity.
Qed.

Lemma digits_fuel_all_digits fuel : forall n acc,
  all_chars is_digit acc = true ->
  all_chars is_digit (digits_fuel fuel n acc) = true.
Proof.
  induction fuel as [|fuel IH]; intros n acc Hacc;
    assert (Hmod : (n mod 10 < 10)%N) by (apply N.mod_lt; lia);
    destruct (digit_char (n mod 10) Hmod) as [Hd _].
  - simpl. rewrite Hd, Hacc. reflexivity.
  - cbn [digits_fuel]. destruct (n / 10 =? 0)%N.
    + simpl. rewrite Hd, Hacc. reflexivity.
    + apply IH. simpl. rewrite Hd, Hacc. reflexivity.
Qed.

Lemma digits_fuel_length fuel : forall n acc k,
  (n < 10 ^ N.of_nat (S k))%N ->
  (String.length (digits_fuel fuel n acc) <= S k + String.length acc)%nat.
Proof.
  induction fuel as [|fuel IH]; intros n acc k Hn.
  - simpl. lia.
  - cbn [digits_fuel]. destruct (N.eqb_spec (n / 10) 0) as [Hz|Hz].
    + simpl. lia.
    + destruct k as [|k].
      * exfalso. apply Hz. apply N.div_small. simpl in Hn. lia.
      * etransitivity.
        { apply (IH _ _ k). apply N.Div0.div_lt_upper_bound.
          replace (N.of_nat (S (S k))) with (N.succ (N.of_nat (S k))) in Hn by lia.
          rewrite N.pow_succ_r' in Hn. exact Hn. }
        simpl. lia.
Qed.

Lemma digits_fuel_nonempty fuel n acc :
  (1 <= String.length (digits_fuel fuel n acc))%nat.
Proof.
  revert n acc. induction fuel as [|fuel IH]; intros n acc.
  - simpl. lia.
  - cbn [digits_fuel]. destruct (n / 10 =? 0)%N; [simpl; lia|apply IH].
Qed.

Lemma zeros_length k : String.length (zeros k) = k.
Proof. induction k as [|k IH]; simpl; [reflexivity|]. rewrite IH. reflexivity. Qed.

Lemma zeros_all_digits k : all_chars is_digit (zeros k) = true.
Proof. induction k as [|k IH]; simpl; [reflexivity|exact IH]. Qed.

Lemma int_digits_zeros k t b :
  int_digits (zeros k ++ t) 0 b = int_digits t 0 (b || negb (Nat.eqb k 0)).
Proof.
  revert b. induction k as [|k IH]; intros b.
  - rewrite sapp_nil_l. simpl. rewrite orb_false_r. reflexivity.
  - simpl zeros. rewrite sapp_cons. simpl.
    rewrite IH. rewrite orb_true_r. simpl.
    destruct k; reflexivity.
Qed.

Lemma slice_to_exact (x y : string) :
  slice_to (String.length x) (x ++ y) = x.
Proof.
  unfold slice_to. induction x as [|c x IH].
  - rewrite sapp_nil_l. destruct y; reflexivity.
  - rewrite sapp_cons. simpl. rewrite IH. reflexivity.
Qed.

(** The six characters [%06d] gives a page number below one million, and
    what [int] reads back from them. *)
Lemma printf_06d_small (n : Z) :
  0 <= n <= 999999 ->
  String.length (printf_06d n) = 6%nat /\
  all_chars is_digit (printf_06d n) = true /\
  py_int (printf_06d n) = Some n.
Proof.
  intros Hn. unfold printf_06d.
  destruct (Z.ltb_spec n 0) as [?|_]; [lia|].
  set (d := digits (Z.abs_N n)).
  assert (Hlen : (1 <= String.length d <= 6)%nat).
  { split; [apply digits_fuel_nonempty|].
    pose proof (digits_fuel_length (N.to_nat (N.log2 (Z.abs_N n)))
                  (Z.abs_N n) EmptyString 5) as H.
    simpl String.length in H. unfold d, digits.
    assert (Z.abs_N n < 10 ^ N.of_nat 6)%N by (change (10 ^ N.of_nat 6)%N with 1000000%N; lia).
    specialize (H H0). lia. }
  assert (Hd : all_chars is_digit d = true)
    by (apply digits_fuel_all_digits; reflexivity).
  assert (Hall : all_chars is_digit (zeros (6 - String.length d) ++ d) = true)
    by (rewrite all_chars_app, zeros_all_digits, Hd; reflexivity).
  split; [|split].
  - rewrite sapp_length, zeros_length. lia.
  - exact Hall.
  - unfold py_int. rewrite strip_id
      by (eapply all_chars_impl; [apply digit_not_space|exact Hall]).
    destruct (zeros (6 - String.length d) ++ d) as [|c r] eqn:Heq.
    + apply (f_equal String.length) in Heq.
      rewrite sapp_length, zeros_length in Heq. simpl in Heq. lia.
    + rewrite int_signed_digit
        by (simpl in Hall; apply andb_true_iff in Hall; tauto).
      rewrite <- Heq, int_digits_zeros. unfold d.
      rewrite int_digits_digits. f_equal. lia.
Qed.

(** *** Suffixes *)

Lemma endswith_append stem suf : endswith (stem ++ suf) suf = true.
Proof.
  unfold endswith. rewrite rev_string_append.
  rewrite (rev_string_app suf (rev_string stem EmptyString)).
  generalize (rev_string suf EmptyString) as r.
  generalize (rev_string stem EmptyString) as t.
  intros t r. induction r as [|c r IH]; [reflexivity|].
  rewrite sapp_cons. simpl. rewrite Ascii.eqb_refl. exact IH.
Qed.

Lemma endswith_png_not_hocr stem :
  endswith (stem ++ ".page.png") ".hocr" = false.
Proof.
  unfold endswith. rewrite rev_string_append.
  rewrite (rev_string_app ".page.png" (rev_string stem EmptyString)).
  reflexivity.
Qed.

Lemma endswith_hocr_not_png stem :
  endswith (stem ++ ".hocr") ".page.png" = false.
Proof.
  unfold endswith. rewrite rev_string_append.
  rewrite (rev_string_app ".hocr" (rev_string stem EmptyString)).
  reflexivity.
Qed.

Lemma png_hocr_distinct stem : stem ++ ".page.png" <> stem ++ ".hocr".
Proof. intros H. apply (inj (String.app stem)) in H. discriminate. Qed.

(** ** Numbers *)

Lemma py_max_spec a b :
  (a <= py_max a b)%Q /\ (b <= py_max a b)%Q /\ (py_max a b = a \/ py_max a b = b).
Proof.
  unfold py_max. destruct (Qcompare a b) eqn:Hc.
  - apply Qeq_alt in Hc. split; [lra|]. split; [lra|]. left; reflexivity.
  - apply Qlt_alt in Hc. split; [lra|]. split; [lra|]. right; reflexivity.
  - apply Qgt_alt in Hc. split; [lra|]. split; [lra|]. left; reflexivity.
Qed.
Lemma py_round_near x :
  (-(1 # 2) <= inject_Z (py_round x) - x <= 1 # 2)%Q.
Proof.
  unfold py_round.
  pose proof (Qfloor_le x) as Hlo. pose proof (Qlt_floor x) as Hhi.
  rewrite inject_Z_plus in Hhi. change (inject_Z 1) with 1%Q in Hhi.
  destruct (Qcompare (x - inject_Z (Qfloor x)) (1 # 2)) eqn:Hc.
  - apply Qeq_alt in Hc.
    destruct (Z.even (Qfloor x)); rewrite ?inject_Z_plus;
      change (inject_Z 1) with 1%Q; lra.
  - apply Qlt_alt in Hc. lra.
  - apply Qgt_alt in Hc. rewrite inject_Z_plus.
    change (inject_Z 1) with 1%Q. lra.
Qed.
Lemma py_round_integer (k : Z) x : (x == inject_Z k)%Q -> py_round x = k.
Proof.
  intros Hx. unfold py_round.
  assert (Hf : Qfloor x = k) by (rewrite Hx; apply Qfloor_Z).
  rewrite Hf.
  assert (Hz : (x - inject_Z k == 0)%Q) by (rewrite Hx; ring).
  assert (Hc : Qcompare (x - inject_Z k) (1 # 2) = Lt)
    by (apply Qlt_alt; rewrite Hz; reflexivity).
  rewrite Hc. reflexivity.
Qed.


(** ** File names with a suffix added *)

Lemma append_nonempty_distinct (s suf : string) :
  suf <> EmptyString -> s <> s ++ suf.
Proof.
  intros Hsuf Heq. apply (f_equal String.length) in Heq.
  rewrite sapp_length in Heq. destruct suf; [congruence|]. simpl in Heq. lia.
Qed.

Lemma append_inj_l (s a b : string) : s ++ a = s ++ b -> a = b.
Proof.
  induction s as [|c s IH]; intros H.
  - rewrite !sapp_nil_l in H. exact H.
  - rewrite !sapp_cons in H. injection H as H. apply IH, H.
Qed.

(** ** Python sequences *)

Lemma py_index_nonneg {A : Type} (l : list A) (i : Z) :
  0 <= i -> py_index l i = l !! Z.to_nat i.
Proof.
  intros Hi. unfold py_index.
  destruct (Z.leb_spec 0 i) as [_|?]; [|lia].
  destruct (Z.ltb_spec i (Z.of_nat (length l))) as [Hlt|Hge]; simpl; [reflexivity|].
  destruct (Z.ltb_spec i 0) as [?|_]; [lia|].
  rewrite andb_false_r. symmetry. apply lookup_ge_None. lia.
Qed.

(** ** Rewriting a file in place *)

Lemma fileinput_inplace_run (path : string) (rewrite : content -> content)
    (w : world) :
  fileinput_inplace path rewrite w =
    match fs w !! path with
    | Some c =>
        (Ok tt, {| fs := <[path := rewrite c]> (delete (path ++ ".bak") (fs w));
                   pdfinfo := pdfinfo w; trace := trace w |})
    | None =>
        (Raised (FileNotFoundError path),
         {| fs := delete (path ++ ".bak") (fs w);
            pdfinfo := pdfinfo w; trace := trace w |})
    end.
Proof.
  assert (Hne : path <> path ++ ".bak")
    by (apply append_nonempty_distinct; discriminate).
  unfold fileinput_inplace, suppress_FileNotFoundError, unlink, rename.
  unfold_m. cbn [fs pdfinfo trace].
  destruct (fs w !! (path ++ ".bak")) as [b|] eqn:Hb; cbn [fs pdfinfo trace].
  - rewrite lookup_delete_ne by congruence.
    destruct (fs w !! path) as [c|] eqn:Hc; cbn [fs pdfinfo trace];
      [|reflexivity].
    rewrite lookup_insert_eq. cbn [fs pdfinfo trace].
    rewrite lookup_insert_ne by congruence. rewrite lookup_insert_eq.
    cbn [fs pdfinfo trace]. f_equal. f_equal.
    apply map_eq. intros q.
    destruct (decide (q = path ++ ".bak")) as [->|Hq1].
    + rewrite lookup_delete_eq, lookup_insert_ne by congruence.
      rewrite lookup_delete_eq. reflexivity.
    + rewrite lookup_delete_ne by congruence.
      destruct (decide (q = path)) as [->|Hq2].
      * rewrite !lookup_insert_eq. reflexivity.
      * rewrite !lookup_insert_ne by congruence.
        rewrite !lookup_delete_ne by congruence. reflexivity.
  - destruct (fs w !! path) as [c|] eqn:Hc; cbn [fs pdfinfo trace].
    + rewrite lookup_insert_eq. cbn [fs pdfinfo trace].
      rewrite lookup_insert_ne by congruence. rewrite lookup_insert_eq.
      cbn [fs pdfinfo trace]. f_equal. f_equal.
      apply map_eq. intros q.
      destruct (decide (q = path ++ ".bak")) as [->|Hq1].
      * rewrite lookup_delete_eq, lookup_insert_ne by congruence.
        rewrite lookup_delete_eq. reflexivity.
      * rewrite lookup_delete_ne by congruence.
        destruct (decide (q = path)) as [->|Hq2].
        -- rewrite !lookup_insert_eq. reflexivity.
        -- rewrite !lookup_insert_ne by congruence.
           rewrite !lookup_delete_ne by congruence. reflexivity.
    + rewrite (delete_id _ _ Hb). destruct w; reflexivity.
Qed.

Lemma fileinput_inplace_trace (path : string) (rewrite : content -> content)
    (w : world) :
  trace (snd (fileinput_inplace path rewrite w)) = trace w.
Proof.
  rewrite fileinput_inplace_run. destruct (fs w !! path); reflexivity.
Qed.

(** ** The stages, run *)

Section StageFacts.

Context (E : environment).

Lemma get_pageinfo_ok (w : world) (input_file : string) (pageno : Z)
    (pi : pageinfo) :
  pageno_of input_file = Some pageno ->
  py_index (pdfinfo w) pageno = Some pi ->
  get_pageinfo input_file w = (Ok pi, looked_up w pageno).
Proof.
  intros Hno Hpi. unfold get_pageinfo. rewrite Hno.
  unfold_m. simpl. rewrite Hpi. unfold looked_up. simpl.
  rewrite <- !app_assoc. reflexivity.
Qed.

Lemma get_pageinfo_out_of_range (w : world) (input_file : string) (pageno : Z) :
  pageno_of input_file = Some pageno ->
  py_index (pdfinfo w) pageno = None ->
  get_pageinfo input_file w = (Raised IndexError, looked_up w pageno).
Proof.
  intros Hno Hpi. unfold get_pageinfo. rewrite Hno.
  unfold_m. simpl. rewrite Hpi. unfold looked_up. simpl.
  rewrite <- !app_assoc. reflexivity.
Qed.

Lemma check_call_run (args : list string) (w : world) :
  let r := run E args (fs w) in
  check_call E args w =
    (if returncode r =? 0 then Ok tt
     else Raised (CalledProcessError (returncode r) args),
     {| fs := files r; pdfinfo := pdfinfo w;
        trace := trace w ++ [ESpawn args; EWait] |}).
Proof.
  intros r. unfold check_call. unfold_m. simpl. fold r.
  rewrite <- !app_assoc.
  destruct (returncode r =? 0); reflexivity.
Qed.

Lemma rasterize_trace (w : world) (input_file out : string) (pageno : Z)
    (pi : pageinfo) :
  pageno_of input_file = Some pageno ->
  py_index (pdfinfo w) pageno = Some pi ->
  let tmp := mktemp E (fs w) in
  let args := args_gs_raster E pi tmp input_file in
  let p := run E args (<[tmp := Bytes EmptyString]> (fs w)) in
  trace (snd (rasterize_with_ghostscript E input_file out w)) =
    (trace (looked_up w pageno) ++ [ESpawn args; EWait]
       ++ logged_if DEBUG (stdout p) ++ logged_if ERROR (stderr p)
       ++ (if returncode p =? 0 then []
           else logged ERROR (MsgText "Ghostscript rendering failed")))%list.
Proof.
  intros Hno Hpi tmp args p.
  unfold rasterize_with_ghostscript.
  unfold mbind at 1. unfold M_bind at 1.
  rewrite (get_pageinfo_ok w input_file pageno pi Hno Hpi).
  unfold NamedTemporaryFile, Popen, communicate, reap, copy, unlink, logged_if.
  unfold_m. simpl. fold tmp. fold args. fold p.
  destruct (truthy (stdout p)), (truthy (stderr p)), (returncode p =? 0); simpl;
    repeat (case_match; simplify_eq/=); rewrite <- ?app_assoc; reflexivity.
Qed.

Lemma rasterize_nonzero (w : world) (input_file out : string) (pageno : Z)
    (pi : pageinfo) (c : content) :
  pageno_of input_file = Some pageno ->
  py_index (pdfinfo w) pageno = Some pi ->
  let tmp := mktemp E (fs w) in
  let args := args_gs_raster E pi tmp input_file in
  let p := run E args (<[tmp := Bytes EmptyString]> (fs w)) in
  returncode p <> 0 ->
  files p !! tmp = Some c ->
  rasterize_with_ghostscript E input_file out w =
    (Ok tt,
     {| fs := delete tmp (files p);
        pdfinfo := pdfinfo w;
        trace := (trace (looked_up w pageno) ++ [ESpawn args; EWait]
                  ++ logged_if DEBUG (stdout p) ++ logged_if ERROR (stderr p)
                  ++ logged ERROR (MsgText "Ghostscript rendering failed"))%list
     |}).
Proof.
  intros Hno Hpi tmp args p Hrc Htmp.
  unfold rasterize_with_ghostscript.
  unfold mbind at 1. unfold M_bind at 1.
  rewrite (get_pageinfo_ok w input_file pageno pi Hno Hpi).
  unfold NamedTemporaryFile, Popen, communicate, reap, copy, unlink, logged_if.
  unfold_m. simpl. fold tmp. fold args. fold p.
  apply Z.eqb_neq in Hrc. rewrite Hrc.
  destruct (truthy (stdout p)), (truthy (stderr p)); simpl;
    rewrite Htmp; simpl; rewrite <- ?app_assoc; reflexivity.
Qed.

Lemma rasterize_zero (w : world) (input_file out : string) (pageno : Z)
    (pi : pageinfo) (c : content) :
  pageno_of input_file = Some pageno ->
  py_index (pdfinfo w) pageno = Some pi ->
  let tmp := mktemp E (fs w) in
  let args := args_gs_raster E pi tmp input_file in
  let p := run E args (<[tmp := Bytes EmptyString]> (fs w)) in
  returncode p = 0 ->
  files p !! tmp = Some c ->
  tmp <> out ->
  rasterize_with_ghostscript E input_file out w =
    (Ok tt,
     {| fs := delete tmp (<[out := c]> (files p));
        pdfinfo := pdfinfo w;
        trace := (trace (looked_up w pageno) ++ [ESpawn args; EWait]
                  ++ logged_if DEBUG (stdout p) ++ logged_if ERROR (stderr p))%list
     |}).
Proof.
  intros Hno Hpi tmp args p Hrc Htmp Hne.
  unfold rasterize_with_ghostscript.
  unfold mbind at 1. unfold M_bind at 1.
  rewrite (get_pageinfo_ok w input_file pageno pi Hno Hpi).
  unfold NamedTemporaryFile, Popen, communicate, reap, copy, unlink, logged_if.
  unfold_m. simpl. fold tmp. fold args. fold p.
  rewrite Hrc. simpl.
  destruct (truthy (stdout p)), (truthy (stderr p)); simpl;
    rewrite bool_decide_false by done; rewrite Htmp; simpl;
    rewrite lookup_insert_ne by done; rewrite Htmp; simpl;
    rewrite <- ?app_assoc, ?app_nil_r; reflexivity.
Qed.

(** The rasteriser of [ghostscript.py] logs the same way. *)
Lemma rasterize_pdf_trace (w : world) (input_file out : string) (x y : Q)
    (dev : string) :
  let tmp := mktemp E (fs w) in
  let args := args_gs_pdf E tmp input_file x y dev in
  let p := run E args (<[tmp := Bytes EmptyString]> (fs w)) in
  trace (snd (rasterize_pdf E input_file out x y dev w)) =
    (trace w ++ [ESpawn args; EWait]
       ++ logged_if DEBUG (stdout p) ++ logged_if ERROR (stderr p)
       ++ (if returncode p =? 0 then []
           else logged ERROR (MsgText "Ghostscript rendering failed")))%list.
Proof.
  intros tmp args p.
  unfold rasterize_pdf.
  unfold NamedTemporaryFile, Popen, communicate, reap, copy, unlink, logged_if.
  unfold_m. simpl. fold tmp. fold args. fold p.
  destruct (truthy (stdout p)), (truthy (stderr p)), (returncode p =? 0); simpl;
    repeat (case_match; simplify_eq/=); rewrite <- ?app_assoc; reflexivity.
Qed.

Lemma rasterize_pdf_nonzero (w : world) (input_file out : string) (x y : Q)
    (dev : string) (c : content) :
  let tmp := mktemp E (fs w) in
  let args := args_gs_pdf E tmp input_file x y dev in
  let p := run E args (<[tmp := Bytes EmptyString]> (fs w)) in
  returncode p <> 0 ->
  files p !! tmp = Some c ->
  rasterize_pdf E input_file out x y dev w =
    (Ok tt,
     {| fs := delete tmp (files p);
        pdfinfo := pdfinfo w;
        trace := (trace w ++ [ESpawn args; EWait]
                  ++ logged_if DEBUG (stdout p) ++ logged_if ERROR (stderr p)
                  ++ logged ERROR (MsgText "Ghostscript rendering failed"))%list
     |}).
Proof.
  intros tmp args p Hrc Htmp.
  unfold rasterize_pdf.
  unfold NamedTemporaryFile, Popen, communicate, reap, copy, unlink, logged_if.
  unfold_m. simpl. fold tmp. fold args. fold p.
  apply Z.eqb_neq in Hrc. rewrite Hrc.
  destruct (truthy (stdout p)), (truthy (stderr p)); simpl;
    rewrite Htmp; simpl; rewrite <- ?app_assoc; reflexivity.
Qed.

(** *** Text recognition *)

Lemma ocr_tesseract_timeout (w : world) (input_file out : string)
    (pageno : Z) (pi : pageinfo) :
  pageno_of input_file = Some pageno ->
  py_index (pdfinfo w) pageno = Some pi ->
  let args := args_tesseract E input_file out in
  let p := run E args (fs w) in
  180 < elapsed p ->
  ocr_tesseract E input_file out w =
    (Ok tt,
     {| fs := <[out := HOCR_TEMPLATE (width_pixels pi) (height_pixels pi)]>
                (files p);
        pdfinfo := pdfinfo w;
        trace := (trace (looked_up w pageno)
                  ++ [ESpawn args; ETimeout 180; EKill; EWait])%list |}).
Proof.
  intros Hno Hpi args p Hslow.
  unfold ocr_tesseract.
  unfold mbind at 1. unfold M_bind at 1.
  rewrite (get_pageinfo_ok w input_file pageno pi Hno Hpi).
  unfold Popen, communicate, reap, kill.
  unfold_m. simpl. fold args. fold p.
  apply Z.ltb_lt in Hslow. rewrite Hslow. simpl.
  rewrite <- ?app_assoc. reflexivity.
Qed.

Lemma ocr_tesseract_trace (w : world) (input_file out : string)
    (pageno : Z) (pi : pageinfo) :
  pageno_of input_file = Some pageno ->
  py_index (pdfinfo w) pageno = Some pi ->
  let args := args_tesseract E input_file out in
  let p := run E args (fs w) in
  elapsed p <= 180 ->
  trace (snd (ocr_tesseract E input_file out w)) =
    (trace (looked_up w pageno) ++ [ESpawn args; EWait]
       ++ logged_if INFO (stdout p) ++ logged_if ERROR (stderr p))%list.
Proof.
  intros Hno Hpi args p Hfast.
  unfold ocr_tesseract.
  unfold mbind at 1. unfold M_bind at 1.
  rewrite (get_pageinfo_ok w input_file pageno pi Hno Hpi).
  unfold Popen, communicate, reap, kill, path_exists, move, logged_if.
  unfold_m. simpl. fold args. fold p.
  assert (Ht : (180 <? elapsed p) = false) by (apply Z.ltb_ge; lia).
  rewrite Ht. simpl.
  destruct (truthy (stdout p)), (truthy (stderr p)), (returncode p =? 0); simpl;
    repeat (case_match; simplify_eq/=);
    rewrite ?fileinput_inplace_trace; cbn [trace];
    rewrite <- ?app_assoc; reflexivity.
Qed.

Lemma ocr_tesseract_nonzero (w : world) (input_file out : string)
    (pageno : Z) (pi : pageinfo) :
  pageno_of input_file = Some pageno ->
  py_index (pdfinfo w) pageno = Some pi ->
  let args := args_tesseract E input_file out in
  let p := run E args (fs w) in
  elapsed p <= 180 ->
  returncode p <> 0 ->
  ocr_tesseract E input_file out w =
    (Raised (CalledProcessError (returncode p) args),
     {| fs := files p;
        pdfinfo := pdfinfo w;
        trace := (trace (looked_up w pageno) ++ [ESpawn args; EWait]
                  ++ logged_if INFO (stdout p)
                  ++ logged_if ERROR (stderr p))%list |}).
Proof.
  intros Hno Hpi args p Hfast Hrc.
  unfold ocr_tesseract.
  unfold mbind at 1. unfold M_bind at 1.
  rewrite (get_pageinfo_ok w input_file pageno pi Hno Hpi).
  unfold Popen, communicate, reap, kill, path_exists, move, logged_if.
  unfold_m. simpl. fold args. fold p.
  assert (Ht : (180 <? elapsed p) = false) by (apply Z.ltb_ge; lia).
  rewrite Ht. simpl.
  apply Z.eqb_neq in Hrc. rewrite Hrc.
  destruct (truthy (stdout p)), (truthy (stderr p)); simpl;
    rewrite <- ?app_assoc; reflexivity.
Qed.

(** *** Rendering *)

Lemma render_page_run (w : world) (stem out : string) (infiles : list string)
    (pageno : Z) (pi : pageinfo) (h : hocr_page) (img : string) :
  let image := stem ++ ".page.png" in
  let hocr := stem ++ ".hocr" in
  infiles = [image; hocr] \/ infiles = [hocr; image] ->
  pageno_of image = Some pageno ->
  py_index (pdfinfo w) pageno = Some pi ->
  fs w !! hocr = Some (Hocr h) ->
  fs w !! image = Some (Bytes img) ->
  render_page infiles out w =
    (Ok tt,
     {| fs := <[out := rendered img (hocr_words h)
                         (py_round (py_max (xres pi) (yres pi)))]> (fs w);
        pdfinfo := pdfinfo w;
        trace := trace (looked_up w pageno) |}).
Proof.
  intros image hocr Hin Hno Hpi Hh Himg.
  assert (Hfind : next_endswith infiles ".hocr" w = (Ok hocr, w)
                  /\ next_endswith infiles ".page.png" w = (Ok image, w)).
  { unfold next_endswith.
    destruct Hin as [-> | ->]; simpl; unfold image, hocr;
      rewrite ?endswith_png_not_hocr, ?endswith_hocr_not_png, ?endswith_append;
      split; reflexivity. }
  destruct Hfind as [Hf1 Hf2].
  unfold render_page.
  unfold mbind at 1. unfold M_bind at 1. rewrite Hf1.
  unfold mbind at 1. unfold M_bind at 1. rewrite Hf2.
  unfold mbind at 1. unfold M_bind at 1.
  rewrite (get_pageinfo_ok w image pageno pi Hno Hpi).
  unfold HocrTransform, to_pdf, rendered. unfold_m. simpl.
  rewrite Hh. simpl. rewrite Himg. reflexivity.
Qed.

(** *** Repair and the population of the store *)

Lemma repair_pdf_run (w : world) (input_file out : string) (c : content) :
  let args := args_mutool input_file out in
  let p := run E args (fs w) in
  returncode p = 0 ->
  files p !! out = Some c ->
  repair_pdf E input_file out w =
    (Ok tt,
     {| fs := files p;
        pdfinfo := pdfinfo w ++ pdf_get_all_pageinfo E c;
        trace := (trace w ++ [ESpawn args; EWait; EAcquire PdfinfoLock;
                              EStore (Extend (pdf_get_all_pageinfo E c))]
                  ++ logged INFO
                       (MsgStore (pdfinfo w ++ pdf_get_all_pageinfo E c))
                  ++ [ERelease PdfinfoLock])%list |}).
Proof.
  intros args p Hrc Hc.
  unfold repair_pdf.
  unfold mbind at 1. unfold M_bind at 1.
  rewrite check_call_run. fold args. fold p. rewrite Hrc. simpl.
  unfold_m. simpl. rewrite Hc. simpl.
  rewrite <- ?app_assoc. reflexivity.
Qed.

Lemma repair_pdf_nonzero (w : world) (input_file out : string) :
  let args := args_mutool input_file out in
  let p := run E args (fs w) in
  returncode p <> 0 ->
  repair_pdf E input_file out w =
    (Raised (CalledProcessError (returncode p) args),
     {| fs := files p; pdfinfo := pdfinfo w;
        trace := trace w ++ [ESpawn args; EWait] |}).
Proof.
  intros args p Hrc.
  unfold repair_pdf.
  unfold mbind at 1. unfold M_bind at 1.
  rewrite check_call_run. fold args. fold p.
  apply Z.eqb_neq in Hrc. rewrite Hrc. reflexivity.
Qed.

(** *** Splitting *)

Lemma unlink_each (l : list string) : forall w,
  for_each l (fun oo => suppress_FileNotFoundError (unlink oo)) w =
    (Ok tt, {| fs := unlinked l (fs w); pdfinfo := pdfinfo w;
               trace := trace w |}).
Proof.
  induction l as [|x l IH]; intros w.
  - destruct w; reflexivity.
  - cbn [for_each]. unfold mbind at 1. unfold M_bind at 1.
    unfold suppress_FileNotFoundError, unlink. unfold_m. simpl.
    destruct (fs w !! x) eqn:Hx; simpl.
    + rewrite IH. reflexivity.
    + rewrite IH. simpl. rewrite (delete_id (fs w) x Hx). destruct w; reflexivity.
Qed.

Lemma split_pages_run (w : world) (input_file root : string)
    (output_files : list string) :
  let args := args_pdfseparate input_file root in
  let p := run E args (unlinked output_files (fs w)) in
  split_pages E input_file output_files root w =
    (if returncode p =? 0 then Ok tt
     else Raised (CalledProcessError (returncode p) args),
     {| fs := files p; pdfinfo := pdfinfo w;
        trace := trace w ++ [ESpawn args; EWait] |}).
Proof.
  intros args p. unfold split_pages.
  unfold mbind at 1. unfold M_bind at 1.
  rewrite unlink_each, check_call_run. reflexivity.
Qed.

(** *** Merging *)

Lemma merge_pages_trace (w : world) (ocr_pages : list string)
    (postscript out : string) :
  trace (snd (merge_pages E (ocr_pages ++ [postscript]) out w)) =
    (trace w ++ [ESpawn (args_gs_merge (mktemp E (fs w)) postscript ocr_pages);
                 EWait])%list.
Proof.
  unfold merge_pages. rewrite last_snoc, removelast_last.
  unfold NamedTemporaryFile.
  unfold mbind at 1. unfold M_bind at 1. simpl.
  unfold mbind at 1. unfold M_bind at 1. simpl.
  unfold finally, mbind at 1. unfold M_bind at 1.
  rewrite check_call_run. simpl.
  unfold copy, unlink. unfold_m. simpl.
  repeat (case_match; simplify_eq/=); reflexivity.
Qed.

Lemma merge_pages_nonzero (w : world) (ocr_pages : list string)
    (postscript out : string) (c : content) :
  let tmp := mktemp E (fs w) in
  let args := args_gs_merge tmp postscript ocr_pages in
  let p := run E args (<[tmp := Bytes EmptyString]> (fs w)) in
  returncode p <> 0 ->
  files p !! tmp = Some c ->
  merge_pages E (ocr_pages ++ [postscript]) out w =
    (Raised (CalledProcessError (returncode p) args),
     {| fs := delete tmp (files p); pdfinfo := pdfinfo w;
        trace := trace w ++ [ESpawn args; EWait] |}).
Proof.
  intros tmp args p Hrc Htmp.
  unfold merge_pages. rewrite last_snoc, removelast_last.
  unfold NamedTemporaryFile.
  unfold mbind at 1. unfold M_bind at 1. simpl.
  unfold mbind at 1. unfold M_bind at 1. simpl.
  unfold finally, mbind at 1. unfold M_bind at 1.
  rewrite check_call_run. simpl. fold tmp. fold args. fold p.
  apply Z.eqb_neq in Hrc. rewrite Hrc.
  unfold unlink. unfold_m. simpl. rewrite Htmp. reflexivity.
Qed.

Lemma generate_pdfa_nonzero (w : world) (pdf_pages : list string)
    (out : string) (threads : Z) (c : content) :
  let tmp := mktemp E (fs w) in
  let args := args_gs_pdfa E tmp pdf_pages threads in
  let p := run E args (<[tmp := Bytes EmptyString]> (fs w)) in
  returncode p <> 0 ->
  files p !! tmp = Some c ->
  generate_pdfa E pdf_pages out threads w =
    (Raised (CalledProcessError (returncode p) args),
     {| fs := delete tmp (files p); pdfinfo := pdfinfo w;
        trace := trace w ++ [ESpawn args; EWait] |}).
Proof.
  intros tmp args p Hrc Htmp.
  unfold generate_pdfa, NamedTemporaryFile.
  unfold mbind at 1. unfold M_bind at 1. simpl.
  unfold mbind at 1. unfold M_bind at 1. simpl.
  unfold finally, mbind at 1. unfold M_bind at 1.
  rewrite check_call_run. simpl. fold tmp. fold args. fold p.
  apply Z.eqb_neq in Hrc. rewrite Hrc.
  unfold unlink. unfold_m. simpl. rewrite Htmp. reflexivity.
Qed.

(** *** Validation *)

Lemma validate_pdfa_exit_zero (w : world) (input_file out : string)
    (c : content) :
  let p := run E (args_jhove E input_file) (fs w) in
  returncode p = 0 ->
  input_file <> out ->
  files p !! input_file = Some c ->
  validate_pdfa E input_file out w =
    (Ok tt,
     {| fs := <[out := c]> (files p);
        pdfinfo := pdfinfo w;
        trace := (trace w ++ [ESpawn (args_jhove E input_file); EWait]
                   ++ logged DEBUG (MsgText (stdout p))
                   ++ verdict_record (classify (stdout p)))%list |}).
Proof.
  intros p Hrc Hne Hc.
  unfold validate_pdfa, Popen, communicate, reap, copy, classify, verdict_record.
  unfold_m. simpl. fold p. rewrite Hrc. simpl.
  destruct (pdf_is_valid (stdout p)) eqn:Hv, (pdf_is_pdfa (stdout p)) eqn:Ha; simpl;
    rewrite bool_decide_false by done; rewrite Hc; simpl;
    rewrite <- !app_assoc; reflexivity.
Qed.

Lemma validate_pdfa_nonzero (w : world) (input_file out : string) :
  let p := run E (args_jhove E input_file) (fs w) in
  returncode p <> 0 ->
  validate_pdfa E input_file out w =
    (Raised (RuntimeError
               "Unexpected error while checking compliance to PDF/A file."),
     {| fs := files p;
        pdfinfo := pdfinfo w;
        trace := (trace w ++ [ESpawn (args_jhove E input_file); EWait]
                   ++ logged DEBUG (MsgText (stdout p))
                   ++ logged ERROR (MsgText (stdout p)))%list |}).
Proof.
  intros p Hrc.
  unfold validate_pdfa, Popen, communicate, reap.
  unfold_m. simpl. fold p.
  apply Z.eqb_neq in Hrc. rewrite Hrc. simpl.
  rewrite <- !app_assoc. reflexivity.
Qed.

Lemma validate_pdfa_trace (w : world) (input_file out : string) :
  let p := run E (args_jhove E input_file) (fs w) in
  trace (snd (validate_pdfa E input_file out w)) =
    (trace w ++ [ESpawn (args_jhove E input_file); EWait]
       ++ logged DEBUG (MsgText (stdout p))
       ++ (if returncode p =? 0 then verdict_record (classify (stdout p))
           else logged ERROR (MsgText (stdout p))))%list.
Proof.
  intros p.
  unfold validate_pdfa, Popen, communicate, reap, copy, classify, verdict_record.
  unfold_m. simpl. fold p.
  destruct (returncode p =? 0); simpl;
    [destruct (pdf_is_valid (stdout p)), (pdf_is_pdfa (stdout p)); simpl|];
    repeat (case_match; simplify_eq/=); rewrite <- ?app_assoc; reflexivity.
Qed.

End StageFacts.
(* ===================================================================== *)
(** * The raster device *)
(* ===================================================================== *)

Lemma forallb_Forall_Z (f : image -> Z) (l : list image) :
  forallb (fun i => f i =? 1) l = true <-> Forall (fun i => f i = 1) l.
Proof.
  rewrite forallb_forall, Forall_forall.
  split; intros H x Hx.
  - apply Z.eqb_eq, H, list_elem_of_In, Hx.
  - apply Z.eqb_eq, H, list_elem_of_In, Hx.
Qed.

Lemma existsb_Exists_color (l : list image) :
  existsb (fun i => String.eqb (color i) "color") l = true
  <-> Exists (fun i => color i = "color") l.
Proof.
  rewrite existsb_exists, Exists_exists.
  split; intros (x & Hx & Hc); exists x.
  - split; [apply list_elem_of_In, Hx|apply String.eqb_eq, Hc].
  - split; [apply list_elem_of_In, Hx|apply String.eqb_eq, Hc].
Qed.

Lemma reflected_cases (b : bool) (P : Prop) :
  (b = true <-> P) -> (b = true /\ P) \/ (b = false /\ ~ P).
Proof.
  intros H. destruct b.
  - left. split; [reflexivity|apply H; reflexivity].
  - right. split; [reflexivity|]. intros HP. apply H in HP. discriminate.
Qed.

Lemma device_cases (pi : pageinfo) :
  let one_comp := Forall (fun i => comp i = 1) (images pi) in
  let one_bit := Forall (fun i => bpc i = 1) (images pi) in
  let coloured := Exists (fun i => color i = "color") (images pi) in
  (device pi = "pngmono" <-> one_comp /\ one_bit) /\
  (device pi = "pnggray" <-> one_comp /\ ~ one_bit /\ ~ coloured) /\
  (device pi = "png16m"
   <-> ~ (one_comp /\ one_bit) /\ ~ (one_comp /\ ~ one_bit /\ ~ coloured)).
Proof.
  intros one_comp one_bit coloured. unfold device.
  destruct (reflected_cases _ _ (forallb_Forall_Z comp (images pi)))
    as [[E1 Hc] | [E1 Hc]];
  destruct (reflected_cases _ _ (forallb_Forall_Z bpc (images pi)))
    as [[E2 Hb] | [E2 Hb]];
  destruct (reflected_cases _ _ (existsb_Exists_color (images pi)))
    as [[E3 Hx] | [E3 Hx]];
  fold one_comp in Hc; fold one_bit in Hb; fold coloured in Hx;
  rewrite E1, ?E2, ?E3; simpl;
  (split; [|split]); split; intros H; try discriminate H; tauto.
Qed.

Lemma rasterize_spawns (E : environment) (w : world) (input_file out : string)
    (pageno : Z) (pi : pageinfo) :
  pageno_of input_file = Some pageno ->
  py_index (pdfinfo w) pageno = Some pi ->
  In (ESpawn (args_gs_raster E pi (mktemp E (fs w)) input_file))
     (trace (snd (rasterize_with_ghostscript E input_file out w))).
Proof.
  intros Hno Hpi.
  rewrite (rasterize_trace E w input_file out pageno pi Hno Hpi).
  apply in_or_app. right. left. reflexivity.
Qed.

(** C5: for a page whose descriptor is [pi], the rasterize stage starts the
    rasteriser with the device option [-sDEVICE=] followed by [device pi],
    and [device pi] is the 1-bit monochrome device exactly when every image
    has one colour component and one bit per component, the grayscale
    device exactly when every image has one component, not all have one bit
    per component and no image has the colorspace [color], and the 24-bit
    colour device exactly in the remaining cases. *)
Theorem rasterize_device_choice (E : environment) (w : world)
    (input_file out : string) (pageno : Z) (pi : pageinfo) :
  pageno_of input_file = Some pageno ->
  py_index (pdfinfo w) pageno = Some pi ->
  let args := args_gs_raster E pi (mktemp E (fs w)) input_file in
  let one_comp := Forall (fun i => comp i = 1) (images pi) in
  let one_bit := Forall (fun i => bpc i = 1) (images pi) in
  let coloured := Exists (fun i => color i = "color") (images pi) in
  In (ESpawn args)
     (trace (snd (rasterize_with_ghostscript E input_file out w))) /\
  args !! 3%nat = Some ("-sDEVICE=" ++ device pi) /\
  (device pi = "pngmono" <-> one_comp /\ one_bit) /\
  (device pi = "pnggray" <-> one_comp /\ ~ one_bit /\ ~ coloured) /\
  (device pi = "png16m"
   <-> ~ (one_comp /\ one_bit) /\ ~ (one_comp /\ ~ one_bit /\ ~ coloured)).
Proof.
  intros Hno Hpi args one_comp one_bit coloured.
  split; [apply (rasterize_spawns E w input_file out pageno pi Hno Hpi)|].
  split; [reflexivity|].
  apply device_cases.
Qed.

Lemma rasterize_device_choice_witness :
  let pi := demo_page [gray_image; rgb_image] (601 # 2) 200 in
  let args := args_gs_raster quiet_env pi "/tmp/tmpgs0001" "tmp/000003.page.pdf" in
  In (ESpawn args)
     (trace (snd (rasterize_with_ghostscript quiet_env "tmp/000003.page.pdf"
                    "tmp/000003.page.png" demo_world))) /\
  args !! 3%nat = Some "-sDEVICE=png16m".
Proof.
  intros pi args.
  destruct (rasterize_device_choice quiet_env demo_world "tmp/000003.page.pdf"
              "tmp/000003.page.png" 2 pi) as (H1 & H2 & _);
    [reflexivity | reflexivity |].
  split; [exact H1 | exact H2].
Defined.

(** C10: for a page whose descriptor records no embedded image, the
    rasterize stage starts the rasteriser with the 1-bit monochrome device
    [pngmono]: both checks over the images hold of the empty list. *)
Theorem rasterize_no_images_monochrome (E : environment) (w : world)
    (input_file out : string) (pageno : Z) (pi : pageinfo) :
  pageno_of input_file = Some pageno ->
  py_index (pdfinfo w) pageno = Some pi ->
  images pi = [] ->
  let args := args_gs_raster E pi (mktemp E (fs w)) input_file in
  device pi = "pngmono" /\
  args !! 3%nat = Some "-sDEVICE=pngmono" /\
  In (ESpawn args)
     (trace (snd (rasterize_with_ghostscript E input_file out w))).
Proof.
  intros Hno Hpi Himg args.
  assert (Hdev : device pi = "pngmono") by (unfold device; rewrite Himg; reflexivity).
  split; [exact Hdev|]. split.
  - unfold args, args_gs_raster. simpl. rewrite Hdev. reflexivity.
  - apply (rasterize_spawns E w input_file out pageno pi Hno Hpi).
Qed.

Lemma rasterize_no_images_monochrome_witness :
  let pi := demo_page [] 300 300 in
  let args := args_gs_raster quiet_env pi "/tmp/tmpgs0001" "tmp/000002.page.pdf" in
  device pi = "pngmono" /\
  args !! 3%nat = Some "-sDEVICE=pngmono" /\
  In (ESpawn args)
     (trace (snd (rasterize_with_ghostscript quiet_env "tmp/000002.page.pdf"
                    "tmp/000002.page.png" demo_world))).
Proof.
  intros pi args.
  apply (rasterize_no_images_monochrome quiet_env demo_world
           "tmp/000002.page.pdf" "tmp/000002.page.png" 1 pi);
    reflexivity.
Defined.

(* ===================================================================== *)
(** * Validation and delivery *)
(* ===================================================================== *)

(** C1, as the code has it: whenever the validator exits with status zero,
    and the candidate exists and is not the destination itself, the stage
    copies the candidate to the destination path and ends normally,
    whatever the classification of the report (malformed, well-formed but
    nonconformant, conformant); the classification only selects the record
    that is logged: a warning for the first two, an information record for
    the last. *)
Theorem validate_pdfa_delivers_every_verdict (E : environment) (w : world)
    (input_file out : string) (c : content) :
  let p := run E (args_jhove E input_file) (fs w) in
  returncode p = 0 ->
  input_file <> out ->
  files p !! input_file = Some c ->
  let w' := snd (validate_pdfa E input_file out w) in
  fst (validate_pdfa E input_file out w) = Ok tt /\
  fs w' !! out = Some c /\
  fs w' = <[out := c]> (files p) /\
  trace w' = (trace w ++ [ESpawn (args_jhove E input_file); EWait]
                ++ logged DEBUG (MsgText (stdout p))
                ++ verdict_record (classify (stdout p)))%list /\
  (exists lv m, verdict_record (classify (stdout p)) = logged lv m /\
     (lv = WARNING <-> classify (stdout p) <> Conformant) /\
     (lv = INFO <-> classify (stdout p) = Conformant)).
Proof.
  intros p Hrc Hne Hc w'. unfold w'.
  rewrite (validate_pdfa_exit_zero E w input_file out c Hrc Hne Hc). simpl.
  split; [reflexivity|]. split; [apply lookup_insert_eq|].
  split; [reflexivity|]. split; [reflexivity|].
  fold p. destruct (classify (stdout p)); simpl; eexists _, _;
    (split; [reflexivity|]); split; split; congruence.
Qed.

Lemma validate_pdfa_delivers_every_verdict_witness :
  classify (stdout (run conformant_env
                      (args_jhove conformant_env "tmp/merged.pdf")
                      (fs demo_world))) = Conformant /\
  fst (validate_pdfa conformant_env "tmp/merged.pdf" "out.pdf" demo_world)
    = Ok tt /\
  fs (snd (validate_pdfa conformant_env "tmp/merged.pdf" "out.pdf" demo_world))
    !! "out.pdf" = Some (Bytes "%PDF candidate").
Proof.
  split; [reflexivity|].
  destruct (validate_pdfa_delivers_every_verdict conformant_env demo_world
              "tmp/merged.pdf" "out.pdf" (Bytes "%PDF candidate"))
    as (H1 & H2 & _); [reflexivity | discriminate | reflexivity |].
  split; [exact H1 | exact H2].
Defined.

(** C1 fails as stated: the validator exits with status zero, its report
    says [Status: Not well-formed], so the candidate is classified as
    malformed; the stage still ends normally and the destination path,
    absent before, holds the candidate afterwards. *)
Lemma malformed_candidate_is_delivered :
  returncode (run malformed_env (args_jhove malformed_env "tmp/merged.pdf")
                (fs demo_world)) = 0 /\
  classify (stdout (run malformed_env
                      (args_jhove malformed_env "tmp/merged.pdf")
                      (fs demo_world))) = Malformed /\
  fs demo_world !! "out.pdf" = None /\
  fst (validate_pdfa malformed_env "tmp/merged.pdf" "out.pdf" demo_world)
    = Ok tt /\
  fs (snd (validate_pdfa malformed_env "tmp/merged.pdf" "out.pdf" demo_world))
    !! "out.pdf" = Some (Bytes "%PDF candidate").
Proof. vm_compute. repeat split; reflexivity. Qed.

(* ===================================================================== *)
(** * A tool that exits with a non-zero status *)
(* ===================================================================== *)

(** C2, as the code has it.  When the external program of a stage exits
    with a non-zero status: the repair, split and merge stages and
    [generate_pdfa] of [ghostscript.py] (which use [check_call]) and the
    text-recognition stage (when the program exits within its timeout) end
    with [CalledProcessError] carrying the exit status and the command
    line; the validation stage ends with a
    [RuntimeError] that does not carry the status; the rasterize stage, in
    [ocrmypdf.py] and in [ghostscript.py] alike, does not fail: it logs
    [Ghostscript rendering failed] at error level, writes no output file
    and returns normally. *)
Theorem nonzero_exit_by_stage (E : environment) (w : world) :
  (forall input_file out,
     let p := run E (args_mutool input_file out) (fs w) in
     returncode p <> 0 ->
     fst (repair_pdf E input_file out w)
     = Raised (CalledProcessError (returncode p)
                 (args_mutool input_file out))) /\
  (forall input_file output_files root,
     let p := run E (args_pdfseparate input_file root)
                (unlinked output_files (fs w)) in
     returncode p <> 0 ->
     fst (split_pages E input_file output_files root w)
     = Raised (CalledProcessError (returncode p)
                 (args_pdfseparate input_file root))) /\
  (forall ocr_pages postscript out c,
     let tmp := mktemp E (fs w) in
     let args := args_gs_merge tmp postscript ocr_pages in
     let p := run E args (<[tmp := Bytes EmptyString]> (fs w)) in
     returncode p <> 0 ->
     files p !! tmp = Some c ->
     fst (merge_pages E (ocr_pages ++ [postscript]) out w)
     = Raised (CalledProcessError (returncode p) args)) /\
  (forall pdf_pages out threads c,
     let tmp := mktemp E (fs w) in
     let args := args_gs_pdfa E tmp pdf_pages threads in
     let p := run E args (<[tmp := Bytes EmptyString]> (fs w)) in
     returncode p <> 0 ->
     files p !! tmp = Some c ->
     fst (generate_pdfa E pdf_pages out threads w)
     = Raised (CalledProcessError (returncode p) args)) /\
  (forall input_file out pageno pi,
     let p := run E (args_tesseract E input_file out) (fs w) in
     pageno_of input_file = Some pageno ->
     py_index (pdfinfo w) pageno = Some pi ->
     elapsed p <= 180 ->
     returncode p <> 0 ->
     fst (ocr_tesseract E input_file out w)
     = Raised (CalledProcessError (returncode p)
                 (args_tesseract E input_file out))) /\
  (forall input_file out,
     let p := run E (args_jhove E input_file) (fs w) in
     returncode p <> 0 ->
     fst (validate_pdfa E input_file out w)
     = Raised (RuntimeError
                 "Unexpected error while checking compliance to PDF/A file.")) /\
  (forall input_file out pageno pi c,
     let tmp := mktemp E (fs w) in
     let args := args_gs_raster E pi tmp input_file in
     let p := run E args (<[tmp := Bytes EmptyString]> (fs w)) in
     pageno_of input_file = Some pageno ->
     py_index (pdfinfo w) pageno = Some pi ->
     returncode p <> 0 ->
     files p !! tmp = Some c ->
     let w' := snd (rasterize_with_ghostscript E input_file out w) in
     fst (rasterize_with_ghostscript E input_file out w) = Ok tt /\
     fs w' = delete tmp (files p) /\
     In (ELog ERROR (MsgText "Ghostscript rendering failed")) (trace w')) /\
  (forall input_file out x y dev c,
     let tmp := mktemp E (fs w) in
     let args := args_gs_pdf E tmp input_file x y dev in
     let p := run E args (<[tmp := Bytes EmptyString]> (fs w)) in
     returncode p <> 0 ->
     files p !! tmp = Some c ->
     let w' := snd (rasterize_pdf E input_file out x y dev w) in
     fst (rasterize_pdf E input_file out x y dev w) = Ok tt /\
     fs w' = delete tmp (files p) /\
     In (ELog ERROR (MsgText "Ghostscript rendering failed")) (trace w')).
Proof.
  split; [|split; [|split; [|split; [|split; [|split; [|split]]]]]].
  - intros input_file out p Hrc.
    rewrite (repair_pdf_nonzero E w input_file out Hrc). reflexivity.
  - intros input_file output_files root p Hrc.
    rewrite split_pages_run. fold p.
    apply Z.eqb_neq in Hrc. rewrite Hrc. reflexivity.
  - intros ocr_pages postscript out c tmp args p Hrc Htmp.
    rewrite (merge_pages_nonzero E w ocr_pages postscript out c Hrc Htmp).
    reflexivity.
  - intros pdf_pages out threads c tmp args p Hrc Htmp.
    rewrite (generate_pdfa_nonzero E w pdf_pages out threads c Hrc Htmp).
    reflexivity.
  - intros input_file out pageno pi p Hno Hpi Hfast Hrc.
    rewrite (ocr_tesseract_nonzero E w input_file out pageno pi Hno Hpi Hfast Hrc).
    reflexivity.
  - intros input_file out p Hrc.
    rewrite (validate_pdfa_nonzero E w input_file out Hrc). reflexivity.
  - intros input_file out pageno pi c tmp args p Hno Hpi Hrc Htmp w'. unfold w'.
    rewrite (rasterize_nonzero E w input_file out pageno pi c Hno Hpi Hrc Htmp).
    cbn [fst snd fs trace]. split; [reflexivity|]. split; [reflexivity|].
    do 4 (apply in_or_app; right). right. left. reflexivity.
  - intros input_file out x y dev c tmp args p Hrc Htmp w'. unfold w'.
    rewrite (rasterize_pdf_nonzero E w input_file out x y dev c Hrc Htmp).
    cbn [fst snd fs trace]. split; [reflexivity|]. split; [reflexivity|].
    do 4 (apply in_or_app; right). right. left. reflexivity.
Qed.

Lemma nonzero_exit_by_stage_witness :
  fst (repair_pdf failing_env "in.pdf" "tmp/in.repaired.pdf" fresh_world)
    = Raised (CalledProcessError 1
                (args_mutool "in.pdf" "tmp/in.repaired.pdf")) /\
  fst (ocr_tesseract failing_env "tmp/000001.page.png" "tmp/000001.hocr"
         demo_world)
    = Raised (CalledProcessError 1
                (args_tesseract failing_env "tmp/000001.page.png"
                   "tmp/000001.hocr")) /\
  fst (rasterize_with_ghostscript failing_env "tmp/000001.page.pdf"
         "tmp/000001.page.png" split_world) = Ok tt.
Proof.
  destruct (nonzero_exit_by_stage failing_env fresh_world) as (H1 & _).
  destruct (nonzero_exit_by_stage failing_env demo_world)
    as (_ & _ & _ & _ & H4 & _).
  destruct (nonzero_exit_by_stage failing_env split_world)
    as (_ & _ & _ & _ & _ & _ & H6 & _).
  split; [|split].
  - refine (H1 "in.pdf" "tmp/in.repaired.pdf" _).
    vm_compute. discriminate.
  - refine (H4 "tmp/000001.page.png" "tmp/000001.hocr" 0
              (demo_page [mono_image] 300 300) _ _ _ _).
    + vm_compute. reflexivity.
    + vm_compute. reflexivity.
    + vm_compute. discriminate.
    + vm_compute. discriminate.
  - refine (proj1 (H6 "tmp/000001.page.pdf" "tmp/000001.page.png" 0
                     (demo_page [mono_image] 300 300) (Bytes EmptyString)
                     _ _ _ _)).
    + vm_compute. reflexivity.
    + vm_compute. reflexivity.
    + vm_compute. discriminate.
    + vm_compute. reflexivity.
Defined.

(** C2 fails as stated: the rasteriser exits with status 1 on page one;
    the rasterize stage raises nothing and returns normally, the failure is
    only logged, and the image of the page is not there afterwards. *)
Lemma rasterize_failure_is_logged_and_skipped :
  returncode (run failing_env
                (args_gs_raster failing_env (demo_page [mono_image] 300 300)
                   "/tmp/tmpgs0001" "tmp/000001.page.pdf")
                (<["/tmp/tmpgs0001" := Bytes EmptyString]> (fs split_world)))
    = 1 /\
  fst (rasterize_with_ghostscript failing_env "tmp/000001.page.pdf"
         "tmp/000001.page.png" split_world) = Ok tt /\
  fs (snd (rasterize_with_ghostscript failing_env "tmp/000001.page.pdf"
             "tmp/000001.page.png" split_world))
    !! "tmp/000001.page.png" = None /\
  trace (snd (rasterize_with_ghostscript failing_env "tmp/000001.page.pdf"
                "tmp/000001.page.png" split_world))
  = [EPrint "0"; EAcquire PdfinfoLock; EStore (GetItem 0);
     ERelease PdfinfoLock;
     ESpawn (args_gs_raster failing_env (demo_page [mono_image] 300 300)
               "/tmp/tmpgs0001" "tmp/000001.page.pdf");
     EWait;
     EAcquire LoggerMutex; ELog DEBUG (MsgText "out: failed");
     ERelease LoggerMutex;
     EAcquire LoggerMutex; ELog ERROR (MsgText "err: failed");
     ERelease LoggerMutex;
     EAcquire LoggerMutex;
     ELog ERROR (MsgText "Ghostscript rendering failed");
     ERelease LoggerMutex].
Proof. vm_compute. repeat split; reflexivity. Qed.

(* ===================================================================== *)
(** * Where the captured streams are logged *)
(* ===================================================================== *)

(** C9, as the code has it.  Every record goes through the logger under
    its mutex.  The rasterize stage (in [ocrmypdf.py] and in
    [ghostscript.py]) sends a non-empty captured stdout to the debug level
    and a non-empty captured stderr to the error level.  The
    text-recognition stage, when its program exits within the timeout,
    sends a non-empty stdout to the information level, not to the debug
    level, and a non-empty stderr to the error level; when the program
    times out it logs neither stream.  The validation stage, whatever the
    name of its input file, captures stdout only and always logs it at the
    debug level.  The two stages that work on one page are taken on a file
    whose descriptor is found; the other two need no descriptor. *)
Theorem stream_routing_by_stage (E : environment) (w : world)
    (input_file out : string) :
  (forall pageno pi,
   pageno_of input_file = Some pageno ->
   py_index (pdfinfo w) pageno = Some pi ->
   let tmp := mktemp E (fs w) in
   let args := args_gs_raster E pi tmp input_file in
   let p := run E args (<[tmp := Bytes EmptyString]> (fs w)) in
   trace (snd (rasterize_with_ghostscript E input_file out w)) =
     (trace (looked_up w pageno) ++ [ESpawn args; EWait]
        ++ logged_if DEBUG (stdout p) ++ logged_if ERROR (stderr p)
        ++ (if returncode p =? 0 then []
            else logged ERROR (MsgText "Ghostscript rendering failed")))%list)
  /\
  (forall x y dev,
   let tmp := mktemp E (fs w) in
   let args := args_gs_pdf E tmp input_file x y dev in
   let p := run E args (<[tmp := Bytes EmptyString]> (fs w)) in
   trace (snd (rasterize_pdf E input_file out x y dev w)) =
     (trace w ++ [ESpawn args; EWait]
        ++ logged_if DEBUG (stdout p) ++ logged_if ERROR (stderr p)
        ++ (if returncode p =? 0 then []
            else logged ERROR (MsgText "Ghostscript rendering failed")))%list)
  /\
  (forall pageno pi,
   pageno_of input_file = Some pageno ->
   py_index (pdfinfo w) pageno = Some pi ->
   let args := args_tesseract E input_file out in
   let p := run E args (fs w) in
   (elapsed p <= 180 ->
    trace (snd (ocr_tesseract E input_file out w)) =
      (trace (looked_up w pageno) ++ [ESpawn args; EWait]
         ++ logged_if INFO (stdout p) ++ logged_if ERROR (stderr p))%list)
   /\
   (180 < elapsed p ->
    trace (snd (ocr_tesseract E input_file out w)) =
      (trace (looked_up w pageno)
         ++ [ESpawn args; ETimeout 180; EKill; EWait])%list))
  /\
  (let p := run E (args_jhove E input_file) (fs w) in
   trace (snd (validate_pdfa E input_file out w)) =
     (trace w ++ [ESpawn (args_jhove E input_file); EWait]
        ++ logged DEBUG (MsgText (stdout p))
        ++ (if returncode p =? 0 then verdict_record (classify (stdout p))
            else logged ERROR (MsgText (stdout p))))%list).
Proof.
  split; [|split; [|split]].
  - intros pageno pi Hno Hpi.
    apply (rasterize_trace E w input_file out pageno pi Hno Hpi).
  - intros x y dev. apply rasterize_pdf_trace.
  - intros pageno pi Hno Hpi. split.
    + apply (ocr_tesseract_trace E w input_file out pageno pi Hno Hpi).
    + intros Hslow.
      rewrite (ocr_tesseract_timeout E w input_file out pageno pi Hno Hpi
                 Hslow).
      reflexivity.
  - apply validate_pdfa_trace.
Qed.

Lemma stream_routing_by_stage_witness :
  (trace (snd (rasterize_with_ghostscript chatty_env "tmp/000001.page.pdf"
                 "tmp/000001.page.png" split_world))
   = [EPrint "0"; EAcquire PdfinfoLock; EStore (GetItem 0);
      ERelease PdfinfoLock;
      ESpawn (args_gs_raster chatty_env (demo_page [mono_image] 300 300)
                "/tmp/tmpgs0001" "tmp/000001.page.pdf");
      EWait;
      EAcquire LoggerMutex; ELog DEBUG (MsgText "progress");
      ERelease LoggerMutex;
      EAcquire LoggerMutex; ELog ERROR (MsgText "warning");
      ERelease LoggerMutex]) /\
  (trace (snd (ocr_tesseract chatty_env "tmp/000001.page.png"
                 "tmp/000001.hocr" demo_world))
   = [EPrint "0"; EAcquire PdfinfoLock; EStore (GetItem 0);
      ERelease PdfinfoLock;
      ESpawn (args_tesseract chatty_env "tmp/000001.page.png"
                "tmp/000001.hocr");
      EWait;
      EAcquire LoggerMutex; ELog INFO (MsgText "progress");
      ERelease LoggerMutex;
      EAcquire LoggerMutex; ELog ERROR (MsgText "warning");
      ERelease LoggerMutex]) /\
  (trace (snd (validate_pdfa chatty_env "tmp/merged.pdf" "out.pdf"
                 demo_world))
   = [ESpawn (args_jhove chatty_env "tmp/merged.pdf"); EWait;
      EAcquire LoggerMutex; ELog DEBUG (MsgText "progress");
      ERelease LoggerMutex;
      EAcquire LoggerMutex;
      ELog WARNING
        (MsgText "Output file: Generated file is a VALID PDF but not PDF/A");
      ERelease LoggerMutex]).
Proof.
  destruct (stream_routing_by_stage chatty_env split_world
              "tmp/000001.page.pdf" "tmp/000001.page.png") as (Hr & _).
  destruct (stream_routing_by_stage chatty_env demo_world
              "tmp/000001.page.png" "tmp/000001.hocr") as (_ & _ & Ho & _).
  destruct (stream_routing_by_stage chatty_env demo_world
              "tmp/merged.pdf" "out.pdf") as (_ & _ & _ & Hv).
  split; [|split].
  - rewrite (Hr 0 (demo_page [mono_image] 300 300));
      vm_compute; reflexivity.
  - destruct (Ho 0 (demo_page [mono_image] 300 300)) as (Hfast & _);
      [vm_compute; reflexivity | vm_compute; reflexivity|].
    rewrite Hfast; [vm_compute; reflexivity|].
    vm_compute. discriminate.
  - rewrite Hv. vm_compute. reflexivity.
Defined.

(** C9 fails as stated: the text-recognition program exits in time with
    status 0 and the text [progress] on its stdout; the stage logs that
    text at the information level and nothing at the debug level. *)
Lemma ocr_stdout_goes_to_info :
  trace (snd (ocr_tesseract chatty_env "tmp/000001.page.png"
                "tmp/000001.hocr" demo_world))
  = [EPrint "0"; EAcquire PdfinfoLock; EStore (GetItem 0);
     ERelease PdfinfoLock;
     ESpawn (args_tesseract chatty_env "tmp/000001.page.png"
               "tmp/000001.hocr");
     EWait;
     EAcquire LoggerMutex; ELog INFO (MsgText "progress");
     ERelease LoggerMutex;
     EAcquire LoggerMutex; ELog ERROR (MsgText "warning");
     ERelease LoggerMutex] /\
  ~ In (ELog DEBUG (MsgText "progress"))
       (trace (snd (ocr_tesseract chatty_env "tmp/000001.page.png"
                      "tmp/000001.hocr" demo_world))).
Proof.
  split.
  - vm_compute. reflexivity.
  - vm_compute. intros H.
    repeat (destruct H as [H | H]; [discriminate H|]). exact H.
Qed.

(* ===================================================================== *)
(** * The text-recognition timeout *)
(* ===================================================================== *)

(** C3: when the text-recognition program of a page has not exited after
    180 seconds, the stage kills it, reads its streams to the end, writes
    the fallback hOCR page (well-formed, of the page's size in pixels, with
    no recognized word) as its output and ends normally, logging nothing;
    it touches no other file than its output and leaves the metadata store
    as it was.  The render stage of that page then ends normally and its
    single page carries the image and a text layer with no word. *)
Theorem ocr_timeout_falls_back (E : environment) (w : world)
    (stem rendered_pdf : string) (infiles : list string) (pageno : Z)
    (pi : pageinfo) (img : string) :
  let image := stem ++ ".page.png" in
  let hocr := stem ++ ".hocr" in
  let args := args_tesseract E image hocr in
  let p := run E args (fs w) in
  pageno_of image = Some pageno ->
  py_index (pdfinfo w) pageno = Some pi ->
  180 < elapsed p ->
  files p !! image = Some (Bytes img) ->
  infiles = [image; hocr] \/ infiles = [hocr; image] ->
  let w1 := snd (ocr_tesseract E image hocr w) in
  let w2 := snd (render_page infiles rendered_pdf w1) in
  fst (ocr_tesseract E image hocr w) = Ok tt /\
  trace w1 = (trace (looked_up w pageno)
              ++ [ESpawn args; ETimeout 180; EKill; EWait])%list /\
  fs w1 !! hocr
    = Some (Hocr {| hocr_width := width_pixels pi;
                    hocr_height := height_pixels pi;
                    hocr_words := [] |}) /\
  (forall q, q <> hocr -> fs w1 !! q = files p !! q) /\
  pdfinfo w1 = pdfinfo w /\
  fst (render_page infiles rendered_pdf w1) = Ok tt /\
  fs w2 !! rendered_pdf
    = Some (rendered img [] (py_round (py_max (xres pi) (yres pi)))) /\
  (forall q, q <> rendered_pdf -> fs w2 !! q = fs w1 !! q) /\
  pdfinfo w2 = pdfinfo w.
Proof.
  intros image hocr args p Hno Hpi Hslow Himg Hin w1 w2.
  pose proof (ocr_tesseract_timeout E w image hocr pageno pi Hno Hpi Hslow)
    as Hocr.
  fold args p in Hocr.
  assert (Hw1 : w1 = {| fs := <[hocr := HOCR_TEMPLATE (width_pixels pi)
                                          (height_pixels pi)]> (files p);
                        pdfinfo := pdfinfo w;
                        trace := (trace (looked_up w pageno)
                                  ++ [ESpawn args; ETimeout 180; EKill; EWait])%list |})
    by (unfold w1; rewrite Hocr; reflexivity).
  assert (Hne : image <> hocr) by apply png_hocr_distinct.
  pose proof (render_page_run w1 stem rendered_pdf infiles pageno pi
                {| hocr_width := width_pixels pi;
                   hocr_height := height_pixels pi; hocr_words := [] |}
                img Hin Hno) as Hrender.
  fold image hocr in Hrender.
  assert (Hw2 : render_page infiles rendered_pdf w1 =
                (Ok tt,
                 {| fs := <[rendered_pdf :=
                              rendered img []
                                (py_round (py_max (xres pi) (yres pi)))]> (fs w1);
                    pdfinfo := pdfinfo w1;
                    trace := trace (looked_up w1 pageno) |})).
  { apply Hrender; rewrite Hw1; cbn [fs pdfinfo].
    - exact Hpi.
    - apply lookup_insert_eq.
    - rewrite lookup_insert_ne by (intros Heq; apply Hne; symmetry; exact Heq).
      exact Himg. }
  rewrite Hocr. unfold w2. rewrite Hw2. cbn [fst snd fs pdfinfo].
  rewrite Hw1. cbn [fs pdfinfo trace].
  repeat split.
  - apply lookup_insert_eq.
  - intros q Hq. apply lookup_insert_ne. intros Heq. apply Hq. symmetry. exact Heq.
  - apply lookup_insert_eq.
  - intros q Hq. apply lookup_insert_ne. intros Heq. apply Hq. symmetry. exact Heq.
Qed.

Lemma ocr_timeout_falls_back_witness :
  fst (ocr_tesseract slow_env "tmp/000002.page.png" "tmp/000002.hocr"
         demo_world) = Ok tt /\
  fst (render_page ["tmp/000002.page.png"; "tmp/000002.hocr"]
         "tmp/000002.rendered.pdf"
         (snd (ocr_tesseract slow_env "tmp/000002.page.png" "tmp/000002.hocr"
                 demo_world))) = Ok tt /\
  fs (snd (render_page ["tmp/000002.page.png"; "tmp/000002.hocr"]
             "tmp/000002.rendered.pdf"
             (snd (ocr_tesseract slow_env "tmp/000002.page.png"
                     "tmp/000002.hocr" demo_world))))
    !! "tmp/000002.rendered.pdf"
  = Some (rendered "PNG 2" [] 300).
Proof.
  destruct (ocr_timeout_falls_back slow_env demo_world "tmp/000002"
              "tmp/000002.rendered.pdf"
              ["tmp/000002.page.png"; "tmp/000002.hocr"] 1
              (demo_page [] 300 300) "PNG 2")
    as (H1 & _ & _ & _ & _ & H6 & H7 & _).
  - vm_compute. reflexivity.
  - vm_compute. reflexivity.
  - vm_compute. reflexivity.
  - vm_compute. reflexivity.
  - left. reflexivity.
  - split; [exact H1|]. split; [exact H6|]. exact H7.
Defined.

(* ===================================================================== *)
(** * The page index in the file name *)
(* ===================================================================== *)

Lemma digits_no_slash s :
  all_chars is_digit s = true ->
  all_chars (fun c => negb (Ascii.eqb c slash)) s = true.
Proof.
  apply all_chars_impl. intros c.
  destruct c as [[] [] [] [] [] [] [] []]; vm_compute; congruence.
Qed.

Lemma pageno_of_prefixed (dir suffix : string) (n : Z) :
  0 <= n <= 999999 ->
  all_chars (fun c => negb (Ascii.eqb c slash)) suffix = true ->
  pageno_of (dir ++ "/" ++ printf_06d n ++ suffix) = Some (n - 1).
Proof.
  intros Hn Hsuf.
  destruct (printf_06d_small n Hn) as (Hlen & Hdig & Hint).
  unfold pageno_of. rewrite basename_dir.
  - rewrite <- Hlen, slice_to_exact, Hint. reflexivity.
  - rewrite all_chars_app, (digits_no_slash _ Hdig), Hsuf. reflexivity.
Qed.

(** C4, as the code has it: for a page whose number [n], counted from one,
    is at most 999999, the name the split stage gives its document has a
    prefix of exactly six digits; every artifact named by that prefix and a
    suffix, in any directory, yields the index [n - 1] when the lookup
    parses the first six characters of its base name and subtracts one, and
    the lookup returns the descriptor stored at position [n - 1]. *)
Theorem page_index_from_prefix (w : world) (dir suffix : string) (n : Z) :
  1 <= n <= 999999 ->
  all_chars (fun c => negb (Ascii.eqb c slash)) suffix = true ->
  page_file (dir ++ "/") n = dir ++ "/" ++ printf_06d n ++ ".page.pdf" /\
  String.length (printf_06d n) = 6%nat /\
  all_chars is_digit (printf_06d n) = true /\
  pageno_of (dir ++ "/" ++ printf_06d n ++ suffix) = Some (n - 1) /\
  get_pageinfo (dir ++ "/" ++ printf_06d n ++ suffix) w
  = (match pdfinfo w !! Z.to_nat (n - 1) with
     | Some pageinfo => Ok pageinfo
     | None => Raised IndexError
     end, looked_up w (n - 1)).
Proof.
  intros Hn Hsuf.
  assert (Hn0 : 0 <= n <= 999999) by lia.
  destruct (printf_06d_small n Hn0) as (Hlen & Hdig & _).
  pose proof (pageno_of_prefixed dir suffix n Hn0 Hsuf) as Hno.
  split; [unfold page_file; apply sapp_assoc|].
  split; [exact Hlen|]. split; [exact Hdig|]. split; [exact Hno|].
  assert (Hidx : py_index (pdfinfo w) (n - 1) = pdfinfo w !! Z.to_nat (n - 1))
    by (apply py_index_nonneg; lia).
  destruct (pdfinfo w !! Z.to_nat (n - 1)) as [pi|] eqn:Hpi.
  - apply get_pageinfo_ok; [exact Hno|exact Hidx].
  - apply get_pageinfo_out_of_range; [exact Hno|exact Hidx].
Qed.

Lemma page_index_from_prefix_witness :
  page_file ("tmp" ++ "/") 3 = "tmp/000003.page.pdf" /\
  pageno_of ("tmp" ++ "/" ++ printf_06d 3 ++ ".page.png") = Some 2 /\
  fst (get_pageinfo ("tmp" ++ "/" ++ printf_06d 3 ++ ".page.png") demo_world)
  = Ok (demo_page [gray_image; rgb_image] (601 # 2) 200).
Proof.
  destruct (page_index_from_prefix demo_world "tmp" ".page.png" 3)
    as (H1 & _ & _ & H4 & H5).
  - lia.
  - vm_compute. reflexivity.
  - split; [vm_compute; reflexivity|]. split; [exact H4|].
    rewrite H5. vm_compute. reflexivity.
Defined.

(** C4 fails as stated: for the page numbered 1000000 the conversion gives
    seven digits, not six, and the lookup of its artifact reads the first
    six of them: it computes the index 99999, the descriptor of the page
    numbered 100000, not the index 999999. *)
Lemma million_page_prefix_misread :
  printf_06d 1000000 = "1000000" /\
  String.length (printf_06d 1000000) = 7%nat /\
  page_file "tmp/" 1000000 = "tmp/1000000.page.pdf" /\
  pageno_of (page_file "tmp/" 1000000) = Some 99999 /\
  pageno_of (page_file "tmp/" 1000000) <> Some (1000000 - 1) /\
  pageno_of (page_file "tmp/" 1000000) = pageno_of (page_file "tmp/" 100000).
Proof. vm_compute. repeat split; try reflexivity. discriminate. Qed.

(* ===================================================================== *)
(** * The population of the metadata store *)
(* ===================================================================== *)

(** C7, as the code has it.  When the repair tool exits with status zero
    and the repaired document is there, the repair stage extends the store
    with the descriptors of its pages: once, after the tool has exited,
    and while it holds the lock of the store, which it takes before the
    store is touched and releases after the store has been logged.
    Nothing checks whether the store was populated before, so the stage
    ends normally on a populated store too and the store grows again.  On
    an empty store the store is, afterwards, the list of the descriptors
    of the repaired document, one per page.  When the tool exits with
    another status the stage fails before it takes the lock: the store is
    neither touched nor changed. *)
Theorem repair_pdf_extends_store (E : environment) (w : world)
    (input_file out : string) :
  let args := args_mutool input_file out in
  let p := run E args (fs w) in
  let w' := snd (repair_pdf E input_file out w) in
  (forall c,
   returncode p = 0 ->
   files p !! out = Some c ->
   let more := pdf_get_all_pageinfo E c in
   fst (repair_pdf E input_file out w) = Ok tt /\
   pdfinfo w' = (pdfinfo w ++ more)%list /\
   length (pdfinfo w') = (length (pdfinfo w) + length more)%nat /\
   (pdfinfo w = [] -> pdfinfo w' = more) /\
   trace w' = (trace w ++ [ESpawn args; EWait;
                           EAcquire PdfinfoLock; EStore (Extend more)]
               ++ logged INFO (MsgStore (pdfinfo w'))
               ++ [ERelease PdfinfoLock])%list) /\
  (returncode p <> 0 ->
   fst (repair_pdf E input_file out w)
   = Raised (CalledProcessError (returncode p) args) /\
   pdfinfo w' = pdfinfo w /\
   trace w' = (trace w ++ [ESpawn args; EWait])%list).
Proof.
  intros args p w'. split.
  - intros c Hrc Hc more. unfold w'.
    rewrite (repair_pdf_run E w input_file out c Hrc Hc).
    cbn [fst snd pdfinfo trace].
    split; [reflexivity|]. split; [reflexivity|].
    split; [apply length_app|].
    split; [intros ->; reflexivity|reflexivity].
  - intros Hrc. unfold w'.
    rewrite (repair_pdf_nonzero E w input_file out Hrc).
    cbn [fst snd pdfinfo trace]. repeat split; reflexivity.
Qed.

Lemma repair_pdf_extends_store_witness :
  fst (repair_pdf repairing_env "in.pdf" "tmp/in.repaired.pdf" fresh_world)
  = Ok tt /\
  pdfinfo (snd (repair_pdf repairing_env "in.pdf" "tmp/in.repaired.pdf"
                  fresh_world)) = demo_store /\
  trace (snd (repair_pdf repairing_env "in.pdf" "tmp/in.repaired.pdf"
                fresh_world))
  = [ESpawn ["mutool"; "clean"; "in.pdf"; "tmp/in.repaired.pdf"]; EWait;
     EAcquire PdfinfoLock; EStore (Extend demo_store);
     EAcquire LoggerMutex; ELog INFO (MsgStore demo_store);
     ERelease LoggerMutex; ERelease PdfinfoLock].
Proof.
  destruct (repair_pdf_extends_store repairing_env fresh_world "in.pdf"
              "tmp/in.repaired.pdf") as (Hok & _).
  destruct (Hok (Bytes "%PDF repaired")) as (H1 & H2 & _ & _ & H5).
  - vm_compute. reflexivity.
  - vm_compute. reflexivity.
  - split; [exact H1|]. split; [rewrite H2; reflexivity|].
    rewrite H5. vm_compute. reflexivity.
Defined.

(** C7 fails as stated: the store already holds the three descriptors of
    the document; a second run of the repair stage does not fail, and the
    store holds six descriptors afterwards. *)
Lemma second_population_succeeds :
  length (pdfinfo split_world) = 3%nat /\
  fst (repair_pdf repairing_env "in.pdf" "tmp/in.repaired.pdf" split_world)
  = Ok tt /\
  pdfinfo (snd (repair_pdf repairing_env "in.pdf" "tmp/in.repaired.pdf"
                  split_world))
  = (demo_store ++ demo_store)%list /\
  length (pdfinfo (snd (repair_pdf repairing_env "in.pdf"
                          "tmp/in.repaired.pdf" split_world))) = 6%nat.
Proof. vm_compute. repeat split; reflexivity. Qed.

(* ===================================================================== *)
(** * The rendered page *)
(* ===================================================================== *)

(** C8, as the code has it: the render stage reads the descriptor of its
    page (found from the name of the image) and places the text with the
    resolution [round(max(xres, yres))]: the larger of the two resolutions
    of the descriptor, rounded to the nearest integer (a tie going to the
    even one), which is that larger resolution itself only when it is an
    integer.  The stage ends normally and writes a document of one page
    whose visible layer is the rasterized image and whose text layer holds
    the words of the hOCR page, invisible and without bounding boxes. *)
Theorem render_page_layers (w : world) (stem out : string)
    (infiles : list string) (pageno : Z) (pi : pageinfo) (h : hocr_page)
    (img : string) :
  let image := stem ++ ".page.png" in
  let hocr := stem ++ ".hocr" in
  infiles = [image; hocr] \/ infiles = [hocr; image] ->
  pageno_of image = Some pageno ->
  py_index (pdfinfo w) pageno = Some pi ->
  fs w !! hocr = Some (Hocr h) ->
  fs w !! image = Some (Bytes img) ->
  let larger := py_max (xres pi) (yres pi) in
  let dpi := py_round larger in
  fst (render_page infiles out w) = Ok tt /\
  fs (snd (render_page infiles out w)) !! out
  = Some (Pdf [ {| page_image := img;
                   page_text := {| layer_words := hocr_words h;
                                   layer_dpi := dpi;
                                   layer_invisible := true;
                                   layer_boxes := false |} |} ]) /\
  (xres pi <= larger)%Q /\ (yres pi <= larger)%Q /\
  (larger = xres pi \/ larger = yres pi) /\
  (- (1 # 2) <= inject_Z dpi - larger <= 1 # 2)%Q /\
  (forall k : Z, (larger == inject_Z k)%Q -> dpi = k).
Proof.
  intros image hocr Hin Hno Hpi Hh Himg larger dpi.
  rewrite (render_page_run w stem out infiles pageno pi h img Hin Hno Hpi Hh Himg).
  cbn [fst snd fs].
  split; [reflexivity|]. split; [apply lookup_insert_eq|].
  destruct (py_max_spec (xres pi) (yres pi)) as (H1 & H2 & H3).
  split; [exact H1|]. split; [exact H2|]. split; [exact H3|].
  split; [apply py_round_near|].
  intros k Hk. apply py_round_integer, Hk.
Qed.

Lemma render_page_layers_witness :
  fst (render_page ["tmp/000001.page.png"; "tmp/000001.hocr"]
         "tmp/000001.rendered.pdf" demo_world) = Ok tt /\
  fs (snd (render_page ["tmp/000001.page.png"; "tmp/000001.hocr"]
             "tmp/000001.rendered.pdf" demo_world))
    !! "tmp/000001.rendered.pdf"
  = Some (rendered "PNG 1" [demo_word] 300).
Proof.
  destruct (render_page_layers demo_world "tmp/000001"
              "tmp/000001.rendered.pdf"
              ["tmp/000001.page.png"; "tmp/000001.hocr"] 0
              (demo_page [mono_image] 300 300) demo_hocr "PNG 1")
    as (H1 & H2 & _).
  - left. reflexivity.
  - vm_compute. reflexivity.
  - vm_compute. reflexivity.
  - vm_compute. reflexivity.
  - vm_compute. reflexivity.
  - split; [exact H1|exact H2].
Defined.

(** C8 fails as stated: the descriptor of page three records the
    resolutions 300.5 and 200; their maximum is 300.5, and the stage places
    the text with the resolution 300. *)
Lemma render_dpi_is_rounded :
  py_index (pdfinfo demo_world) 2
  = Some (demo_page [gray_image; rgb_image] (601 # 2) 200) /\
  py_max (601 # 2) 200 = 601 # 2 /\
  fs (snd (render_page ["tmp/000003.page.png"; "tmp/000003.hocr"]
             "tmp/000003.rendered.pdf" demo_world))
    !! "tmp/000003.rendered.pdf"
  = Some (Pdf [ {| page_image := "PNG 3";
                   page_text := {| layer_words := [demo_word];
                                   layer_dpi := 300;
                                   layer_invisible := true;
                                   layer_boxes := false |} |} ]) /\
  ~ (inject_Z 300 == py_max (601 # 2) 200)%Q.
Proof.
  split; [vm_compute; reflexivity|].
  split; [vm_compute; reflexivity|].
  split; [vm_compute; reflexivity|].
  vm_compute. discriminate.
Qed.

(* ===================================================================== *)
(** * Locks, the store and temporary files in every stage *)
(* ===================================================================== *)

Lemma held_after_app (h : list lock) (t1 t2 : list event) :
  held_after h (t1 ++ t2)
  = match held_after h t1 with
    | Some h' => held_after h' t2
    | None => None
    end.
Proof.
  revert h. induction t1 as [|e t1 IH]; intros h; [reflexivity|].
  destruct e; cbn [app held_after];
    try (destruct (allowed h _); [apply IH|reflexivity]).
  - destruct (acquirable l h); [apply IH|reflexivity].
  - destruct h as [|x hs]; [reflexivity|].
    destruct (bool_decide (x = l)); [apply IH|reflexivity].
Qed.

Section Discipline.

Context {A : Type}.

Lemma silent_lock_safe (h : list lock) (m : M A) : silent m -> lock_safe h m.
Proof.
  intros Hm w. exists []. rewrite app_nil_r. split; [apply Hm|reflexivity].
Qed.

Lemma lock_safe_ret (h : list lock) (a : A) : lock_safe h (mret a).
Proof. apply silent_lock_safe. intros w. reflexivity. Qed.

Lemma lock_safe_raise (h : list lock) (e : exn) : lock_safe h (raise e : M A).
Proof. apply silent_lock_safe. intros w. reflexivity. Qed.

Lemma lock_safe_bind {B : Type} (h : list lock) (m : M B) (k : B -> M A) :
  lock_safe h m -> (forall b, lock_safe h (k b)) -> lock_safe h (m ≫= k).
Proof.
  intros Hm Hk w. unfold mbind, M_bind.
  destruct (Hm w) as (t1 & E1 & H1).
  destruct (m w) as [[b|e] w1]; simpl in E1.
  - destruct (Hk b w1) as (t2 & E2 & H2).
    exists (t1 ++ t2)%list. split.
    + rewrite E2, E1, app_assoc. reflexivity.
    + rewrite held_after_app, H1. exact H2.
  - exists t1. split; [exact E1|exact H1].
Qed.

Lemma lock_safe_finally (h : list lock) (body : M A) (cleanup : M unit) :
  lock_safe h body -> lock_safe h cleanup -> lock_safe h (finally body cleanup).
Proof.
  intros Hb Hc w. unfold finally.
  destruct (Hb w) as (t1 & E1 & H1).
  destruct (body w) as [r w1]; simpl in E1.
  destruct (Hc w1) as (t2 & E2 & H2).
  exists (t1 ++ t2)%list. split.
  - destruct (cleanup w1) as [[u|e] w2]; simpl in *;
      rewrite E2, E1, app_assoc; reflexivity.
  - rewrite held_after_app, H1. exact H2.
Qed.

Lemma lock_safe_try_except (h : list lock) (body : M A)
    (handler : exn -> option (M A)) :
  lock_safe h body ->
  (forall e k, handler e = Some k -> lock_safe h k) ->
  lock_safe h (try_except body handler).
Proof.
  intros Hb Hh w. unfold try_except.
  destruct (Hb w) as (t1 & E1 & H1).
  destruct (body w) as [[a|e] w1]; simpl in E1.
  - exists t1. split; [exact E1|exact H1].
  - destruct (handler e) as [k|] eqn:Hk.
    + destruct (Hh e k Hk w1) as (t2 & E2 & H2).
      exists (t1 ++ t2)%list. split.
      * rewrite E2, E1, app_assoc. reflexivity.
      * rewrite held_after_app, H1. exact H2.
    + exists t1. split; [exact E1|exact H1].
Qed.

Lemma lock_safe_try_except_else {B : Type} (h : list lock) (body : M B)
    (handler : exn -> option (M A)) (orelse : B -> M A) :
  lock_safe h body ->
  (forall e k, handler e = Some k -> lock_safe h k) ->
  (forall b, lock_safe h (orelse b)) ->
  lock_safe h (try_except_else body handler orelse).
Proof.
  intros Hb Hh Ho w. unfold try_except_else.
  destruct (Hb w) as (t1 & E1 & H1).
  destruct (body w) as [[b|e] w1]; simpl in E1.
  - destruct (Ho b w1) as (t2 & E2 & H2).
    exists (t1 ++ t2)%list. split.
    + rewrite E2, E1, app_assoc. reflexivity.
    + rewrite held_after_app, H1. exact H2.
  - destruct (handler e) as [k|] eqn:Hk.
    + destruct (Hh e k Hk w1) as (t2 & E2 & H2).
      exists (t1 ++ t2)%list. split.
      * rewrite E2, E1, app_assoc. reflexivity.
      * rewrite held_after_app, H1. exact H2.
    + exists t1. split; [exact E1|exact H1].
Qed.

Lemma lock_safe_with_lock (h : list lock) (l : lock) (body : M A) :
  acquirable l h = true ->
  lock_safe (l :: h) body ->
  lock_safe h (with_lock l body).
Proof.
  intros Hl Hb w. unfold with_lock, finally, tell, mbind, M_bind. simpl.
  set (w0 := {| fs := fs w; pdfinfo := pdfinfo w;
                trace := trace w ++ [EAcquire l] |}).
  destruct (Hb w0) as (t1 & E1 & H1).
  destruct (body w0) as [r w1]; simpl in *.
  exists ([EAcquire l] ++ t1 ++ [ERelease l])%list. split.
  - rewrite E1, <- !app_assoc. reflexivity.
  - simpl. rewrite Hl, held_after_app, H1. simpl.
    rewrite bool_decide_true by reflexivity. reflexivity.
Qed.

(** ** The store *)

Lemma store_kept_ret (a : A) : store_kept (mret a).
Proof. intros w. reflexivity. Qed.

Lemma store_kept_raise (e : exn) : store_kept (raise e : M A).
Proof. intros w. reflexivity. Qed.

Lemma store_kept_bind {B : Type} (m : M B) (k : B -> M A) :
  store_kept m -> (forall b, store_kept (k b)) -> store_kept (m ≫= k).
Proof.
  intros Hm Hk w. unfold mbind, M_bind.
  specialize (Hm w). destruct (m w) as [[b|e] w1]; simpl in Hm.
  - rewrite Hk. exact Hm.
  - exact Hm.
Qed.

Lemma store_kept_finally (body : M A) (cleanup : M unit) :
  store_kept body -> store_kept cleanup -> store_kept (finally body cleanup).
Proof.
  intros Hb Hc w. unfold finally.
  specialize (Hb w). destruct (body w) as [r w1]; simpl in Hb.
  specialize (Hc w1). destruct (cleanup w1) as [[u|e] w2]; simpl in *;
    congruence.
Qed.

Lemma store_kept_try_except (body : M A) (handler : exn -> option (M A)) :
  store_kept body ->
  (forall e k, handler e = Some k -> store_kept k) ->
  store_kept (try_except body handler).
Proof.
  intros Hb Hh w. unfold try_except.
  specialize (Hb w). destruct (body w) as [[a|e] w1]; simpl in Hb;
    [exact Hb|].
  destruct (handler e) as [k|] eqn:Hk; [|exact Hb].
  rewrite (Hh e k Hk). exact Hb.
Qed.

Lemma store_kept_try_except_else {B : Type} (body : M B)
    (handler : exn -> option (M A)) (orelse : B -> M A) :
  store_kept body ->
  (forall e k, handler e = Some k -> store_kept k) ->
  (forall b, store_kept (orelse b)) ->
  store_kept (try_except_else body handler orelse).
Proof.
  intros Hb Hh Ho w. unfold try_except_else.
  specialize (Hb w). destruct (body w) as [[b|e] w1]; simpl in Hb.
  - rewrite Ho. exact Hb.
  - destruct (handler e) as [k|] eqn:Hk; [|exact Hb].
    rewrite (Hh e k Hk). exact Hb.
Qed.

Lemma store_kept_with_lock (l : lock) (body : M A) :
  store_kept body -> store_kept (with_lock l body).
Proof.
  intros Hb. unfold with_lock.
  apply store_kept_bind; [intros w; reflexivity|]. intros _.
  apply store_kept_finally; [exact Hb|]. intros w. reflexivity.
Qed.

End Discipline.

Lemma lock_safe_tell (h : list lock) (e : event) :
  match e with EAcquire _ | ERelease _ => False | _ => True end ->
  allowed h e = true ->
  lock_safe h (tell e).
Proof.
  intros He Ha w. exists [e]. split; [reflexivity|].
  destruct e; cbn [held_after]; try contradiction; rewrite Ha; reflexivity.
Qed.

Lemma lock_safe_logger (h : list lock) (lv : level) (m : message) :
  acquirable LoggerMutex h = true ->
  allowed (LoggerMutex :: h) (ELog lv m) = true ->
  lock_safe h (with_lock LoggerMutex (tell (ELog lv m))).
Proof.
  intros Hl Ha. apply lock_safe_with_lock; [exact Hl|].
  apply lock_safe_tell; [exact I|exact Ha].
Qed.

Lemma store_kept_tell (e : event) : store_kept (tell e).
Proof. intros w. reflexivity. Qed.

Lemma store_kept_logger (lv : level) (m : message) :
  store_kept (with_lock LoggerMutex (tell (ELog lv m))).
Proof. apply store_kept_with_lock, store_kept_tell. Qed.

(** ** The primitives *)

Lemma silent_get_fs : silent get_fs.
Proof. intros w. reflexivity. Qed.
Lemma silent_put_fs f : silent (put_fs f).
Proof. intros w. reflexivity. Qed.
Lemma silent_get_pdfinfo : silent get_pdfinfo.
Proof. intros w. reflexivity. Qed.
Lemma silent_put_pdfinfo l : silent (put_pdfinfo l).
Proof. intros w. reflexivity. Qed.
Lemma silent_unlink p : silent (unlink p).
Proof. intros w. unfold unlink. unfold_m. simpl. destruct (fs w !! p); reflexivity. Qed.
Lemma silent_copy a b : silent (copy a b).
Proof.
  intros w. unfold copy. unfold_m. simpl.
  destruct (fs w !! a); [|reflexivity].
  destruct (bool_decide (a = b)); reflexivity.
Qed.
Lemma silent_move a b : silent (move a b).
Proof. intros w. unfold move. unfold_m. simpl. destruct (fs w !! a); reflexivity. Qed.
Lemma silent_rename a b : silent (rename a b).
Proof. intros w. unfold rename. unfold_m. simpl. destruct (fs w !! a); reflexivity. Qed.
Lemma silent_fileinput_inplace p f : silent (fileinput_inplace p f).
Proof. intros w. apply fileinput_inplace_trace. Qed.
Lemma silent_read_file p : silent (read_file p).
Proof. intros w. unfold_m. simpl. destruct (fs w !! p); reflexivity. Qed.
Lemma silent_write_file p c : silent (write_file p c).
Proof. intros w. reflexivity. Qed.
Lemma silent_path_exists p : silent (path_exists p).
Proof. intros w. reflexivity. Qed.

Lemma store_kept_get_fs : store_kept get_fs.
Proof. intros w. reflexivity. Qed.
Lemma store_kept_put_fs f : store_kept (put_fs f).
Proof. intros w. reflexivity. Qed.
Lemma store_kept_get_pdfinfo : store_kept get_pdfinfo.
Proof. intros w. reflexivity. Qed.
Lemma store_kept_unlink p : store_kept (unlink p).
Proof. intros w. unfold unlink. unfold_m. simpl. destruct (fs w !! p); reflexivity. Qed.
Lemma store_kept_copy a b : store_kept (copy a b).
Proof.
  intros w. unfold copy. unfold_m. simpl.
  destruct (fs w !! a); [|reflexivity].
  destruct (bool_decide (a = b)); reflexivity.
Qed.
Lemma store_kept_move a b : store_kept (move a b).
Proof. intros w. unfold move. unfold_m. simpl. destruct (fs w !! a); reflexivity. Qed.
Lemma store_kept_fileinput_inplace p f : store_kept (fileinput_inplace p f).
Proof.
  intros w. rewrite fileinput_inplace_run. destruct (fs w !! p); reflexivity.
Qed.
Lemma store_kept_read_file p : store_kept (read_file p).
Proof. intros w. unfold_m. simpl. destruct (fs w !! p); reflexivity. Qed.
Lemma store_kept_write_file p c : store_kept (write_file p c).
Proof. intros w. reflexivity. Qed.
Lemma store_kept_path_exists p : store_kept (path_exists p).
Proof. intros w. reflexivity. Qed.

Create HintDb silent_db.
#[global] Hint Resolve silent_get_fs silent_put_fs silent_get_pdfinfo
  silent_put_pdfinfo silent_unlink silent_copy silent_move silent_rename
  silent_fileinput_inplace silent_read_file silent_write_file
  silent_path_exists : silent_db.

Create HintDb store_db.
#[global] Hint Resolve store_kept_get_fs store_kept_put_fs
  store_kept_get_pdfinfo store_kept_unlink store_kept_copy store_kept_move
  store_kept_fileinput_inplace store_kept_read_file store_kept_write_file
  store_kept_path_exists store_kept_tell store_kept_logger : store_db.

(** One step of a proof that a stage is [lock_safe]. *)
Ltac lock_step :=
  unfold when, WrappedLogger.debug, WrappedLogger.info,
    WrappedLogger.warning, WrappedLogger.error, pdfinfo_extend,
    pdfinfo_getitem;
  lazymatch goal with
  | |- lock_safe _ (mret _) => apply lock_safe_ret
  | |- lock_safe _ (raise _) => apply lock_safe_raise
  | |- lock_safe _ (with_lock LoggerMutex (tell (ELog _ _))) =>
      apply lock_safe_logger; reflexivity
  | |- lock_safe _ (with_lock _ _) =>
      apply lock_safe_with_lock; [reflexivity|]
  | |- lock_safe _ (tell _) => apply lock_safe_tell; [exact I|reflexivity]
  | |- lock_safe _ (finally _ _) => apply lock_safe_finally
  | |- lock_safe _ (mbind _ _) => apply lock_safe_bind; [|intros ?]
  | |- lock_safe _ (let '(_, _) := ?x in _) => destruct x
  | |- lock_safe _ (if ?b then _ else _) => destruct b
  | |- lock_safe _ (match ?x with _ => _ end) => destruct x
  | |- lock_safe _ _ => apply silent_lock_safe; solve [auto with silent_db]
  end.

(** One step of a proof that a stage is [store_kept]. *)
Ltac store_step :=
  unfold when, WrappedLogger.debug, WrappedLogger.info,
    WrappedLogger.warning, WrappedLogger.error, pdfinfo_getitem;
  lazymatch goal with
  | |- store_kept (mret _) => apply store_kept_ret
  | |- store_kept (raise _) => apply store_kept_raise
  | |- store_kept (with_lock _ _) => apply store_kept_with_lock
  | |- store_kept (finally _ _) => apply store_kept_finally
  | |- store_kept (mbind _ _) => apply store_kept_bind; [|intros ?]
  | |- store_kept (let '(_, _) := ?x in _) => destruct x
  | |- store_kept (if ?b then _ else _) => destruct b
  | |- store_kept (match ?x with _ => _ end) => destruct x
  | |- store_kept _ => solve [auto with store_db]
  end.

Section StageDiscipline.

Context (E : environment).

Lemma lock_safe_Popen h args o e : lock_safe h (Popen E args o e).
Proof. unfold Popen. repeat lock_step. Qed.

Lemma lock_safe_reap h p : lock_safe h (reap p).
Proof. unfold reap. repeat lock_step. Qed.

Lemma lock_safe_communicate h p t : lock_safe h (communicate p t).
Proof.
  unfold communicate. destruct t as [t|]; [|apply lock_safe_reap].
  destruct (t <? elapsed (p_run p)); [|apply lock_safe_reap].
  repeat lock_step.
Qed.

Lemma lock_safe_kill h p : lock_safe h (kill p).
Proof. unfold kill. repeat lock_step. Qed.

Lemma lock_safe_check_call h args : lock_safe h (check_call E args).
Proof. unfold check_call. repeat lock_step. Qed.

Lemma lock_safe_NamedTemporaryFile {A : Type} h (body : string -> M A) :
  (forall name, lock_safe h (body name)) ->
  lock_safe h (NamedTemporaryFile E body).
Proof.
  intros Hb. unfold NamedTemporaryFile.
  lock_step; [lock_step|]. lock_step; [lock_step|].
  apply lock_safe_finally; [apply Hb|lock_step].
Qed.

Lemma lock_safe_get_pageinfo input_file : lock_safe [] (get_pageinfo input_file).
Proof. unfold get_pageinfo. repeat lock_step. Qed.

Lemma lock_safe_repair_pdf i o : lock_safe [] (repair_pdf E i o).
Proof.
  unfold repair_pdf.
  apply lock_safe_bind; [apply lock_safe_check_call|intros _].
  repeat lock_step.
Qed.

Lemma lock_safe_for_each {B : Type} h (l : list B) (body : B -> M unit) :
  (forall b, lock_safe h (body b)) -> lock_safe h (for_each l body).
Proof.
  intros Hb. induction l as [|x l IH]; simpl; [apply lock_safe_ret|].
  apply lock_safe_bind; [apply Hb|intros _; exact IH].
Qed.

Lemma lock_safe_split_pages i outs root : lock_safe [] (split_pages E i outs root).
Proof.
  unfold split_pages.
  apply lock_safe_bind; [|intros _; apply lock_safe_check_call].
  apply lock_safe_for_each. intros oo. unfold suppress_FileNotFoundError.
  apply lock_safe_try_except; [lock_step|].
  intros e k Hk. destruct e; try discriminate Hk. injection Hk as <-.
  apply lock_safe_ret.
Qed.

Lemma lock_safe_rasterize i o : lock_safe [] (rasterize_with_ghostscript E i o).
Proof.
  unfold rasterize_with_ghostscript.
  apply lock_safe_bind; [apply lock_safe_get_pageinfo|intros pi].
  apply lock_safe_NamedTemporaryFile. intros name.
  apply lock_safe_bind; [apply lock_safe_Popen|intros p].
  apply lock_safe_bind; [apply lock_safe_communicate|intros [out err]].
  repeat lock_step.
Qed.

Lemma lock_safe_rasterize_pdf i o x y dev : lock_safe [] (rasterize_pdf E i o x y dev).
Proof.
  unfold rasterize_pdf.
  apply lock_safe_NamedTemporaryFile. intros name.
  apply lock_safe_bind; [apply lock_safe_Popen|intros p].
  apply lock_safe_bind; [apply lock_safe_communicate|intros [out err]].
  repeat lock_step.
Qed.

Lemma lock_safe_ocr_tesseract i o : lock_safe [] (ocr_tesseract E i o).
Proof.
  unfold ocr_tesseract.
  apply lock_safe_bind; [apply lock_safe_get_pageinfo|intros pi].
  apply lock_safe_bind; [apply lock_safe_Popen|intros p].
  apply lock_safe_try_except_else.
  - apply lock_safe_communicate.
  - intros e k Hk. destruct e; try discriminate Hk. injection Hk as <-.
    apply lock_safe_bind; [apply lock_safe_kill|intros _].
    apply lock_safe_bind;
      [apply (lock_safe_communicate [] p None)|intros _].
    lock_step.
  - intros [out err]. repeat lock_step.
Qed.

Lemma lock_safe_render_page infiles o : lock_safe [] (render_page infiles o).
Proof.
  unfold render_page, next_endswith, HocrTransform, to_pdf.
  lock_step; [repeat lock_step|].
  lock_step; [repeat lock_step|].
  apply lock_safe_bind; [apply lock_safe_get_pageinfo|intros pi].
  repeat lock_step.
Qed.

Lemma lock_safe_generate_postscript_stub i o :
  lock_safe [] (generate_postscript_stub E i o).
Proof. unfold generate_postscript_stub. lock_step. Qed.

Lemma lock_safe_merge_pages ins o : lock_safe [] (merge_pages E ins o).
Proof.
  unfold merge_pages. destruct (last ins); [|apply lock_safe_raise].
  apply lock_safe_NamedTemporaryFile. intros name.
  apply lock_safe_bind; [apply lock_safe_check_call|intros _]. lock_step.
Qed.

Lemma lock_safe_generate_pdfa pages o th : lock_safe [] (generate_pdfa E pages o th).
Proof.
  unfold generate_pdfa.
  apply lock_safe_NamedTemporaryFile. intros name.
  apply lock_safe_bind; [apply lock_safe_check_call|intros _]. lock_step.
Qed.

Lemma lock_safe_validate_pdfa i o : lock_safe [] (validate_pdfa E i o).
Proof.
  unfold validate_pdfa.
  apply lock_safe_bind; [apply lock_safe_Popen|intros p].
  apply lock_safe_bind; [apply lock_safe_communicate|intros [out err]].
  repeat lock_step.
Qed.

End StageDiscipline.

Section StageStore.

Context (E : environment).

Lemma store_kept_Popen args o e : store_kept (Popen E args o e).
Proof. unfold Popen. repeat store_step. Qed.

Lemma store_kept_reap p : store_kept (reap p).
Proof. unfold reap. repeat store_step. Qed.

Lemma store_kept_communicate p t : store_kept (communicate p t).
Proof.
  unfold communicate. destruct t as [t|]; [|apply store_kept_reap].
  destruct (t <? elapsed (p_run p)); [|apply store_kept_reap].
  repeat store_step.
Qed.

Lemma store_kept_kill p : store_kept (kill p).
Proof. unfold kill. repeat store_step. Qed.

Lemma store_kept_check_call args : store_kept (check_call E args).
Proof. unfold check_call. repeat store_step. Qed.

Lemma store_kept_NamedTemporaryFile {A : Type} (body : string -> M A) :
  (forall name, store_kept (body name)) ->
  store_kept (NamedTemporaryFile E body).
Proof.
  intros Hb. unfold NamedTemporaryFile.
  store_step; [store_step|]. store_step; [store_step|].
  apply store_kept_finally; [apply Hb|store_step].
Qed.

Lemma store_kept_get_pageinfo input_file : store_kept (get_pageinfo input_file).
Proof. unfold get_pageinfo. repeat store_step. Qed.

Lemma store_kept_for_each {B : Type} (l : list B) (body : B -> M unit) :
  (forall b, store_kept (body b)) -> store_kept (for_each l body).
Proof.
  intros Hb. induction l as [|x l IH]; simpl; [apply store_kept_ret|].
  apply store_kept_bind; [apply Hb|intros _; exact IH].
Qed.

Lemma store_kept_split_pages i outs root : store_kept (split_pages E i outs root).
Proof.
  unfold split_pages.
  apply store_kept_bind; [|intros _; apply store_kept_check_call].
  apply store_kept_for_each. intros oo. unfold suppress_FileNotFoundError.
  apply store_kept_try_except; [store_step|].
  intros e k Hk. destruct e; try discriminate Hk. injection Hk as <-.
  apply store_kept_ret.
Qed.

Lemma store_kept_rasterize i o : store_kept (rasterize_with_ghostscript E i o).
Proof.
  unfold rasterize_with_ghostscript.
  apply store_kept_bind; [apply store_kept_get_pageinfo|intros pi].
  apply store_kept_NamedTemporaryFile. intros name.
  apply store_kept_bind; [apply store_kept_Popen|intros p].
  apply store_kept_bind; [apply store_kept_communicate|intros [out err]].
  repeat store_step.
Qed.

Lemma store_kept_rasterize_pdf i o x y dev : store_kept (rasterize_pdf E i o x y dev).
Proof.
  unfold rasterize_pdf.
  apply store_kept_NamedTemporaryFile. intros name.
  apply store_kept_bind; [apply store_kept_Popen|intros p].
  apply store_kept_bind; [apply store_kept_communicate|intros [out err]].
  repeat store_step.
Qed.

Lemma store_kept_ocr_tesseract i o : store_kept (ocr_tesseract E i o).
Proof.
  unfold ocr_tesseract.
  apply store_kept_bind; [apply store_kept_get_pageinfo|intros pi].
  apply store_kept_bind; [apply store_kept_Popen|intros p].
  apply store_kept_try_except_else.
  - apply store_kept_communicate.
  - intros e k Hk. destruct e; try discriminate Hk. injection Hk as <-.
    apply store_kept_bind; [apply store_kept_kill|intros _].
    apply store_kept_bind;
      [apply (store_kept_communicate p None)|intros _].
    store_step.
  - intros [out err]. repeat store_step.
Qed.

Lemma store_kept_render_page infiles o : store_kept (render_page infiles o).
Proof.
  unfold render_page, next_endswith, HocrTransform, to_pdf.
  store_step; [repeat store_step|].
  store_step; [repeat store_step|].
  apply store_kept_bind; [apply store_kept_get_pageinfo|intros pi].
  repeat store_step.
Qed.

Lemma store_kept_generate_postscript_stub i o :
  store_kept (generate_postscript_stub E i o).
Proof. unfold generate_postscript_stub. store_step. Qed.

Lemma store_kept_merge_pages ins o : store_kept (merge_pages E ins o).
Proof.
  unfold merge_pages. destruct (last ins); [|apply store_kept_raise].
  apply store_kept_NamedTemporaryFile. intros name.
  apply store_kept_bind; [apply store_kept_check_call|intros _]. store_step.
Qed.

Lemma store_kept_generate_pdfa pages o th : store_kept (generate_pdfa E pages o th).
Proof.
  unfold generate_pdfa.
  apply store_kept_NamedTemporaryFile. intros name.
  apply store_kept_bind; [apply store_kept_check_call|intros _]. store_step.
Qed.

Lemma store_kept_validate_pdfa i o : store_kept (validate_pdfa E i o).
Proof.
  unfold validate_pdfa.
  apply store_kept_bind; [apply store_kept_Popen|intros p].
  apply store_kept_bind; [apply store_kept_communicate|intros [out err]].
  repeat store_step.
Qed.

(** The repair stage only appends. *)
Lemma repair_pdf_appends i o w :
  exists more,
    pdfinfo (snd (repair_pdf E i o w)) = (pdfinfo w ++ more)%list.
Proof.
  unfold repair_pdf. unfold mbind at 1. unfold M_bind at 1.
  rewrite check_call_run.
  destruct (returncode (run E (args_mutool i o) (fs w)) =? 0).
  - unfold_m. simpl.
    destruct (files (run E (args_mutool i o) (fs w)) !! o) as [c|]; simpl.
    + eexists. reflexivity.
    + exists []. rewrite app_nil_r. reflexivity.
  - exists []. rewrite app_nil_r. reflexivity.
Qed.

(** ** Temporary files *)

Lemma NamedTemporaryFile_cleans {A : Type} (body : string -> M A) (w : world) :
  fs (snd (NamedTemporaryFile E body w)) !! mktemp E (fs w) = None.
Proof.
  unfold NamedTemporaryFile, finally, unlink. unfold_m. simpl.
  destruct (body (mktemp E (fs w)) _) as [r w1]. simpl.
  destruct (fs w1 !! mktemp E (fs w)) eqn:Hl; simpl.
  - apply lookup_delete_eq.
  - exact Hl.
Qed.

End StageStore.

(** X1: every stage of the pipeline, and the two functions of
    [ghostscript.py], only adds events to the trace and is disciplined with
    the two locks, however it ends (normally or with an exception): it
    never takes a lock it holds, takes nothing under the logger's mutex,
    releases in the reverse order of taking, reads, extends or logs the
    metadata store only while it holds the lock of the store, and holds no
    lock when it is over. *)
Theorem every_stage_releases_its_locks (E : environment) :
  (forall i, lock_safe [] (get_pageinfo i)) /\
  (forall i o, lock_safe [] (repair_pdf E i o)) /\
  (forall i outs root, lock_safe [] (split_pages E i outs root)) /\
  (forall i o, lock_safe [] (rasterize_with_ghostscript E i o)) /\
  (forall i o, lock_safe [] (ocr_tesseract E i o)) /\
  (forall infiles o, lock_safe [] (render_page infiles o)) /\
  (forall i o, lock_safe [] (generate_postscript_stub E i o)) /\
  (forall ins o, lock_safe [] (merge_pages E ins o)) /\
  (forall i o, lock_safe [] (validate_pdfa E i o)) /\
  (forall i o x y dev, lock_safe [] (rasterize_pdf E i o x y dev)) /\
  (forall pages o th, lock_safe [] (generate_pdfa E pages o th)).
Proof.
  repeat apply conj; intros.
  - apply lock_safe_get_pageinfo.
  - apply lock_safe_repair_pdf.
  - apply lock_safe_split_pages.
  - apply lock_safe_rasterize.
  - apply lock_safe_ocr_tesseract.
  - apply lock_safe_render_page.
  - apply lock_safe_generate_postscript_stub.
  - apply lock_safe_merge_pages.
  - apply lock_safe_validate_pdfa.
  - apply lock_safe_rasterize_pdf.
  - apply lock_safe_generate_pdfa.
Qed.

(** X2: the metadata store is changed by the repair stage only, which
    appends to it (so a descriptor keeps its index); every other stage,
    and the two functions of [ghostscript.py], leave the store exactly as
    it was, however they end. *)
Theorem only_repair_changes_the_store (E : environment) :
  (forall i, store_kept (get_pageinfo i)) /\
  (forall i outs root, store_kept (split_pages E i outs root)) /\
  (forall i o, store_kept (rasterize_with_ghostscript E i o)) /\
  (forall i o, store_kept (ocr_tesseract E i o)) /\
  (forall infiles o, store_kept (render_page infiles o)) /\
  (forall i o, store_kept (generate_postscript_stub E i o)) /\
  (forall ins o, store_kept (merge_pages E ins o)) /\
  (forall i o, store_kept (validate_pdfa E i o)) /\
  (forall i o x y dev, store_kept (rasterize_pdf E i o x y dev)) /\
  (forall pages o th, store_kept (generate_pdfa E pages o th)) /\
  (forall i o w, exists more,
     pdfinfo (snd (repair_pdf E i o w)) = (pdfinfo w ++ more)%list).
Proof.
  repeat apply conj; intros.
  - apply store_kept_get_pageinfo.
  - apply store_kept_split_pages.
  - apply store_kept_rasterize.
  - apply store_kept_ocr_tesseract.
  - apply store_kept_render_page.
  - apply store_kept_generate_postscript_stub.
  - apply store_kept_merge_pages.
  - apply store_kept_validate_pdfa.
  - apply store_kept_rasterize_pdf.
  - apply store_kept_generate_pdfa.
  - apply repair_pdf_appends.
Qed.

(** X3: the temporary file of a stage is never left behind.  Whatever the
    external program does and however the stage ends, the name handed out
    for the temporary file names no file afterwards: for [rasterize_pdf],
    [generate_pdfa], [merge_pages] on a non-empty input list, and
    [rasterize_with_ghostscript] once the descriptor of the page is
    found. *)
Theorem temporary_file_never_survives (E : environment) (w : world) :
  (forall i o x y dev,
     fs (snd (rasterize_pdf E i o x y dev w)) !! mktemp E (fs w) = None) /\
  (forall pages o th,
     fs (snd (generate_pdfa E pages o th w)) !! mktemp E (fs w) = None) /\
  (forall ocr_pages postscript o,
     fs (snd (merge_pages E (ocr_pages ++ [postscript]) o w))
       !! mktemp E (fs w) = None) /\
  (forall i o pageno pi,
     pageno_of i = Some pageno ->
     py_index (pdfinfo w) pageno = Some pi ->
     fs (snd (rasterize_with_ghostscript E i o w)) !! mktemp E (fs w) = None).
Proof.
  split; [|split; [|split]].
  - intros. apply NamedTemporaryFile_cleans.
  - intros. apply NamedTemporaryFile_cleans.
  - intros. unfold merge_pages. rewrite last_snoc.
    apply NamedTemporaryFile_cleans.
  - intros i o pageno pi Hno Hpi. unfold rasterize_with_ghostscript.
    unfold mbind at 1. unfold M_bind at 1.
    rewrite (get_pageinfo_ok w i pageno pi Hno Hpi).
    apply (NamedTemporaryFile_cleans E _ (looked_up w pageno)).
Qed.

Lemma temporary_file_never_survives_witness :
  fs (snd (rasterize_with_ghostscript failing_env "tmp/000001.page.pdf"
             "tmp/000001.page.png" split_world)) !! "/tmp/tmpgs0001" = None /\
  fs (snd (rasterize_with_ghostscript quiet_env "tmp/000001.page.pdf"
             "tmp/000001.page.png" split_world)) !! "/tmp/tmpgs0001" = None.
Proof.
  destruct (temporary_file_never_survives failing_env split_world)
    as (_ & _ & _ & H1).
  destruct (temporary_file_never_survives quiet_env split_world)
    as (_ & _ & _ & H2).
  split.
  - refine (H1 "tmp/000001.page.pdf" "tmp/000001.page.png" 0
              (demo_page [mono_image] 300 300) _ _);
      vm_compute; reflexivity.
  - refine (H2 "tmp/000001.page.pdf" "tmp/000001.page.png" 0
              (demo_page [mono_image] 300 300) _ _);
      vm_compute; reflexivity.
Defined.

(* ===================================================================== *)
(** * The lookup of a descriptor: names that are no page numbers *)
(* ===================================================================== *)

Lemma some_char_app P a b :
  some_char P (a ++ b) = some_char P a || some_char P b.
Proof.
  induction a as [|c a IH]; [reflexivity|].
  rewrite sapp_cons. simpl. rewrite IH. apply orb_assoc.
Qed.

Lemma some_char_rev P s acc :
  some_char P (rev_string s acc) = some_char P s || some_char P acc.
Proof.
  revert acc. induction s as [|c s IH]; intros acc; simpl; [reflexivity|].
  rewrite IH. simpl. destruct (P c), (some_char P s); reflexivity.
Qed.

Lemma some_char_lstrip P s :
  (forall c, P c = true -> is_space c = false) ->
  some_char P (lstrip s) = some_char P s.
Proof.
  intros HP. induction s as [|c s IH]; simpl; [reflexivity|].
  destruct (is_int_space c) eqn:Hc; [|reflexivity].
  rewrite IH. destruct (P c) eqn:Hp; [|reflexivity].
  rewrite (not_space_not_int_space c (HP c Hp)) in Hc. discriminate.
Qed.

Lemma some_char_strip P s :
  (forall c, P c = true -> is_space c = false) ->
  some_char P (strip s) = some_char P s.
Proof.
  intros HP. unfold strip.
  rewrite some_char_rev, some_char_lstrip, some_char_rev, some_char_lstrip
    by exact HP.
  simpl. rewrite !orb_false_r. reflexivity.
Qed.

Lemma not_numeric_not_space c : not_numeric c = true -> is_space c = false.
Proof.
  unfold not_numeric. intros H.
  apply andb_true_iff in H as [_ H]. apply negb_true_iff, H.
Qed.

Lemma int_digits_not_numeric s : forall a b,
  some_char not_numeric s = true -> int_digits s a b = None.
Proof.
  induction s as [|c s IH]; intros a b H; simpl in *; [discriminate|].
  destruct (not_numeric c) eqn:Hc; simpl in H.
  - unfold not_numeric in Hc.
    destruct (is_digit c); [discriminate|].
    destruct (Ascii.eqb c "_"); [discriminate|]. reflexivity.
  - destruct (is_digit c); [apply IH, H|].
    destruct (Ascii.eqb c "_" && b); [apply IH, H|reflexivity].
Qed.

Lemma py_int_not_numeric s :
  some_char not_numeric s = true -> py_int s = None.
Proof.
  intros H. unfold py_int.
  rewrite <- (some_char_strip not_numeric s not_numeric_not_space) in H.
  destruct (strip s) as [|c r]; [discriminate|].
  simpl in H.
  destruct (not_numeric c) eqn:Hc; simpl in H.
  - clear H. revert Hc.
    destruct c as [[] [] [] [] [] [] [] []]; intros Hc;
      try (vm_compute in Hc; discriminate Hc);
      reflexivity.
  - assert (Hr : forall b, int_digits r 0 b = None)
      by (intros b; apply int_digits_not_numeric, H).
    assert (Hc0 : forall a b, int_digits (String c r) a b = None).
    { intros a b. simpl. destruct (is_digit c); [apply int_digits_not_numeric, H|].
      destruct (Ascii.eqb c "_" && b); [apply int_digits_not_numeric, H|reflexivity]. }
    destruct c as [[] [] [] [] [] [] [] []];
      try (apply Hc0); unfold int_signed; rewrite Hr; reflexivity.
Qed.

(** X4: a lookup for an artifact whose base name does not start like a
    number (one of its first six characters is no digit, underscore, sign
    or white space, as in [merged.pdf]) raises [ValueError]; nothing is
    printed, no lock is taken and the world is unchanged. *)
Theorem get_pageinfo_rejects_unnumbered_names (w : world) (input_file : string) :
  some_char not_numeric (slice_to 6 (basename input_file)) = true ->
  get_pageinfo input_file w = (Raised ValueError, w).
Proof.
  intros H. unfold get_pageinfo, pageno_of.
  rewrite (py_int_not_numeric _ H). reflexivity.
Qed.

Lemma get_pageinfo_rejects_unnumbered_names_witness :
  get_pageinfo "tmp/merged.pdf" demo_world = (Raised ValueError, demo_world).
Proof.
  apply (get_pageinfo_rejects_unnumbered_names demo_world "tmp/merged.pdf").
  vm_compute. reflexivity.
Defined.

Lemma py_index_minus_one {A : Type} (l : list A) :
  py_index l (-1) = last l.
Proof.
  unfold py_index. simpl (0 <=? -1). cbn [andb].
  rewrite last_lookup.
  destruct l as [|x l]; [reflexivity|].
  assert (Hn : (- Z.of_nat (length (x :: l)) <=? -1) = true)
    by (apply Z.leb_le; simpl; lia).
  rewrite Hn. simpl (-1 <? 0). cbn [andb].
  f_equal. simpl length. lia.
Qed.

(** X5: the page number zero wraps around.  For an artifact whose prefix
    is [000000] the lookup computes the index -1, and Python's indexing
    from the end makes it return the descriptor of the last page of a
    non-empty store, not an error. *)
Theorem get_pageinfo_prefix_zero_reads_last_page (w : world)
    (dir suffix : string) (d : pageinfo) :
  all_chars (fun c => negb (Ascii.eqb c slash)) suffix = true ->
  last (pdfinfo w) = Some d ->
  pageno_of (dir ++ "/" ++ "000000" ++ suffix) = Some (-1) /\
  get_pageinfo (dir ++ "/" ++ "000000" ++ suffix) w
  = (Ok d, looked_up w (-1)).
Proof.
  intros Hsuf Hlast.
  assert (Hno : pageno_of (dir ++ "/" ++ "000000" ++ suffix) = Some (-1)).
  { change "000000" with (printf_06d 0).
    apply (pageno_of_prefixed dir suffix 0); [lia|exact Hsuf]. }
  split; [exact Hno|].
  apply get_pageinfo_ok; [exact Hno|].
  rewrite py_index_minus_one. exact Hlast.
Qed.

Lemma get_pageinfo_prefix_zero_reads_last_page_witness :
  fst (get_pageinfo ("tmp" ++ "/" ++ "000000" ++ ".page.png") demo_world)
  = Ok (demo_page [gray_image; rgb_image] (601 # 2) 200).
Proof.
  destruct (get_pageinfo_prefix_zero_reads_last_page demo_world "tmp"
              ".page.png" (demo_page [gray_image; rgb_image] (601 # 2) 200))
    as (_ & H).
  - vm_compute. reflexivity.
  - vm_compute. reflexivity.
  - rewrite H. reflexivity.
Defined.

(* ===================================================================== *)
(** * Stages on missing inputs *)
(* ===================================================================== *)

(** X6: the merge stage on the short input lists.  On an empty list it
    raises [IndexError] before anything happens: no temporary file, no
    program, the world is unchanged.  On a list of one file it takes that
    file for the format-declaration artifact and starts the compositor
    with no page at all. *)
Theorem merge_pages_short_inputs (E : environment) (w : world)
    (only out : string) :
  merge_pages E [] out w = (Raised IndexError, w) /\
  trace (snd (merge_pages E [only] out w))
  = (trace w ++ [ESpawn (args_gs_merge (mktemp E (fs w)) only []); EWait])%list /\
  drop 11 (args_gs_merge (mktemp E (fs w)) only []) = [only].
Proof.
  split; [reflexivity|]. split; [|reflexivity].
  apply (merge_pages_trace E w [] only out).
Qed.

Lemma find_none_endswith (infiles : list string) (suf : string) :
  Forall (fun f => endswith f suf = false) infiles ->
  find (fun ii => endswith ii suf) infiles = None.
Proof.
  induction 1 as [|f l Hf _ IH]; simpl; [reflexivity|].
  rewrite Hf. exact IH.
Qed.

(** X7: the render stage stops with [StopIteration], before it reads or
    writes anything, when none of its input files ends with [.hocr] or
    none of them ends with [.page.png]. *)
Theorem render_page_needs_both_inputs (w : world) (infiles : list string)
    (out : string) :
  Forall (fun f => endswith f ".hocr" = false) infiles \/
  Forall (fun f => endswith f ".page.png" = false) infiles ->
  render_page infiles out w = (Raised StopIteration, w).
Proof.
  intros [H | H]; unfold render_page, next_endswith;
    rewrite (find_none_endswith _ _ H); [reflexivity|].
  destruct (find (fun ii => endswith ii ".hocr") infiles); reflexivity.
Qed.

Lemma render_page_needs_both_inputs_witness :
  render_page ["tmp/000002.page.png"] "tmp/000002.rendered.pdf" demo_world
  = (Raised StopIteration, demo_world) /\
  render_page ["tmp/000001.hocr"] "tmp/000001.rendered.pdf" demo_world
  = (Raised StopIteration, demo_world).
Proof.
  split.
  - apply (render_page_needs_both_inputs demo_world
             ["tmp/000002.page.png"] "tmp/000002.rendered.pdf").
    left. repeat constructor.
  - apply (render_page_needs_both_inputs demo_world
             ["tmp/000001.hocr"] "tmp/000001.rendered.pdf").
    right. repeat constructor.
Defined.

(* ===================================================================== *)
(** * Where the text-recognition program left its output *)
(* ===================================================================== *)

Section Recognized.

Context (E : environment) (w : world) (input_file out : string)
  (pageno : Z) (pi : pageinfo).
Hypothesis Hno : pageno_of input_file = Some pageno.
Hypothesis Hpi : py_index (pdfinfo w) pageno = Some pi.

Let p := run E (args_tesseract E input_file out) (fs w).

Hypothesis Hfast : elapsed p <= 180.
Hypothesis Hrc : returncode p = 0.

Lemma ocr_tesseract_exit_zero :
  ocr_tesseract E input_file out w =
  (let source :=
     if bool_decide (is_Some (files p !! (out ++ ".html")))
     then Some (out ++ ".html")
     else if bool_decide (is_Some (files p !! (out ++ ".hocr")))
     then Some (out ++ ".hocr")
     else None in
   let moved :=
     match source with
     | Some src =>
         match files p !! src with
         | Some c => <[out := c]> (delete src (files p))
         | None => files p
         end
     | None => files p
     end in
   match moved !! out with
   | Some c =>
       (Ok tt,
        {| fs := <[out := rewrite_hocr c]> (delete (out ++ ".bak") moved);
           pdfinfo := pdfinfo w;
           trace := (trace (looked_up w pageno)
                     ++ [ESpawn (args_tesseract E input_file out); EWait]
                     ++ logged_if INFO (stdout p)
                     ++ logged_if ERROR (stderr p))%list |})
   | None =>
       (Raised (FileNotFoundError out),
        {| fs := delete (out ++ ".bak") moved; pdfinfo := pdfinfo w;
           trace := (trace (looked_up w pageno)
                     ++ [ESpawn (args_tesseract E input_file out); EWait]
                     ++ logged_if INFO (stdout p)
                     ++ logged_if ERROR (stderr p))%list |})
   end).
Proof.
  unfold ocr_tesseract.
  unfold mbind at 1. unfold M_bind at 1.
  rewrite (get_pageinfo_ok w input_file pageno pi Hno Hpi).
  unfold Popen, communicate, reap, kill, path_exists, move, logged_if.
  unfold_m. simpl. fold p.
  assert (Ht : (180 <? elapsed p) = false) by (apply Z.ltb_ge; lia).
  rewrite Ht. simpl. rewrite Hrc. simpl.
  destruct (truthy (stdout p)), (truthy (stderr p)); simpl;
    repeat (case_match; simplify_eq/=);
    rewrite ?fileinput_inplace_run; cbn [fs pdfinfo trace];
    repeat (case_match; simplify_eq/=);
    rewrite <- ?app_assoc; try reflexivity;
    try match goal with
        | H : is_Some None |- _ => destruct H as [? H]; discriminate H
        | H : ¬ is_Some (Some _) |- _ => exfalso; apply H; eexists; reflexivity
        end.
Qed.

End Recognized.

(** X8: what the text-recognition stage does when its program exits in
    time with status zero.  The program may have written its result under
    the output name with [.html] or [.hocr] added, or under the output
    name itself.  The [.html] file, if there, is moved to the output name
    (and wins over a [.hocr] file, which stays); else the [.hocr] file is
    moved; else the output file is taken as it is.  The file found is
    rewritten in place by the title workaround, which leaves no file
    under the output name with [.bak] added, whether one was there before
    or not.  If there is no file at any of the three names the stage
    raises [FileNotFoundError] although the program succeeded, after an
    old [.bak] file has been removed. *)
Theorem ocr_tesseract_collects_its_output (E : environment) (w : world)
    (input_file out : string) (pageno : Z) (pi : pageinfo) (c : content) :
  let p := run E (args_tesseract E input_file out) (fs w) in
  let r := ocr_tesseract E input_file out w in
  pageno_of input_file = Some pageno ->
  py_index (pdfinfo w) pageno = Some pi ->
  elapsed p <= 180 ->
  returncode p = 0 ->
  (files p !! (out ++ ".html") = Some c ->
   fst r = Ok tt /\
   fs (snd r) !! out = Some (rewrite_hocr c) /\
   fs (snd r) !! (out ++ ".html") = None /\
   fs (snd r) !! (out ++ ".hocr") = files p !! (out ++ ".hocr") /\
   fs (snd r) !! (out ++ ".bak") = None) /\
  (files p !! (out ++ ".html") = None ->
   files p !! (out ++ ".hocr") = Some c ->
   fst r = Ok tt /\
   fs (snd r) !! out = Some (rewrite_hocr c) /\
   fs (snd r) !! (out ++ ".hocr") = None /\
   fs (snd r) !! (out ++ ".bak") = None) /\
  (files p !! (out ++ ".html") = None ->
   files p !! (out ++ ".hocr") = None ->
   files p !! out = Some c ->
   fst r = Ok tt /\
   fs (snd r)
   = <[out := rewrite_hocr c]> (delete (out ++ ".bak") (files p))) /\
  (files p !! (out ++ ".html") = None ->
   files p !! (out ++ ".hocr") = None ->
   files p !! out = None ->
   fst r = Raised (FileNotFoundError out) /\
   fs (snd r) = delete (out ++ ".bak") (files p)).
Proof.
  intros p r Hno Hpi Hfast Hrc. unfold r.
  rewrite (ocr_tesseract_exit_zero E w input_file out pageno pi Hno Hpi Hfast Hrc).
  fold p.
  assert (Hhtml : out <> out ++ ".html")
    by (apply append_nonempty_distinct; discriminate).
  assert (Hhocr : out <> out ++ ".hocr")
    by (apply append_nonempty_distinct; discriminate).
  assert (Hbak : out <> out ++ ".bak")
    by (apply append_nonempty_distinct; discriminate).
  assert (Hdiff : out ++ ".html" <> out ++ ".hocr")
    by (intros H; apply append_inj_l in H; discriminate H).
  assert (Hdiff1 : out ++ ".html" <> out ++ ".bak")
    by (intros H; apply append_inj_l in H; discriminate H).
  assert (Hdiff2 : out ++ ".hocr" <> out ++ ".bak")
    by (intros H; apply append_inj_l in H; discriminate H).
  split; [|split; [|split]].
  - intros Hc. cbv zeta.
    rewrite bool_decide_true by (rewrite Hc; eexists; reflexivity).
    rewrite Hc, lookup_insert_eq. cbn [fst snd fs].
    split; [reflexivity|]. split; [apply lookup_insert_eq|].
    rewrite !lookup_insert_ne by congruence.
    rewrite !lookup_delete_eq.
    rewrite !lookup_delete_ne by congruence.
    rewrite !lookup_insert_ne by congruence.
    rewrite lookup_delete_eq, lookup_delete_ne by congruence.
    repeat split; reflexivity.
  - intros Hn Hc. cbv zeta.
    rewrite bool_decide_false by (rewrite Hn; intros [? ?]; discriminate).
    rewrite bool_decide_true by (rewrite Hc; eexists; reflexivity).
    rewrite Hc, lookup_insert_eq. cbn [fst snd fs].
    split; [reflexivity|]. split; [apply lookup_insert_eq|].
    rewrite !lookup_insert_ne by congruence.
    rewrite !lookup_delete_eq.
    rewrite !lookup_delete_ne by congruence.
    rewrite !lookup_insert_ne by congruence.
    rewrite lookup_delete_eq. split; reflexivity.
  - intros Hn1 Hn2 Hc. cbv zeta.
    rewrite bool_decide_false by (rewrite Hn1; intros [? ?]; discriminate).
    rewrite bool_decide_false by (rewrite Hn2; intros [? ?]; discriminate).
    rewrite Hc. split; reflexivity.
  - intros Hn1 Hn2 Hn3. cbv zeta.
    rewrite bool_decide_false by (rewrite Hn1; intros [? ?]; discriminate).
    rewrite bool_decide_false by (rewrite Hn2; intros [? ?]; discriminate).
    rewrite Hn3. split; reflexivity.
Qed.

Lemma ocr_tesseract_collects_its_output_witness :
  fs stale_backup_world !! "tmp/000002.hocr.bak" = Some (Bytes "old backup") /\
  fst (ocr_tesseract tesseract302_env "tmp/000002.page.png" "tmp/000002.hocr"
         stale_backup_world) = Ok tt /\
  fs (snd (ocr_tesseract tesseract302_env "tmp/000002.page.png"
             "tmp/000002.hocr" stale_backup_world)) !! "tmp/000002.hocr"
  = Some (Hocr demo_hocr) /\
  fs (snd (ocr_tesseract tesseract302_env "tmp/000002.page.png"
             "tmp/000002.hocr" stale_backup_world)) !! "tmp/000002.hocr.bak"
  = None /\
  fst (ocr_tesseract quiet_env "tmp/000002.page.png" "tmp/000002.hocr"
         demo_world) = Raised (FileNotFoundError "tmp/000002.hocr").
Proof.
  split; [vm_compute; reflexivity|].
  destruct (ocr_tesseract_collects_its_output tesseract302_env
              stale_backup_world
              "tmp/000002.page.png" "tmp/000002.hocr" 1
              (demo_page [] 300 300) (Hocr demo_hocr))
    as (H1 & _);
    [vm_compute; reflexivity | vm_compute; reflexivity
    | vm_compute; discriminate | vm_compute; reflexivity |].
  destruct H1 as (Ha & Hb & _ & _ & Hbak); [vm_compute; reflexivity|].
  destruct (ocr_tesseract_collects_its_output quiet_env demo_world
              "tmp/000002.page.png" "tmp/000002.hocr" 1
              (demo_page [] 300 300) (Hocr demo_hocr))
    as (_ & _ & _ & H4);
    [vm_compute; reflexivity | vm_compute; reflexivity
    | vm_compute; discriminate | vm_compute; reflexivity |].
  destruct H4 as (Hc & _); [vm_compute; reflexivity ..|].
  split; [exact Ha|]. split; [exact Hb|]. split; [exact Hbak|exact Hc].
Defined.

(* ===================================================================== *)
(** * The title workaround on the text of a page *)
(* ===================================================================== *)

Lemma strip_prefix_spec (pre : string) : forall s r,
  strip_prefix pre s = Some r -> s = pre ++ r.
Proof.
  induction pre as [|a pre IH]; intros s r H; simpl in H.
  - injection H as ->. reflexivity.
  - destruct s as [|b s]; [discriminate|].
    destruct (Ascii.eqb_spec a b) as [->|]; [|discriminate].
    rewrite sapp_cons. f_equal. apply IH, H.
Qed.

Lemma strip_prefix_app (pre r : string) : strip_prefix pre (pre ++ r) = Some r.
Proof.
  induction pre as [|a pre IH]; [reflexivity|].
  rewrite sapp_cons. simpl. rewrite Ascii.eqb_refl. exact IH.
Qed.

Lemma first_quote_none (s : string) :
  all_chars no_quote s = true -> first_quote s = None.
Proof.
  induction s as [|c s IH]; simpl; [reflexivity|].
  unfold no_quote at 1. intros [Hc Hs]%andb_true_iff.
  apply negb_true_iff in Hc. rewrite Hc, (IH Hs). reflexivity.
Qed.

Lemma first_quote_app (a s : string) :
  all_chars no_quote a = true ->
  first_quote (a ++ s) = (fun k => (String.length a + k)%nat) <$> first_quote s.
Proof.
  induction a as [|c a IH]; intros Ha.
  - rewrite sapp_nil_l. destruct (first_quote s); reflexivity.
  - rewrite sapp_cons. simpl in *. apply andb_true_iff in Ha as [Hc Ha].
    unfold no_quote in Hc. apply negb_true_iff in Hc. rewrite Hc.
    rewrite (IH Ha). destruct (first_quote s); reflexivity.
Qed.

Lemma image_title_match_first_quote (s : string) (n : nat) :
  image_title_match s = Some n -> first_quote s = Some 13%nat.
Proof.
  unfold image_title_match.
  destruct (strip_prefix image_title_prefix s) as [rest|] eqn:Hp;
    [|discriminate].
  intros _. apply strip_prefix_spec in Hp. subst s. reflexivity.
Qed.

Lemma image_title_match_no_quote (s : string) :
  all_chars no_quote s = true -> image_title_match s = None.
Proof.
  intros Hs. destruct (image_title_match s) as [n|] eqn:Hm; [|reflexivity].
  apply image_title_match_first_quote in Hm.
  rewrite (first_quote_none s Hs) in Hm. discriminate.
Qed.

Lemma sub_image_title_no_quote (s : string) :
  all_chars no_quote s = true -> sub_image_title 0 s = s.
Proof.
  induction s as [|c s IH]; intros Hs; [reflexivity|].
  cbn [sub_image_title]. rewrite (image_title_match_no_quote _ Hs).
  simpl in Hs. apply andb_true_iff in Hs as [_ Hs].
  rewrite (IH Hs). reflexivity.
Qed.

Lemma quoted_name_length_name (name rest : string) :
  all_chars no_quote name = true ->
  quoted_name_length (name ++ String dquote (String ";" rest))
  = Some (String.length name).
Proof.
  induction name as [|c name IH]; intros Hn.
  - reflexivity.
  - rewrite sapp_cons. simpl in *. apply andb_true_iff in Hn as [Hc Hn].
    unfold no_quote in Hc. apply negb_true_iff in Hc. rewrite Hc.
    rewrite (IH Hn). reflexivity.
Qed.

Lemma sub_image_title_skip (x y : string) :
  sub_image_title (String.length x) (x ++ y) = sub_image_title 0 y.
Proof.
  induction x as [|c x IH]; [reflexivity|].
  rewrite sapp_cons. simpl. exact IH.
Qed.

Lemma sub_image_title_at_title (name rest : string) :
  all_chars no_quote name = true ->
  sub_image_title 0
    (image_title_prefix ++ name ++ String dquote (String ";" rest))
  = image_title_blank ++ sub_image_title 0 rest.
Proof.
  intros Hn.
  set (whole := image_title_prefix ++ name ++ String dquote (String ";" rest)).
  assert (Hm : image_title_match whole
               = Some (String.length image_title_prefix
                       + String.length name + 2)%nat).
  { unfold image_title_match, whole. rewrite strip_prefix_app.
    rewrite (quoted_name_length_name name rest Hn). reflexivity. }
  assert (Hw : whole = String "t"
                 (("itle='image " ++ String dquote EmptyString)
                  ++ name ++ String dquote (String ";" EmptyString) ++ rest)).
  { reflexivity. }
  rewrite Hw in *. cbn [sub_image_title]. rewrite Hm. f_equal.
  rewrite <- !sapp_assoc.
  rewrite <- (sub_image_title_skip
                ((("itle='image " ++ String dquote EmptyString) ++ name)
                 ++ String dquote (String ";" EmptyString)) rest).
  f_equal. rewrite !sapp_length. simpl. lia.
Qed.

Lemma sub_image_title_before_title (a s : string) :
  all_chars no_quote a = true ->
  first_quote s = Some 13%nat ->
  sub_image_title 0 (a ++ s) = a ++ sub_image_title 0 s.
Proof.
  intros Ha Hs. induction a as [|c a IH]; [reflexivity|].
  rewrite !sapp_cons. cbn [sub_image_title].
  assert (Hm : image_title_match (String c (a ++ s)) = None).
  { destruct (image_title_match (String c (a ++ s))) as [n|] eqn:Hm;
      [|reflexivity].
    apply image_title_match_first_quote in Hm.
    rewrite <- sapp_cons, (first_quote_app (String c a) s Ha), Hs in Hm.
    simpl in Hm. injection Hm as Hm. lia. }
  rewrite Hm. simpl in Ha. apply andb_true_iff in Ha as [_ Ha].
  rewrite (IH Ha). reflexivity.
Qed.

(** X9: the title workaround blanks the file name.  In a line, the first
    title of the form [title='image ], a double quote, a file name, a
    double quote and a semicolon is replaced by the same with a single
    space for the file name, whatever the file name is made of (quotes of
    the other kind, angle brackets, ampersands) as long as it holds no
    double quote; what precedes the title is kept, and the rest of the
    line is treated in the same way. *)
Theorem title_file_name_is_blanked (before name rest : string) :
  all_chars no_quote before = true ->
  all_chars no_quote name = true ->
  sub_image_title 0
    (before ++ image_title_prefix ++ name
       ++ String dquote (String ";" rest))
  = before ++ image_title_prefix ++ " " ++ String dquote (String ";" EmptyString)
      ++ sub_image_title 0 rest.
Proof.
  intros Hb Hn.
  rewrite (sub_image_title_before_title before _ Hb) by reflexivity.
  rewrite (sub_image_title_at_title name rest Hn).
  unfold image_title_blank. rewrite !sapp_assoc. reflexivity.
Qed.

Lemma title_file_name_is_blanked_witness :
  sub_image_title 0
    ("<div class='ocr_page' " ++ image_title_prefix ++ "scan's <1>&.png"
       ++ String dquote (String ";" " bbox 0 0 2550 3300'>"))
  = "<div class='ocr_page' " ++ image_title_prefix ++ " "
      ++ String dquote (String ";" EmptyString) ++ " bbox 0 0 2550 3300'>".
Proof.
  rewrite (title_file_name_is_blanked "<div class='ocr_page' "
             "scan's <1>&.png" " bbox 0 0 2550 3300'>");
    vm_compute; reflexivity.
Defined.

Lemma universal_newlines_all_chars (P : ascii -> bool) (n : nat) :
  P newline = true ->
  forall s, (String.length s <= n)%nat ->
  all_chars P s = true -> all_chars P (universal_newlines s) = true.
Proof.
  intros Hnl. induction n as [|n IH]; intros s Hlen Hs.
  - destruct s; [reflexivity|simpl in Hlen; lia].
  - destruct s as [|c r]; [reflexivity|].
    simpl in Hs. apply andb_true_iff in Hs as [Hc Hr].
    cbn [universal_newlines].
    destruct (Ascii.eqb c carriage_return).
    + simpl. rewrite Hnl. simpl.
      destruct r as [|d r']; [reflexivity|].
      simpl in Hr. apply andb_true_iff in Hr as [Hd Hr'].
      destruct (Ascii.eqb d newline).
      * apply IH; [simpl in *; lia|exact Hr'].
      * apply IH; [simpl in *; lia|]. simpl. rewrite Hd, Hr'. reflexivity.
    + simpl. rewrite Hc. simpl. apply IH; [simpl in *; lia|exact Hr].
Qed.

Lemma universal_newlines_no_cr (n : nat) : forall s,
  (String.length s <= n)%nat ->
  all_chars no_cr (universal_newlines s) = true.
Proof.
  induction n as [|n IH]; intros s Hlen.
  - destruct s; [reflexivity|simpl in Hlen; lia].
  - destruct s as [|c r]; [reflexivity|].
    cbn [universal_newlines].
    destruct (Ascii.eqb c carriage_return) eqn:Hc.
    + simpl. destruct r as [|d r']; [reflexivity|].
      destruct (Ascii.eqb d newline); apply IH; simpl in *; lia.
    + simpl. unfold no_cr at 1. rewrite Hc. simpl.
      apply IH. simpl in Hlen. lia.
Qed.

Lemma readlines_concat (s : string) : forall cur,
  concat_strings (readlines s cur) = rev_string cur EmptyString ++ s.
Proof.
  induction s as [|c s IH]; intros cur; simpl.
  - destruct cur; simpl; [reflexivity|].
    rewrite !sapp_nil_r. reflexivity.
  - destruct (Ascii.eqb_spec c newline) as [->|Hc].
    + simpl. rewrite IH. simpl.
      rewrite (rev_string_app cur (String newline EmptyString)).
      rewrite sapp_assoc. reflexivity.
    + rewrite IH. simpl.
      rewrite (rev_string_app cur (String c EmptyString)).
      rewrite sapp_assoc. reflexivity.
Qed.

Lemma readlines_all_chars (P : ascii -> bool) (s : string) : forall cur,
  all_chars P s = true -> all_chars P cur = true ->
  Forall (fun line => all_chars P line = true) (readlines s cur).
Proof.
  induction s as [|c s IH]; intros cur Hs Hcur; simpl.
  - destruct cur as [|d cur]; [constructor|].
    constructor; [|constructor].
    rewrite all_chars_rev. simpl in *. rewrite Hcur. reflexivity.
  - simpl in Hs. apply andb_true_iff in Hs as [Hc Hs].
    destruct (Ascii.eqb c newline).
    + constructor; [|apply IH; [exact Hs|reflexivity]].
      rewrite all_chars_rev. simpl. rewrite Hcur. simpl. rewrite Hc. reflexivity.
    + apply IH; [exact Hs|]. simpl. rewrite Hc, Hcur. reflexivity.
Qed.

Lemma map_sub_no_quote (lines : list string) :
  Forall (fun line => all_chars no_quote line = true) lines ->
  map (sub_image_title 0) lines = lines.
Proof.
  induction 1 as [|x l Hx _ IH]; simpl; [reflexivity|].
  rewrite (sub_image_title_no_quote x Hx), IH. reflexivity.
Qed.

Lemma sub_image_title_all_chars (P : ascii -> bool) (s : string) :
  all_chars P image_title_blank = true ->
  all_chars P s = true ->
  forall k, all_chars P (sub_image_title k s) = true.
Proof.
  intros Hblank. induction s as [|c s IH]; intros Hs k; [reflexivity|].
  simpl in Hs. apply andb_true_iff in Hs as [Hc Hs].
  cbn [sub_image_title]. destruct k as [|k]; [|apply IH, Hs].
  destruct (image_title_match (String c s)).
  - rewrite all_chars_app, Hblank. apply IH, Hs.
  - simpl. rewrite Hc. apply IH, Hs.
Qed.

Lemma concat_all_chars (P : ascii -> bool) (lines : list string) :
  Forall (fun line => all_chars P line = true) lines ->
  all_chars P (concat_strings lines) = true.
Proof.
  induction 1 as [|x l Hx _ IH]; simpl; [reflexivity|].
  rewrite all_chars_app, Hx, IH. reflexivity.
Qed.

(** X10: the rewriting at the end of the text-recognition stage, on the text
    of a file.  The result never holds a carriage return (the lines are
    read with newline translation and written back as they are), and a
    text without any double quote comes back unchanged but for that
    translation. *)
Theorem rewrite_hocr_text (s : string) :
  (exists t, rewrite_hocr (Bytes s) = Bytes t /\ all_chars no_cr t = true) /\
  (all_chars no_quote s = true ->
   rewrite_hocr (Bytes s) = Bytes (universal_newlines s)).
Proof.
  split.
  - eexists. split; [reflexivity|].
    apply concat_all_chars.
    assert (Hl : Forall (fun line => all_chars no_cr line = true)
                   (readlines (universal_newlines s) EmptyString))
      by (apply readlines_all_chars;
          [apply (universal_newlines_no_cr (String.length s)); lia
          |reflexivity]).
    induction Hl as [|x l Hx _ IH]; simpl; constructor; [|exact IH].
    apply sub_image_title_all_chars; [reflexivity|exact Hx].
  - intros Hs. unfold rewrite_hocr. f_equal.
    rewrite map_sub_no_quote.
    + rewrite readlines_concat. reflexivity.
    + apply readlines_all_chars; [|reflexivity].
      apply (universal_newlines_all_chars no_quote (String.length s));
        [reflexivity|lia|exact Hs].
Qed.

Lemma rewrite_hocr_text_witness :
  rewrite_hocr
    (Bytes ("<p>line one" ++ String carriage_return (String newline "<p>two")))
  = Bytes ("<p>line one" ++ String newline "<p>two").
Proof.
  rewrite (proj2 (rewrite_hocr_text
                    ("<p>line one"
                     ++ String carriage_return (String newline "<p>two"))));
    vm_compute; reflexivity.
Defined.

(* ===================================================================== *)
(** * What the validation stage reads in the report *)
(* ===================================================================== *)

Lemma search_from_found (p : list item) (a s : string) : forall bol,
  match_here p (bol_after bol a) s = true ->
  search_from p bol (a ++ s) = true.
Proof.
  induction a as [|c a IH]; intros bol H.
  - rewrite sapp_nil_l. simpl in H.
    destruct s; simpl; rewrite H; reflexivity.
  - rewrite sapp_cons. simpl. rewrite (IH _ H). apply orb_true_r.
Qed.

Lemma match_here_lits (m : string) (q : list item) (rest : string) :
  (forall b, match_here q b rest = true) ->
  forall m' bol, ieq_string m m' = true ->
  match_here (lits m ++ q) bol (m' ++ rest) = true.
Proof.
  intros Hq. induction m as [|x m IH]; intros m' bol H.
  - destruct m'; [|discriminate]. apply Hq.
  - destruct m' as [|y m']; [discriminate|].
    simpl in H. apply andb_true_iff in H as [Hxy H].
    rewrite sapp_cons. simpl. rewrite Hxy. simpl. apply IH, H.
Qed.

Lemma match_star_skip (a : atom) (k : bool -> string -> bool)
    (x rest : string) :
  (forall b, k b rest = true) ->
  all_chars (atom_ok a) x = true ->
  forall bol, match_star a k bol (x ++ rest) = true.
Proof.
  intros Hk. induction x as [|c x IH]; intros Hx bol.
  - rewrite sapp_nil_l. destruct rest; simpl; rewrite Hk; reflexivity.
  - rewrite sapp_cons. simpl in *. apply andb_true_iff in Hx as [Hc Hx].
    rewrite Hc, (IH Hx). apply orb_true_r.
Qed.

Lemma bol_after_line (a : string) :
  a = EmptyString \/ (exists a', a = a' ++ String newline EmptyString) ->
  bol_after true a = true.
Proof.
  intros [-> | [a' ->]]; [reflexivity|].
  assert (G : forall b, bol_after b (a' ++ String newline EmptyString) = true).
  { induction a' as [|c a' IH]; intros b; [reflexivity|].
    rewrite sapp_cons. simpl. apply IH. }
  apply G.
Qed.

(** A line that starts with white space, then a keyword, then anything up
    to a phrase, is found by the pattern made of the anchor, [\s+], the
    keyword, [.*] and the phrase. *)
Lemma keyword_line_found (keyword phrase : string)
    (a ws kw mid ph b : string) c :
  a = EmptyString \/ (exists a', a = a' ++ String newline EmptyString) ->
  is_space c = true ->
  all_chars is_space ws = true ->
  ieq_string keyword kw = true ->
  all_chars no_newline mid = true ->
  ieq_string phrase ph = true ->
  re_search (Bol :: Plus Space :: lits keyword ++ Star Dot :: lits phrase)
    (a ++ String c ws ++ kw ++ mid ++ ph ++ b) = true.
Proof.
  intros Ha Hc Hws Hkw Hmid Hph. unfold re_search.
  apply search_from_found. rewrite (bol_after_line a Ha).
  rewrite sapp_cons. simpl. rewrite Hc. simpl.
  apply match_star_skip; [|exact Hws].
  intros b1. apply match_here_lits; [|exact Hkw].
  intros b2. simpl.
  apply match_star_skip; [|exact Hmid].
  intros b3. rewrite <- (app_nil_r (lits phrase)).
  apply match_here_lits; [reflexivity|exact Hph].
Qed.

(** X11: a report that holds the word [ErrorMessage] anywhere, in any
    mixture of upper and lower case, is classified as malformed, whatever
    else it says (a status line, a PDF/A profile line). *)
Theorem error_message_means_malformed (a m b : string) :
  ieq_string "ErrorMessage" m = true ->
  pdf_is_valid (a ++ m ++ b) = false /\
  classify (a ++ m ++ b) = Malformed.
Proof.
  intros Hm.
  assert (H : re_search re_error_message (a ++ m ++ b) = true).
  { unfold re_search, re_error_message. apply search_from_found.
    rewrite <- (app_nil_r (lits "ErrorMessage")).
    apply match_here_lits; [reflexivity|exact Hm]. }
  assert (Hv : pdf_is_valid (a ++ m ++ b) = false).
  { unfold pdf_is_valid. rewrite H.
    destruct (re_search re_not_valid _), (re_search re_not_well_formed _);
      reflexivity. }
  split; [exact Hv|]. unfold classify. rewrite Hv. reflexivity.
Qed.

Lemma error_message_means_malformed_witness :
  classify ((" Status: Well-Formed and valid" ++ String newline
               " Profile: ISO PDF/A-1, Level B" ++ String newline "  ")
            ++ "ERRORMESSAGE" ++ ": Improperly nested dictionary")
  = Malformed.
Proof.
  refine (proj2 (error_message_means_malformed _ "ERRORMESSAGE" _ _)).
  vm_compute. reflexivity.
Defined.

(** X12: how the status and profile lines are recognized.  A line of the
    report that starts with at least one white-space character followed by
    the word [Status] and, later on the same line, the phrase [not valid]
    or [Not well-formed] (all in any letter case) makes the report
    malformed; such a line with [Profile:] and [PDF/A-1] sets the PDF/A
    flag.  The line may stand anywhere in the report. *)
Theorem status_and_profile_lines (a ws kw mid ph b : string) (c : ascii) :
  a = EmptyString \/ (exists a', a = a' ++ String newline EmptyString) ->
  is_space c = true ->
  all_chars is_space ws = true ->
  all_chars no_newline mid = true ->
  let report := a ++ String c ws ++ kw ++ mid ++ ph ++ b in
  (ieq_string "Status" kw = true ->
   ieq_string "not valid" ph = true \/ ieq_string "Not well-formed" ph = true ->
   classify report = Malformed) /\
  (ieq_string "Profile:" kw = true ->
   ieq_string "PDF/A-1" ph = true ->
   pdf_is_pdfa report = true).
Proof.
  intros Ha Hc Hws Hmid report. split.
  - intros Hkw Hph. unfold classify, pdf_is_valid.
    destruct Hph as [Hph | Hph].
    + pose proof (keyword_line_found "Status" "not valid" a ws kw mid ph b c
                    Ha Hc Hws Hkw Hmid Hph) as H.
      fold re_not_valid in H. fold report in H. rewrite H.
      destruct (re_search re_error_message report),
        (re_search re_not_well_formed report); reflexivity.
    + pose proof (keyword_line_found "Status" "Not well-formed" a ws kw mid
                    ph b c Ha Hc Hws Hkw Hmid Hph) as H.
      fold re_not_well_formed in H. fold report in H. rewrite H.
      destruct (re_search re_error_message report),
        (re_search re_not_valid report); reflexivity.
  - intros Hkw Hph. unfold pdf_is_pdfa.
    pose proof (keyword_line_found "Profile:" "PDF/A-1" a ws kw mid ph b c
                  Ha Hc Hws Hkw Hmid Hph) as H.
    fold re_profile_pdfa in H. fold report in H. rewrite H. reflexivity.
Qed.

Lemma status_and_profile_lines_witness :
  classify (("JhoveView (Rel. 1.6)" ++ String newline EmptyString)
            ++ String " " " " ++ "STATUS" ++ ": well-formed, but "
            ++ "Not Valid" ++ String newline " Profile:") = Malformed.
Proof.
  refine (proj1 (status_and_profile_lines
                   ("JhoveView (Rel. 1.6)" ++ String newline EmptyString)
                   " " "STATUS" ": well-formed, but " "Not Valid"
                   (String newline " Profile:") " "%char _ _ _ _) _ _).
  - right. eexists. reflexivity.
  - reflexivity.
  - reflexivity.
  - vm_compute. reflexivity.
  - vm_compute. reflexivity.
  - left. vm_compute. reflexivity.
Defined.

(* ===================================================================== *)
(** * Start-up *)
(* ===================================================================== *)

Lemma split_on_nonempty (sep : ascii) (s : string) : forall cur,
  split_on sep s cur <> [].
Proof.
  induction s as [|c s IH]; intros cur; simpl; [discriminate|].
  destruct (Ascii.eqb c sep); [discriminate|apply IH].
Qed.

Lemma join_cons (sep x : string) (l : list string) :
  l <> [] -> join sep (x :: l) = x ++ sep ++ join sep l.
Proof. destruct l; [congruence|reflexivity]. Qed.

Lemma join_split_on (sep : ascii) (s : string) : forall cur,
  join (String sep EmptyString) (split_on sep s cur)
  = rev_string cur EmptyString ++ s.
Proof.
  induction s as [|c s IH]; intros cur; simpl.
  - symmetry. apply sapp_nil_r.
  - destruct (Ascii.eqb_spec c sep) as [->|Hc].
    + rewrite join_cons by apply split_on_nonempty.
      rewrite IH. reflexivity.
    + rewrite IH. simpl.
      rewrite (rev_string_app cur (String c EmptyString)).
      rewrite sapp_assoc. reflexivity.
Qed.

(** What is asked of tesseract once the option is read: the languages of
    the first [-l] when it holds a plus sign, else all of them. *)
Lemma select_languages_cases (LANGUAGES : gset string)
    (language : option (list string)) :
  exists requested,
    requested <> [] /\
    select_languages LANGUAGES language =
      (if bool_decide (list_to_set requested ⊆ LANGUAGES)
       then Continue requested
       else Exit EXIT_BAD_ARGS (list_to_set requested ∖ LANGUAGES)) /\
    match language with
    | None | Some [] => requested = ["eng"]
    | Some (first :: rest) =>
        requested = (if contains_char "+"%char first
                     then split "+"%char first else first :: rest)
    end.
Proof.
  unfold select_languages.
  destruct language as [[|first rest]|].
  - exists ["eng"]. repeat split; discriminate.
  - destruct (contains_char "+" first) eqn:Hplus.
    + exists (split "+" first). split; [apply split_on_nonempty|].
      split; reflexivity.
    + exists (first :: rest). split; [discriminate|]. split; reflexivity.
  - exists ["eng"]. repeat split; discriminate.
Qed.

(** X13: the module goes on only with languages that tesseract has.  When
    it goes on, the list of languages is not empty and each of them is
    installed; otherwise it exits with the status of bad arguments, after
    it has printed a non-empty set of languages none of which is
    installed.  Without [-l] the language is English. *)
Theorem select_languages_outcome (LANGUAGES : gset string)
    (language : option (list string)) :
  match select_languages LANGUAGES language with
  | Continue l => l <> [] /\ Forall (fun x => x ∈ LANGUAGES) l
  | Exit status missing =>
      status = 1 /\ missing <> ∅ /\ missing ## LANGUAGES
  end /\
  (select_languages LANGUAGES None
   = if bool_decide ("eng" ∈ LANGUAGES) then Continue ["eng"]
     else Exit 1 {["eng"]}).
Proof.
  split.
  - destruct (select_languages_cases LANGUAGES language)
      as (requested & Hne & -> & _).
    destruct (bool_decide_reflect (list_to_set requested ⊆ LANGUAGES))
      as [Hsub | Hsub].
    + split; [exact Hne|]. apply Forall_forall. intros x Hx.
      apply Hsub. apply elem_of_list_to_set. exact Hx.
    + split; [reflexivity|]. split.
      * intros Hempty. apply Hsub. intros x Hx.
        destruct (decide (x ∈ LANGUAGES)) as [Hin|Hout]; [exact Hin|].
        assert (Hd : x ∈ (list_to_set requested ∖ LANGUAGES : gset string))
          by (apply elem_of_difference; split; assumption).
        rewrite Hempty in Hd. set_solver.
      * set_solver.
  - unfold select_languages.
    destruct (bool_decide_reflect ("eng" ∈ LANGUAGES)) as [Hin | Hout].
    + rewrite bool_decide_true by set_solver. reflexivity.
    + rewrite bool_decide_false by set_solver. f_equal. set_solver.
Qed.

(** X14: the languages reach tesseract in the form the user gave them.
    When the module goes on with the languages [l] and the options hold
    them, the third argument of the command line of tesseract, after [-l],
    is the first [-l] argument of the user itself when that holds a plus
    sign (the further [-l] arguments are then not used), and otherwise
    the [-l] arguments joined by plus signs. *)
Theorem tesseract_language_argument (E : environment)
    (LANGUAGES : gset string) (first : string) (rest l : list string)
    (input_file out : string) :
  select_languages LANGUAGES (Some (first :: rest)) = Continue l ->
  language (opts E) = l ->
  args_tesseract E input_file out !! 1%nat = Some "-l" /\
  args_tesseract E input_file out !! 2%nat
  = Some (if contains_char "+"%char first then first
          else join "+" (first :: rest)).
Proof.
  intros Hsel Hopt.
  destruct (select_languages_cases LANGUAGES (Some (first :: rest)))
    as (requested & _ & Heq & Hreq).
  rewrite Heq in Hsel.
  destruct (bool_decide (list_to_set requested ⊆ LANGUAGES));
    [|discriminate].
  injection Hsel as <-. rewrite Hreq in Hopt.
  unfold args_tesseract. rewrite Hopt. split; [reflexivity|].
  cbn [lookup list_lookup app]. f_equal.
  destruct (contains_char "+" first); [|reflexivity].
  unfold split. apply (join_split_on "+"%char first EmptyString).
Qed.

Lemma tesseract_language_argument_witness :
  select_languages installed (Some ["eng+deu"; "fra"])
  = Continue ["eng"; "deu"] /\
  args_tesseract bilingual_env "tmp/000001.page.png" "tmp/000001.hocr"
    !! 2%nat = Some "eng+deu".
Proof.
  split; [vm_compute; reflexivity|].
  refine (proj2 (tesseract_language_argument bilingual_env installed
                   "eng+deu" ["fra"] ["eng"; "deu"]
                   "tmp/000001.page.png" "tmp/000001.hocr" _ _)).
  - vm_compute. reflexivity.
  - reflexivity.
Defined.

Lemma ascii_compare_lt (a b : ascii) :
  (code a < code b)%N -> Ascii.compare a b = Lt.
Proof. intros H. unfold Ascii.compare. apply N.compare_lt_iff, H. Qed.

Lemma ascii_compare_gt (a b : ascii) :
  (code b < code a)%N -> Ascii.compare a b = Gt.
Proof. intros H. unfold Ascii.compare. apply N.compare_gt_iff, H. Qed.

Lemma string_compare_refl (s : string) : String.compare s s = Eq.
Proof.
  induction s as [|c s IH]; [reflexivity|]. simpl.
  unfold Ascii.compare. rewrite N.compare_refl. exact IH.
Qed.

Lemma version_prefix_not_old (pre r : string) :
  String.compare pre pre = Eq ->
  String.ltb (pre ++ r) pre = false.
Proof.
  intros _. unfold String.ltb.
  assert (H : String.compare (pre ++ r) pre <> Lt).
  { induction pre as [|c pre IH].
    - rewrite sapp_nil_l. destruct r; discriminate.
    - rewrite sapp_cons. simpl. unfold Ascii.compare.
      rewrite N.compare_refl. exact IH. }
  destruct (String.compare (pre ++ r) pre); congruence.
Qed.

(** X15: the version check compares texts, not numbers.  A version whose
    first character comes before the digit 3 (the digits 0, 1 and 2 among
    them, so every version from 10 to 29 as well) makes the module exit
    with the status of a missing dependency, whatever follows and whatever
    the languages; a version whose first character comes after the digit
    3, and every version that starts with [3.02.02], passes the check. *)
Theorem version_check_is_textual (LANGUAGES : gset string)
    (language : option (list string)) (c : ascii) (r : string) :
  ((code c < 51)%N ->
   start (String c r) LANGUAGES language = Exit 3 ∅) /\
  ((51 < code c)%N ->
   start (String c r) LANGUAGES language
   = select_languages LANGUAGES language) /\
  start ("3.02.02" ++ r) LANGUAGES language
  = select_languages LANGUAGES language.
Proof.
  split; [|split].
  - intros Hc. unfold start, version_too_old, String.ltb, MINIMUM_TESS_VERSION.
    simpl. rewrite (ascii_compare_lt c "3" Hc). reflexivity.
  - intros Hc. unfold start, version_too_old, String.ltb, MINIMUM_TESS_VERSION.
    simpl. rewrite (ascii_compare_gt c "3" Hc). reflexivity.
  - unfold start, version_too_old, MINIMUM_TESS_VERSION.
    rewrite version_prefix_not_old by apply string_compare_refl.
    reflexivity.
Qed.

Lemma version_check_is_textual_witness :
  start "10.0.1" installed (Some ["eng"]) = Exit 3 ∅ /\
  start "4.1.1" installed (Some ["eng"]) = Continue ["eng"] /\
  start "3.02.02" installed (Some ["eng"]) = Continue ["eng"].
Proof.
  destruct (version_check_is_textual installed (Some ["eng"]) "1" "0.0.1")
    as (H1 & _ & _).
  destruct (version_check_is_textual installed (Some ["eng"]) "4" ".1.1")
    as (_ & H2 & _).
  destruct (version_check_is_textual installed (Some ["eng"]) "0"
              EmptyString) as (_ & _ & H3).
  split; [apply H1; vm_compute; reflexivity|].
  split; [rewrite H2 by (vm_compute; reflexivity); vm_compute; reflexivity|].
  change "3.02.02" with ("3.02.02" ++ EmptyString).
  rewrite H3. vm_compute. reflexivity.
Defined.

(* ===================================================================== *)
(** * Stale outputs of the split stage *)
(* ===================================================================== *)

Lemma unlinked_lookup (l : list string) : forall (f : gmap string content) p,
  unlinked l f !! p = if bool_decide (p ∈ l) then None else f !! p.
Proof.
  unfold unlinked. induction l as [|x l IH]; intros f p; cbn [foldl].
  - rewrite bool_decide_false by set_solver. reflexivity.
  - rewrite IH. destruct (decide (p ∈ l)) as [Hl|Hl].
    + rewrite !bool_decide_true by set_solver. reflexivity.
    + rewrite (bool_decide_false _ Hl).
      destruct (decide (p = x)) as [->|Hx].
      * rewrite bool_decide_true by set_solver. apply lookup_delete_eq.
      * rewrite bool_decide_false by set_solver.
        apply lookup_delete_ne. congruence.
Qed.

(** X16: the split stage starts its tool on a directory without the page
    documents of an earlier run.  The tool is started once, on the files of
    the job with every expected output removed and every other file as it
    was, a missing output being no error; the stage fails only when the
    tool does.  So a page document of an earlier run that the tool does
    not write again is gone after the stage. *)
Theorem split_pages_clears_stale_outputs (E : environment) (w : world)
    (input_file root : string) (output_files : list string) :
  let args := args_pdfseparate input_file root in
  exists before : gmap string content,
    (forall p, before !! p
               = if bool_decide (p ∈ output_files) then None else fs w !! p) /\
    split_pages E input_file output_files root w
    = (if returncode (run E args before) =? 0 then Ok tt
       else Raised (CalledProcessError (returncode (run E args before)) args),
       {| fs := files (run E args before); pdfinfo := pdfinfo w;
          trace := trace w ++ [ESpawn args; EWait] |}) /\
    (forall oo, oo ∈ output_files ->
       (forall m, files (run E args m) !! oo = m !! oo) ->
       fs (snd (split_pages E input_file output_files root w)) !! oo = None).
Proof.
  intros args. exists (unlinked output_files (fs w)).
  split; [intros p; apply unlinked_lookup|].
  split; [apply split_pages_run|].
  intros oo Hin Hkeep. rewrite split_pages_run. cbn [snd fs].
  rewrite Hkeep, unlinked_lookup, bool_decide_true by exact Hin.
  reflexivity.
Qed.

Lemma split_pages_clears_stale_outputs_witness :
  fs split_world !! "tmp/000003.page.pdf" = Some (Bytes "%PDF page 3") /\
  fs (snd (split_pages two_page_env "tmp/in.repaired.pdf"
             ["tmp/000001.page.pdf"; "tmp/000002.page.pdf";
              "tmp/000003.page.pdf"] "tmp/" split_world))
    !! "tmp/000003.page.pdf" = None.
Proof.
  split; [vm_compute; reflexivity|].
  destruct (split_pages_clears_stale_outputs two_page_env split_world
              "tmp/in.repaired.pdf" "tmp/"
              ["tmp/000001.page.pdf"; "tmp/000002.page.pdf";
               "tmp/000003.page.pdf"]) as (before & _ & _ & Hgone).
  apply Hgone.
  - set_solver.
  - intros m. cbn [run two_page_env demo_env two_page_run files].
    rewrite !lookup_insert_ne by discriminate. reflexivity.
Defined.

(* ===================================================================== *)
(** * The helper [re_symlink] *)
(* ===================================================================== *)

(** X17: what [re_symlink] does to the directory.  It touches no entry
    but the one at the name of the link, and never removes or replaces a
    regular file.  When it returns normally for two different paths, the
    entry at the name of the link is a symbolic link to the absolute path
    of the input, and the input exists once the old link is out of the
    way.  When an old link is in the way and the input does not exist, the
    old link is removed before the exception is raised: the helper fails
    and leaves no link at all. *)
Theorem re_symlink_outcome (abspath : string -> string)
    (unlink_fails : string -> bool) (input_file soft_link_name old : string)
    (lw : link_world) :
  let r := re_symlink abspath unlink_fails input_file soft_link_name lw in
  (forall p, p <> soft_link_name ->
     entries (snd r) !! p = entries lw !! p) /\
  (forall p, entries lw !! p = Some RegularFile ->
     entries (snd r) !! p = Some RegularFile) /\
  (input_file <> soft_link_name -> fst r = inr tt ->
     entries (snd r) !! soft_link_name
     = Some (SymbolicLink (abspath input_file)) /\
     link_exists (delete soft_link_name (entries lw)) input_file = true) /\
  (input_file <> soft_link_name ->
   entries lw !! soft_link_name = Some (SymbolicLink old) ->
   unlink_fails soft_link_name = false ->
   link_exists (delete soft_link_name (entries lw)) input_file = false ->
     fst r = inl (LinkException
                    ("trying to create a broken symlink to " ++ input_file)) /\
     entries (snd r) !! soft_link_name = None).
Proof.
  intros r. subst r. unfold re_symlink.
  destruct (bool_decide_reflect (input_file = soft_link_name)) as [Heq|Hne].
  { cbn [fst snd link_debug entries].
    split; [reflexivity|]. split; [tauto|]. split; intros Hd; contradiction. }
  destruct (entries lw !! soft_link_name) as [[|t]|] eqn:Hsoft.
  - cbn [fst snd]. split; [reflexivity|]. split; [tauto|].
    split; [discriminate|discriminate].
  - destruct (unlink_fails soft_link_name) eqn:Hfail.
    + cbn [link_debug entries].
      destruct (link_exists (entries lw) input_file); cbn [negb].
      * rewrite Hsoft. cbn [fst snd link_debug entries].
        split; [reflexivity|]. split; [tauto|].
        split; [discriminate|discriminate].
      * cbn [fst snd link_debug entries].
        split; [reflexivity|]. split; [tauto|].
        split; [discriminate|discriminate].
    + cbn [entries].
      destruct (link_exists (delete soft_link_name (entries lw)) input_file)
        eqn:Hex; cbn [negb].
      * cbn [link_debug entries]. rewrite lookup_delete_eq.
        cbn [fst snd entries].
        split; [intros p Hp; rewrite lookup_insert_ne by congruence;
                apply lookup_delete_ne; congruence|].
        split; [intros p Hp;
                assert (p <> soft_link_name) by congruence;
                rewrite lookup_insert_ne by congruence;
                rewrite lookup_delete_ne by congruence; exact Hp|].
        split; [intros _ _; split; [apply lookup_insert_eq|reflexivity]|].
        discriminate.
      * cbn [fst snd entries].
        split; [intros p Hp; apply lookup_delete_ne; congruence|].
        split; [intros p Hp;
                assert (p <> soft_link_name) by congruence;
                rewrite lookup_delete_ne by congruence; exact Hp|].
        split; [discriminate|].
        intros _ _ _ _. split; [reflexivity|apply lookup_delete_eq].
  - rewrite (delete_id _ _ Hsoft).
    destruct (link_exists (entries lw) input_file) eqn:Hex; cbn [negb].
    + cbn [link_debug entries]. rewrite Hsoft. cbn [fst snd entries].
      split; [intros p Hp; apply lookup_insert_ne; congruence|].
      split; [intros p Hp;
              assert (p <> soft_link_name) by congruence;
              rewrite lookup_insert_ne by congruence; exact Hp|].
      split; [intros _ _; split; [apply lookup_insert_eq|reflexivity]|].
      discriminate.
    + cbn [fst snd]. split; [reflexivity|]. split; [tauto|].
      split; [discriminate|discriminate].
Qed.

Lemma re_symlink_outcome_witness :
  (entries (snd (re_symlink demo_abspath (fun _ => false)
                   "in.pdf" "tmp/in.pdf" linked_world)) !! "tmp/in.pdf"
   = Some (SymbolicLink "/home/scan/in.pdf")) /\
  (fst (re_symlink demo_abspath (fun _ => false)
          "gone.pdf" "tmp/in.pdf" linked_world)
   = inl (LinkException "trying to create a broken symlink to gone.pdf") /\
   entries (snd (re_symlink demo_abspath (fun _ => false)
                   "gone.pdf" "tmp/in.pdf" linked_world)) !! "tmp/in.pdf"
   = None).
Proof.
  destruct (re_symlink_outcome demo_abspath (fun _ => false)
              "in.pdf" "tmp/in.pdf" "/old/in.pdf" linked_world)
    as (_ & _ & Hmade & _).
  destruct (re_symlink_outcome demo_abspath (fun _ => false)
              "gone.pdf" "tmp/in.pdf" "/old/in.pdf" linked_world)
    as (_ & _ & _ & Hlost).
  split.
  - refine (proj1 (Hmade _ _)).
    + vm_compute. discriminate.
    + vm_compute. reflexivity.
  - apply Hlost.
    + vm_compute. discriminate.
    + vm_compute. reflexivity.
    + reflexivity.
    + vm_compute. reflexivity.
Defined.

(* ===================================================================== *)
(** * The pages on the command line of the merge *)
(* ===================================================================== *)

(** X18: the merge stage hands the rendered pages to Ghostscript as it
    received them.  Whatever the program does, the stage starts it once,
    with eleven option arguments, then the last input file (the PDF/A
    definition), then the other input files in the order of the input
    list, none left out and none sorted by its name.  When the program
    exits with status zero and has left the temporary file in place, the
    stage ends normally and the output file holds what the program wrote
    to the temporary file. *)
Theorem merge_pages_passes_pages_as_received (E : environment) (w : world)
    (ocr_pages : list string) (postscript out : string) (c : content) :
  let tmp := mktemp E (fs w) in
  let args := args_gs_merge tmp postscript ocr_pages in
  let p := run E args (<[tmp := Bytes EmptyString]> (fs w)) in
  let r := merge_pages E (ocr_pages ++ [postscript]) out w in
  trace (snd r) = (trace w ++ [ESpawn args; EWait])%list /\
  drop 11 args = postscript :: ocr_pages /\
  (returncode p = 0 -> files p !! tmp = Some c -> tmp <> out ->
   fst r = Ok tt /\ fs (snd r) !! out = Some c).
Proof.
  intros tmp args p r. split; [apply merge_pages_trace|].
  split; [reflexivity|].
  intros Hrc Htmp Hne.
  assert (Hrun : r = (Ok tt,
                      {| fs := delete tmp (<[out := c]> (files p));
                         pdfinfo := pdfinfo w;
                         trace := trace w ++ [ESpawn args; EWait] |})).
  { unfold r, merge_pages. rewrite last_snoc, removelast_last.
    unfold NamedTemporaryFile.
    unfold mbind at 1. unfold M_bind at 1. simpl.
    unfold mbind at 1. unfold M_bind at 1. simpl.
    unfold finally, mbind at 1. unfold M_bind at 1.
    rewrite check_call_run. simpl. fold tmp. fold args. fold p.
    rewrite Hrc. simpl.
    unfold copy, unlink. unfold_m. simpl. rewrite Htmp.
    rewrite bool_decide_false by exact Hne. simpl.
    rewrite lookup_insert_ne by congruence. rewrite Htmp. reflexivity. }
  rewrite Hrun. cbn [fst snd fs]. split; [reflexivity|].
  rewrite lookup_delete_ne by congruence. apply lookup_insert_eq.
Qed.

Lemma merge_pages_passes_pages_as_received_witness :
  fst (merge_pages quiet_env
         ["tmp/000002.rendered.pdf"; "tmp/000001.rendered.pdf";
          "tmp/in.pdfa_def.ps"] "tmp/merged.pdf" demo_world) = Ok tt /\
  fs (snd (merge_pages quiet_env
             ["tmp/000002.rendered.pdf"; "tmp/000001.rendered.pdf";
              "tmp/in.pdfa_def.ps"] "tmp/merged.pdf" demo_world))
    !! "tmp/merged.pdf" = Some (Bytes EmptyString) /\
  trace (snd (merge_pages quiet_env
                ["tmp/000002.rendered.pdf"; "tmp/000001.rendered.pdf";
                 "tmp/in.pdfa_def.ps"] "tmp/merged.pdf" demo_world))
  = [ESpawn ["gs"; "-dQUIET"; "-dBATCH"; "-dNOPAUSE"; "-sDEVICE=pdfwrite";
             "-sColorConversionStrategy=/RGB";
             "-sProcessColorModel=DeviceRGB";
             "-dPDFA"; "-sPDFACompatibilityPolicy=2";
             "-sOutputICCProfile=srgb.icc";
             "-sOutputFile=/tmp/tmpgs0001";
             "tmp/in.pdfa_def.ps";
             "tmp/000002.rendered.pdf"; "tmp/000001.rendered.pdf"];
     EWait].
Proof.
  destruct (merge_pages_passes_pages_as_received quiet_env demo_world
              ["tmp/000002.rendered.pdf"; "tmp/000001.rendered.pdf"]
              "tmp/in.pdfa_def.ps" "tmp/merged.pdf" (Bytes EmptyString))
    as (Ht & _ & Hok).
  destruct Hok as (H1 & H2);
    [vm_compute; reflexivity | vm_compute; reflexivity
    | vm_compute; discriminate |].
  split; [exact H1|]. split; [exact H2|].
  etransitivity; [exact Ht|]. vm_compute. reflexivity.
Defined.

